(** * Mini FP&A assistant: a shallow embedding of [agent/tools.py],
      [agent/planner.py] and the load path of [FinanceData.__init__].

    Conventions of the embedding.

    - Amounts, balances and rates are floating point numbers in the program.
      The analytics are modelled over exact rationals [Qc]; a pandas cell
      that may be missing (NaN) is an [option Qc], with [None] for NaN.
      What is stated over them does not depend on the rounding of a sum: it
      compares values that the program computes by the same additions.
      Where the program compares sums that it adds in different orders, the
      sums are taken in binary64 (module [F64], over the floats of the
      machine).  Overflow and signed zeros are not modelled.
    - A raised exception is the [Raise] constructor of [result].
    - A pandas [Timestamp] is a record of year, month and day; a monthly
      [Period] is its integer ordinal (months since January 1970), as in
      pandas.  The range of years that a pandas timestamp can hold is not
      modelled.
    - The analytics are stated over typed records, the data model that the
      loader establishes; the loader itself is modelled over the raw cells
      of a workbook.  Its model speaks for the program on the workbooks of
      [plain_workbook]: no two columns of a sheet get one name, month cells
      are dates, number columns hold no dates.
    - Text is [string], read as ASCII: [lower], [upper] and [strip] act on
      ASCII letters and ASCII white space, and a digit is one of 0 to 9.
      Python also maps letters, blanks and digits outside ASCII; what
      depends on them is stated for texts that pass [Py.is_ascii].
    - [dateutil.parser.parse], [pd.to_datetime] and the reading of a number
      from a text are external libraries: they are parameters of the
      development. *)

From Stdlib Require Import ZArith QArith Qcanon List String Ascii Lia Floats.
From stdpp Require Import prelude strings sorting gmap.

#[local] Open Scope string_scope.
#[local] Open Scope Z_scope.

(** Decimal constants stand for the nearest binary64 float. *)
#[local] Set Warnings "-inexact-float".

(** ** Exceptions *)

Inductive exn : Type :=
  | ValueError
  | KeyError
  | AttributeError
  | ParserError.

Inductive result (A : Type) : Type :=
  | Ok (a : A)
  | Raise (e : exn).

Arguments Ok {A} a.
Arguments Raise {A} e.

Definition rbind {A B : Type} (r : result A) (k : A -> result B) : result B :=
  match r with
  | Ok a => k a
  | Raise e => Raise e
  end.

Notation "'let*' x ':=' r 'in' k" := (rbind r (fun x => k))
  (at level 10, x name, r at level 100, k at level 200).

Definition succeeds {A : Type} (r : result A) : Prop :=
  match r with Ok _ => True | Raise _ => False end.

(** ** Python strings *)

Module Py.

Definition is_upper (c : ascii) : bool :=
  let n := nat_of_ascii c in (65 <=? n)%nat && (n <=? 90)%nat.

Definition is_lower (c : ascii) : bool :=
  let n := nat_of_ascii c in (97 <=? n)%nat && (n <=? 122)%nat.

Definition is_alpha (c : ascii) : bool := is_upper c || is_lower c.

(** A digit of ASCII.  On a text of ASCII characters this is the class
    [\d] of [re]. *)
Definition is_digit (c : ascii) : bool :=
  let n := nat_of_ascii c in (48 <=? n)%nat && (n <=? 57)%nat.

(** White space stripped by [str.strip()]: space, tab, line feed,
    vertical tab, form feed, carriage return and the separators 28-31. *)
Definition is_space (c : ascii) : bool :=
  let n := nat_of_ascii c in
  (n =? 32)%nat || ((9 <=? n)%nat && (n <=? 13)%nat)
  || ((28 <=? n)%nat && (n <=? 31)%nat).

Definition lower_char (c : ascii) : ascii :=
  if is_upper c then ascii_of_nat (nat_of_ascii c + 32) else c.

Definition upper_char (c : ascii) : ascii :=
  if is_lower c then ascii_of_nat (nat_of_ascii c - 32) else c.

(** [s.lower()], on the letters of ASCII *)
Fixpoint lower (s : string) : string :=
  match s with
  | EmptyString => EmptyString
  | String c s' => String (lower_char c) (lower s')
  end.

(** [s.upper()], on the letters of ASCII *)
Fixpoint upper (s : string) : string :=
  match s with
  | EmptyString => EmptyString
  | String c s' => String (upper_char c) (upper s')
  end.

Fixpoint lstrip (s : string) : string :=
  match s with
  | EmptyString => EmptyString
  | String c s' => if is_space c then lstrip s' else s
  end.

Fixpoint rstrip (s : string) : string :=
  match s with
  | EmptyString => EmptyString
  | String c s' =>
      match rstrip s' with
      | EmptyString => if is_space c then EmptyString else String c EmptyString
      | t => String c t
      end
  end.

(** [s.strip()] *)
Definition strip (s : string) : string := rstrip (lstrip s).

(** [sub in s] *)
Fixpoint contains (sub s : string) : bool :=
  String.prefix sub s ||
  match s with
  | EmptyString => false
  | String _ s' => contains sub s'
  end.

(** Truth value of a string: empty is false. *)
Definition truthy (s : string) : bool :=
  match s with EmptyString => false | _ => true end.


End Py.

(** ** Timestamps and monthly periods *)

Record Timestamp : Type := mkTimestamp {
  year : Z;
  month : Z;
  day : Z;
}.

#[global] Instance Timestamp_eq_dec : EqDecision Timestamp.
Proof. solve_decision. Defined.

(** [pd.Timestamp(year=y, month=m, day=1)]: the constructor rejects a month
    outside 1..12 with a [ValueError]. *)
Definition Timestamp_first_of_month (y m : Z) : result Timestamp :=
  if (1 <=? m) && (m <=? 12) then Ok (mkTimestamp y m 1) else Raise ValueError.

(** [ts.to_period("M")]: the ordinal of the month of [ts]. *)
Definition to_period (t : Timestamp) : Z := (year t - 1970) * 12 + (month t - 1).

(** [p.to_timestamp()]: the first day of the month of ordinal [p]. *)
Definition to_timestamp (p : Z) : Timestamp :=
  mkTimestamp (1970 + p / 12) (p mod 12 + 1) 1.

(** [pd.to_datetime(col).dt.to_period("M").dt.to_timestamp()] on one cell. *)
Definition normalize_month (t : Timestamp) : Timestamp :=
  to_timestamp (to_period t).

(** [pd.period_range(end=p, periods=n, freq="M")]: the [n] ordinals ending at
    [p], oldest first.  A count that is not positive gives no period. *)
Definition period_range (p : Z) (n : Z) : list Z :=
  map (fun i : nat => p - n + 1 + Z.of_nat i) (seq 0 (Z.to_nat n)).

(** Order of timestamps, used by [Series.max]. *)
Definition Timestamp_leb (a b : Timestamp) : bool :=
  (year a <? year b)
  || ((year a =? year b) &&
      ((month a <? month b) || ((month a =? month b) && (day a <=? day b)))).

Definition Timestamp_max2 (a b : Timestamp) : Timestamp :=
  if Timestamp_leb a b then b else a.

(** [col.max()] of a date column; [None] stands for [NaT] (empty column). *)
Definition Timestamp_max (l : list Timestamp) : option Timestamp :=
  match l with
  | [] => None
  | t :: l' => Some (fold_left Timestamp_max2 l' t)
  end.

(** ** Missing values *)

Definition cell : Type := option Qc.

(** Elementwise product of two float cells: NaN is absorbing. *)
Definition cell_mul (a b : cell) : cell :=
  match a, b with
  | Some x, Some y => Some (x * y)%Qc
  | _, _ => None
  end.

Definition cell_sub (a b : cell) : cell :=
  match a, b with
  | Some x, Some y => Some (x - y)%Qc
  | _, _ => None
  end.

(** What a cell adds to a sum that skips NaN. *)
Definition cell_value (c : cell) : Qc :=
  match c with Some x => x | None => 0%Qc end.

(** [col.sum()]: NaN cells are skipped, the empty sum is 0.  The sum is
    exact; [F64.col_sum] has the additions of the floats. *)
Fixpoint col_sum (l : list cell) : Qc :=
  match l with
  | [] => 0%Qc
  | Some x :: l' => (x + col_sum l')%Qc
  | None :: l' => col_sum l'
  end.

(** [col.dropna()] *)
Fixpoint dropna (l : list cell) : list Qc :=
  match l with
  | [] => []
  | Some x :: l' => x :: dropna l'
  | None :: l' => dropna l'
  end.

Fixpoint Qc_sum (l : list Qc) : Qc :=
  match l with
  | [] => 0%Qc
  | x :: l' => (x + Qc_sum l')%Qc
  end.

(** [col.mean()] after [dropna]: NaN on the empty column. *)
Definition col_mean (l : list Qc) : cell :=
  match l with
  | [] => None
  | _ => Some (Qc_sum l / Qc_of_Z (Z.of_nat (length l)))%Qc
  end.

(** [col.shift(1)] *)
Definition shift1 (l : list cell) : list cell :=
  match l with
  | [] => []
  | _ => None :: removelast l
  end.

(** ** Data model of [agent/tools.py] *)

(** A row of the [actuals] and [budget] frames after loading. *)
Record AmountRecord : Type := mkAmount {
  date : Timestamp;
  entity : string;
  category : string;
  currency : string;
  amount : Qc;
}.

(** A row of the [cash] frame after loading. *)
Record CashRecord : Type := mkCash {
  cash_date : Timestamp;
  cash_entity : string;
  cash_currency : string;
  cash_balance : Qc;
}.

(** A row of the [fx] frame after loading; the rate is not coerced by the
    loader and may be NaN. *)
Record FxRate : Type := mkFx {
  fx_date : Timestamp;
  fx_currency : string;
  fx_usd_rate : cell;
}.

(** ** Frames indexed by month: pivot, forward fill, backward fill *)

Definition Timestamp_le (a b : Timestamp) : Prop := Timestamp_leb a b = true.

#[global] Instance Timestamp_le_dec : RelDecision Timestamp_le.
Proof. intros a b. unfold Timestamp_le. apply _. Defined.

Section Frames.
(** Column labels and values. A missing value is [None]. *)
Context {C V : Type} `{EqDecision C}.

(** A frame with a date index and one column of cells per label. *)
Record Frame : Type := mkFrame {
  frame_index : list Timestamp;
  frame_columns : list (C * list (option V));
}.

(** The long format read by [pivot]: index label, column label, value. *)
Definition long_row : Type := Timestamp * C * option V.

Definition long_key (r : long_row) : Timestamp * C := fst r.

Definition long_date_le (a b : long_row) : Prop :=
  Timestamp_le (fst (fst a)) (fst (fst b)).

#[global] Instance long_date_le_dec : RelDecision long_date_le.
Proof. intros a b. unfold long_date_le. apply _. Defined.

(** [df.sort_values("date")] *)
Definition sort_values_date (rows : list long_row) : list long_row :=
  merge_sort long_date_le rows.

(** The cell of the pivot at ([d], [c]): the value of the row with that
    key, missing when there is no such row. *)
Definition pivot_cell (rows : list long_row) (d : Timestamp) (c : C) : option V :=
  match List.find (fun r => bool_decide (long_key r = (d, c))) rows with
  | Some r => snd r
  | None => None
  end.

(** [df.pivot(index="date", columns="currency", values="usd_rate")]: raises
    [ValueError] when two rows share a (date, currency) pair.  The index is
    the sorted list of the distinct dates; the columns are the distinct
    labels (their order has no effect on a lookup by label and is not
    modelled). *)
Definition pivot (rows : list long_row) : result Frame :=
  if decide (NoDup (map long_key rows)) then
    let idx := merge_sort Timestamp_le (remove_dups (map (fun r => fst (fst r)) rows)) in
    let cols := remove_dups (map (fun r => snd (fst r)) rows) in
    Ok (mkFrame idx (map (fun c => (c, map (fun d => pivot_cell rows d c) idx)) cols))
  else Raise ValueError.

(** [col.ffill()]: a missing cell takes the last value seen above it. *)
Fixpoint ffill_from (last : option V) (l : list (option V)) : list (option V) :=
  match l with
  | [] => []
  | x :: l' =>
      let v := match x with Some _ => x | None => last end in
      v :: ffill_from v l'
  end.

Definition ffill (l : list (option V)) : list (option V) := ffill_from None l.

(** [col.bfill()]: a missing cell takes the next value below it. *)
Fixpoint bfill (l : list (option V)) : list (option V) :=
  match l with
  | [] => []
  | x :: l' =>
      let r := bfill l' in
      match x with
      | Some _ => x :: r
      | None => (match r with v :: _ => v | [] => None end) :: r
      end
  end.

(** [frame.ffill()] and [frame.bfill()] work column by column. *)
Definition frame_ffill (f : Frame) : Frame :=
  mkFrame (frame_index f) (map (fun p => (fst p, ffill (snd p))) (frame_columns f)).

Definition frame_bfill (f : Frame) : Frame :=
  mkFrame (frame_index f) (map (fun p => (fst p, bfill (snd p))) (frame_columns f)).

(** [df.pivot(...).sort_index().ffill().bfill()].  The index of the pivot is
    already sorted, so [sort_index] changes nothing. *)
Definition build_fx_map (rows : list long_row) : result Frame :=
  let* f := pivot rows in
  Ok (frame_bfill (frame_ffill f)).

(** Position of a label in the index. *)
Fixpoint index_of (d : Timestamp) (idx : list Timestamp) : option nat :=
  match idx with
  | [] => None
  | x :: idx' => if decide (x = d) then Some 0%nat else S <$> index_of d idx'
  end.

Fixpoint column_of (c : C) (cols : list (C * list (option V)))
  : option (list (option V)) :=
  match cols with
  | [] => None
  | (c', col) :: cols' => if decide (c' = c) then Some col else column_of c cols'
  end.

(** [frame.loc[d, c]]: [KeyError] when [d] is not in the index or [c] is
    not a column. *)
Definition loc (f : Frame) (d : Timestamp) (c : C) : result (option V) :=
  match index_of d (frame_index f), column_of c (frame_columns f) with
  | Some i, Some col =>
      match col !! i with
      | Some v => Ok v
      | None => Raise KeyError
      end
  | _, _ => Raise KeyError
  end.

End Frames.

Arguments Frame : clear implicits.
Arguments long_row : clear implicits.

(** The frame [fx_map]: months by currencies, cells are rates. *)
Abbreviation FxMap := (Frame string Qc).

Record FinanceData : Type := mkFinanceData {
  actuals : list AmountRecord;
  budget : list AmountRecord;
  cash : list CashRecord;
  fx : list FxRate;
  fx_map : FxMap;
}.

Definition fx_long (r : FxRate) : long_row string Qc :=
  (fx_date r, fx_currency r, fx_usd_rate r).

(** Lines 59-60, on the loaded [fx] rows. *)
Definition fx_map_of (rows : list FxRate) : result FxMap :=
  build_fx_map (sort_values_date (map fx_long rows)).

(** ** [_to_usd] *)

Section ToUsd.
Context {R : Type}.
(** The columns [date], [amount_col] and [currency_col] of the frame. *)
Variable date_col : R -> Timestamp.
Variable amount_col : R -> Qc.
Variable currency_col : R -> string.

(** A row of the frame returned by [_to_usd]: the row of [df] with its
    date normalised and the two added columns. *)
Record Converted : Type := mkConverted {
  source : R;
  conv_date : Timestamp;
  usd_rate : cell;
  amount_usd : cell;
}.

Definition lookup_rate (self : FinanceData) (d : Timestamp) (row : R) : cell :=
  match loc (fx_map self) d (currency_col row) with
  | Ok v => v
  | Raise _ =>
      if String.eqb (Py.upper (currency_col row)) "USD" then Some 1%Qc
      else Some 1%Qc
  end.

Definition to_usd_row (self : FinanceData) (row : R) : Converted :=
  let d := normalize_month (date_col row) in
  let rate := lookup_rate self d row in
  mkConverted row d rate (cell_mul (Some (amount_col row)) rate).

Definition _to_usd (self : FinanceData) (df : list R) : list Converted :=
  map (to_usd_row self) df.

End ToUsd.

Arguments mkConverted {R} _ _ _ _.
Arguments source {R} _.
Arguments conv_date {R} _.
Arguments usd_rate {R} _.
Arguments amount_usd {R} _.

(** [_to_usd(df)] with the default columns [amount] and [currency]. *)
Definition to_usd_amounts (self : FinanceData) (df : list AmountRecord)
  : list (Converted (R:=AmountRecord)) :=
  _to_usd date amount currency self df.

(** [_to_usd(c, amount_col="cash_balance", currency_col="currency")]. *)
Definition to_usd_cash (self : FinanceData) (df : list CashRecord)
  : list (Converted (R:=CashRecord)) :=
  _to_usd cash_date cash_balance cash_currency self df.

(** ** The analytics of [FinanceData] *)

(** The [datetime] returned by [dateutil.parser.parse]. *)
Record datetime : Type := mkDatetime {
  dt_year : Z;
  dt_month : Z;
  dt_day : Z;
}.

(** Result of [revenue_vs_budget]. *)
Record RevenueVsBudget : Type := mkRvB {
  rvb_month : Timestamp;
  actual_usd : Qc;
  budget_usd : Qc;
}.

(** A row of the frame returned by [gross_margin_trend]. *)
Record MarginRow : Type := mkMarginRow {
  gm_date : Timestamp;
  gm_revenue_usd : Qc;
  gm_cogs_usd : Qc;
  gross_margin_pct : option Qc;
}.

(** A row of the frame returned by [opex_breakdown]. *)
Record OpexRow : Type := mkOpexRow {
  account : string;
  opex_amount_usd : Qc;
}.

(** Result of [ebitda_proxy]. *)
Record Ebitda : Type := mkEbitda {
  ebitda_month : Timestamp;
  ebitda_usd : Qc;
  revenue_usd : Qc;
  cogs_usd : Qc;
  opex_usd : Qc;
}.

(** A Python float that may be infinite or NaN. *)
Inductive pyfloat : Type :=
  | Finite (q : Qc)
  | Inf
  | NaN.

Definition float_of_cell (c : cell) : pyfloat :=
  match c with Some q => Finite q | None => NaN end.

(** Result of [cash_runway_months]. *)
Record Runway : Type := mkRunway {
  as_of : Timestamp;
  current_cash_usd : pyfloat;
  avg_monthly_burn_usd : Qc;
  runway_months : pyfloat;
}.

Definition is_revenue (r : AmountRecord) : bool :=
  String.eqb (Py.lower (category r)) "revenue".

Definition is_cogs (r : AmountRecord) : bool :=
  String.eqb (Py.lower (category r)) "cogs".

(** [category.str.lower().str.contains("opex|operating")] *)
Definition is_opex (r : AmountRecord) : bool :=
  Py.contains "opex" (Py.lower (category r))
  || Py.contains "operating" (Py.lower (category r)).

Definition on_date (ts : Timestamp) (r : AmountRecord) : bool :=
  bool_decide (date r = ts).

(** [if entity: df = df[df["entity"] == entity]] *)
Definition filter_entity {R : Type} (ent : R -> string) (e : option string)
    (df : list R) : list R :=
  match e with
  | Some name =>
      if Py.truthy name then List.filter (fun r => String.eqb (ent r) name) df
      else df
  | None => df
  end.

(** [self._to_usd(df)["amount_usd"].sum()] *)
Definition usd_total (self : FinanceData) (df : list AmountRecord) : Qc :=
  col_sum (map amount_usd (to_usd_amounts self df)).

Definition Qc_ge (x y : Qc) : Prop := (y <= x)%Qc.

#[global] Instance Qc_ge_dec : RelDecision Qc_ge.
Proof. intros x y. unfold Qc_ge. apply _. Defined.

Definition opex_ge (a b : OpexRow) : Prop :=
  Qc_ge (opex_amount_usd a) (opex_amount_usd b).

#[global] Instance opex_ge_dec : RelDecision opex_ge.
Proof. intros a b. unfold opex_ge. apply _. Defined.

(** [o_usd.groupby("category")["amount_usd"].sum().reset_index()
      .rename(columns={"category": "account"})]: one row per distinct
    category, in the order of the keys, with the sum of its amounts. *)
Definition groupby_category_sum (rows : list (Converted (R:=AmountRecord)))
  : list OpexRow :=
  map (fun k =>
         mkOpexRow k
           (col_sum (map amount_usd
              (List.filter (fun r => String.eqb (category (source r)) k) rows))))
      (merge_sort String.le (remove_dups (map (fun r => category (source r)) rows))).

(** [.sort_values("amount_usd", ascending=False)]; pandas does not fix the
    order of rows of equal amount, here they keep their order. *)
Definition sort_values_amount_desc (rows : list OpexRow) : list OpexRow :=
  merge_sort opex_ge rows.

(** [cs.set_index("date").reindex(months)]: raises [ValueError] when the
    index has a duplicate label; otherwise one row per requested month, the
    row of the frame with that date or a row of NaN. *)
Definition reindex {R : Type} (rows : list (Converted (R:=R)))
    (months : list Timestamp) : result (list (option (Converted (R:=R)))) :=
  if decide (NoDup (map conv_date rows)) then
    Ok (map (fun m => List.find (fun r => bool_decide (conv_date r = m)) rows) months)
  else Raise ValueError.

Definition cell_le0_or_nan (c : cell) : bool :=
  match c with
  | Some a => bool_decide (a <= 0)%Qc
  | None => true
  end.

Definition cell_div (a b : cell) : cell :=
  match a, b with
  | Some x, Some y => Some (x / y)%Qc
  | _, _ => None
  end.

Section Tools.

(** [dateutil.parser.parse]; [None] when it raises. *)
Variable parse : string -> option datetime.

(** Lines 10-18. *)
Definition _month_str_to_ts (m : string) : result Timestamp :=
  match parse m with
  | Some dt => Timestamp_first_of_month (dt_year dt) (dt_month dt)
  | None => Raise ParserError
  end.

(** Lines 81-91. *)
Definition revenue_vs_budget (self : FinanceData) (month : string)
    (ent : option string) : result RevenueVsBudget :=
  let* ts := _month_str_to_ts month in
  let a := List.filter (fun r => on_date ts r && is_revenue r) (actuals self) in
  let b := List.filter (fun r => on_date ts r && is_revenue r) (budget self) in
  let a := filter_entity entity ent a in
  let b := filter_entity entity ent b in
  let a_usd := usd_total self a in
  let b_usd := usd_total self b in
  Ok (mkRvB ts a_usd b_usd).

(** The end of a window of months: the parsed month when one is given and
    not empty, else the latest date of the column.  On an empty column the
    latest date is [NaT], and the next line, [ts.to_period("M")], raises
    [AttributeError]: [NaT] has no such method. *)
Definition resolve_end (m : option string) (dates : list Timestamp)
  : result Timestamp :=
  match m with
  | Some s =>
      if Py.truthy s then _month_str_to_ts s
      else match Timestamp_max dates with
           | Some t => Ok t
           | None => Raise AttributeError
           end
  | None =>
      match Timestamp_max dates with
      | Some t => Ok t
      | None => Raise AttributeError
      end
  end.

Definition months_ending (end_ts : Timestamp) (n : Z) : list Timestamp :=
  map to_timestamp (period_range (to_period end_ts) n).

Definition margin_row (self : FinanceData) (ts : Timestamp) : MarginRow :=
  let rev := List.filter (fun r => on_date ts r && is_revenue r) (actuals self) in
  let cogs := List.filter (fun r => on_date ts r && is_cogs r) (actuals self) in
  let rev_usd := usd_total self rev in
  let cogs_usd := usd_total self cogs in
  let gm := if bool_decide (rev_usd = 0%Qc) then None
            else Some ((rev_usd - cogs_usd) / rev_usd)%Qc in
  mkMarginRow ts rev_usd cogs_usd gm.

(** Lines 93-111. *)
Definition gross_margin_trend (self : FinanceData) (months : Z)
    (end_month : option string) : result (list MarginRow) :=
  let* end_ts := resolve_end end_month (map date (actuals self)) in
  let months_list := months_ending end_ts months in
  Ok (map (margin_row self) months_list).

(** Lines 113-128. *)
Definition opex_breakdown (self : FinanceData) (month : string)
    (ent : option string) : result (list OpexRow) :=
  let* ts := _month_str_to_ts month in
  let opex := List.filter (fun r => on_date ts r && is_opex r) (actuals self) in
  let opex := filter_entity entity ent opex in
  let o_usd := to_usd_amounts self opex in
  Ok (sort_values_amount_desc (groupby_category_sum o_usd)).

(** Lines 130-149. *)
Definition ebitda_proxy (self : FinanceData) (month : string)
    (ent : option string) : result Ebitda :=
  let* ts := _month_str_to_ts month in
  let rev := List.filter (fun r => on_date ts r && is_revenue r) (actuals self) in
  let cogs := List.filter (fun r => on_date ts r && is_cogs r) (actuals self) in
  let opex := List.filter (fun r => on_date ts r && is_opex r) (actuals self) in
  let rev := filter_entity entity ent rev in
  let cogs := filter_entity entity ent cogs in
  let opex := filter_entity entity ent opex in
  let rev_usd := usd_total self rev in
  let cogs_usd := usd_total self cogs in
  let opex_usd := usd_total self opex in
  let ebitda := (rev_usd - cogs_usd - opex_usd)%Qc in
  Ok (mkEbitda ts ebitda rev_usd cogs_usd opex_usd).

(** The column [cash_balance_usd] of [cs] before filling (line 161). *)
Definition cash_balance_usd_col (cs : list (option (Converted (R:=CashRecord))))
  : list cell :=
  map (fun o =>
         match o with
         | Some r => cell_mul (Some (cash_balance (source r))) (usd_rate r)
         | None => None
         end) cs.

(** Lines 165-166: [prev - cash_balance_usd], row by row. *)
Definition net_burn_col (filled : list cell) : list cell :=
  zip_with cell_sub (shift1 filled) filled.

(** Lines 151-178. *)
Definition cash_runway_months (self : FinanceData) (as_of_month : option string)
    (ent : option string) : result Runway :=
  let* ts := resolve_end as_of_month (map cash_date (cash self)) in
  let months := months_ending ts 3 in
  let c := filter_entity cash_entity ent (cash self) in
  let c_usd := to_usd_cash self c in
  let* cs := reindex c_usd months in
  let filled := bfill (ffill (cash_balance_usd_col cs)) in
  let net_burn := net_burn_col filled in
  let avg_burn := col_mean (dropna net_burn) in
  let current_cash := List.last filled None in
  let runway := if cell_le0_or_nan avg_burn then Inf
                else float_of_cell (cell_div current_cash avg_burn) in
  Ok (mkRunway ts (float_of_cell current_cash)
        (match avg_burn with Some a => a | None => 0%Qc end) runway).

End Tools.

(** ** The additions of a sum

    A sum of floats depends on the order of its additions.  These are the
    additions of the two sums of the program, for any numbers: [col.sum()]
    (numpy's [add.reduce], through [nanops.nansum]) and [GroupBy.sum] (the
    routine [group_sum] of pandas). *)

Section Additions.

Context {A : Type}.
(** The numbers 0 and -0, addition and subtraction, and the test for NaN. *)
Variable zero neg_zero : A.
Variable add sub : A -> A -> A.
Variable isna : A -> bool.

(** The cells of a list added to [acc] in their order. *)
Definition seq_sum (acc : A) (l : list A) : A := fold_left add l acc.

(** [blocks] more blocks of 8 cells of [l] added to the 8 lanes [r]. *)
Fixpoint add_lanes (blocks : nat) (r l : list A) : list A * list A :=
  match blocks with
  | O => (r, l)
  | S b => add_lanes b (zip_with add r (take 8 l)) (drop 8 l)
  end.

(** From 8 to 128 cells: 8 lanes over the full blocks of 8, the lanes added
    as a tree, then the remaining cells in their order. *)
Definition block_sum (l : list A) : A :=
  match add_lanes (length l / 8 - 1) (take 8 l) (drop 8 l) with
  | ([r0; r1; r2; r3; r4; r5; r6; r7], rest) =>
      seq_sum (add (add (add r0 r1) (add r2 r3)) (add (add r4 r5) (add r6 r7))) rest
  | (_, _) => seq_sum neg_zero l
  end.

(** numpy's [pairwise_sum]: fewer than 8 cells are added in their order,
    from -0; up to 128 cells by [block_sum]; a longer array is split near
    its middle, at a multiple of 8.  ([fuel] bounds the number of splits;
    the length of the array is enough.) *)
Fixpoint pairwise_sum (fuel : nat) (l : list A) : A :=
  let n := length l in
  if (n <? 8)%nat then seq_sum neg_zero l
  else if (n <=? 128)%nat then block_sum l
  else
    match fuel with
    | O => block_sum l
    | S fuel' =>
        let n2 := (n / 2 - (n / 2) mod 8)%nat in
        add (pairwise_sum fuel' (take n2 l)) (pairwise_sum fuel' (drop n2 l))
    end.

(** [np.add.reduce] over a contiguous array: from the identity 0. *)
Definition add_reduce (l : list A) : A := add zero (pairwise_sum (length l) l).

(** One step of the compensated summation of [group_sum]: the running sum
    and its compensation; a compensation that is NaN is reset to 0. *)
Definition kahan_step (st : A * A) (val : A) : A * A :=
  let y := sub val (snd st) in
  let t := add (fst st) y in
  let c := sub (sub t (fst st)) y in
  (t, if isna c then zero else c).

(** [group_sum] over the cells of one group that are not NaN, in the order
    of the rows. *)
Definition kahan_sum (l : list A) : A := fst (fold_left kahan_step l (zero, zero)).

End Additions.

(** ** The sums of the analytics in binary64

    The analytics above add exact rationals.  The program adds binary64
    floats: the functions of [tools.py] that add USD amounts are given here
    once more over the floats of the machine, as far as a sum of one
    operation is compared with a sum of another.  A float cell that is NaN
    is a missing value. *)

Module F64.

#[local] Open Scope float_scope.

(** [pd.isna] on a float cell. *)
Definition isna (x : float) : bool := PrimFloat.is_nan x.

(** [col.sum()] of a float column ([nanops.nansum]): the NaN cells are
    replaced by 0 and the array is reduced. *)
Definition col_sum (l : list float) : float :=
  add_reduce 0 (-0) PrimFloat.add (map (fun x => if isna x then 0 else x) l).

(** The sum of one group of [GroupBy.sum]. *)
Definition group_sum (l : list float) : float :=
  kahan_sum 0 PrimFloat.add PrimFloat.sub isna
    (List.filter (fun x => negb (isna x)) l).

(** The rows of [actuals] with float amounts. *)
Record AmountRecord : Type := mkAmount {
  date : Timestamp;
  entity : string;
  category : string;
  currency : string;
  amount : float;
}.

(** The attributes of [FinanceData] that the sums read. *)
Record FinanceData : Type := mkFinanceData {
  actuals : list AmountRecord;
  fx_map : Frame string float;
}.

Record Converted : Type := mkConverted {
  source : AmountRecord;
  conv_date : Timestamp;
  usd_rate : float;
  amount_usd : float;
}.

(** Lines 67-73. *)
Definition lookup_rate (self : FinanceData) (d : Timestamp) (row : AmountRecord)
  : float :=
  match loc (fx_map self) d (currency row) with
  | Ok (Some v) => v
  | Ok None => nan
  | Raise _ =>
      if String.eqb (Py.upper (currency row)) "USD" then 1 else 1
  end.

(** Lines 62-77. *)
Definition _to_usd (self : FinanceData) (df : list AmountRecord) : list Converted :=
  map (fun row =>
         let d := normalize_month (date row) in
         let rate := lookup_rate self d row in
         mkConverted row d rate (amount row * rate)) df.

Definition is_revenue (r : AmountRecord) : bool :=
  String.eqb (Py.lower (category r)) "revenue".

Definition is_cogs (r : AmountRecord) : bool :=
  String.eqb (Py.lower (category r)) "cogs".

Definition is_opex (r : AmountRecord) : bool :=
  Py.contains "opex" (Py.lower (category r))
  || Py.contains "operating" (Py.lower (category r)).

Definition on_date (ts : Timestamp) (r : AmountRecord) : bool :=
  bool_decide (date r = ts).

(** [self._to_usd(df)["amount_usd"].sum()] *)
Definition usd_total (self : FinanceData) (df : list AmountRecord) : float :=
  col_sum (map amount_usd (_to_usd self df)).

Record OpexRow : Type := mkOpexRow {
  account : string;
  opex_amount_usd : float;
}.

(** [o_usd.groupby("category")["amount_usd"].sum().reset_index()
      .rename(columns={"category": "account"})] *)
Definition groupby_category_sum (rows : list Converted) : list OpexRow :=
  map (fun k =>
         mkOpexRow k
           (group_sum (map amount_usd
              (List.filter (fun r => String.eqb (category (source r)) k) rows))))
      (merge_sort String.le (remove_dups (map (fun r => category (source r)) rows))).

(** The order of [sort_values("amount_usd", ascending=False)]: larger
    amounts first, NaN last. *)
Definition opex_ge (a b : OpexRow) : Prop :=
  isna (opex_amount_usd b)
  || (negb (isna (opex_amount_usd a)) && (opex_amount_usd b <=? opex_amount_usd a))
  = true.

#[global] Instance opex_ge_dec : RelDecision opex_ge.
Proof. intros a b. unfold opex_ge. apply _. Defined.

(** Rows of equal amount keep their order here; pandas does not fix it. *)
Definition sort_values_amount_desc (rows : list OpexRow) : list OpexRow :=
  merge_sort opex_ge rows.

Record Ebitda : Type := mkEbitda {
  ebitda_month : Timestamp;
  ebitda_usd : float;
  revenue_usd : float;
  cogs_usd : float;
  opex_usd : float;
}.

Section Tools.

Variable parse : string -> option datetime.

(** Lines 113-128. *)
Definition opex_breakdown (self : FinanceData) (month : string)
    (ent : option string) : result (list OpexRow) :=
  let* ts := _month_str_to_ts parse month in
  let opex := List.filter (fun r => on_date ts r && is_opex r) (actuals self) in
  let opex := filter_entity entity ent opex in
  let o_usd := _to_usd self opex in
  Ok (sort_values_amount_desc (groupby_category_sum o_usd)).

(** Lines 130-149. *)
Definition ebitda_proxy (self : FinanceData) (month : string)
    (ent : option string) : result Ebitda :=
  let* ts := _month_str_to_ts parse month in
  let rev := List.filter (fun r => on_date ts r && is_revenue r) (actuals self) in
  let cogs := List.filter (fun r => on_date ts r && is_cogs r) (actuals self) in
  let opex := List.filter (fun r => on_date ts r && is_opex r) (actuals self) in
  let rev := filter_entity entity ent rev in
  let cogs := filter_entity entity ent cogs in
  let opex := filter_entity entity ent opex in
  let rev_usd := usd_total self rev in
  let cogs_usd := usd_total self cogs in
  let opex_usd := usd_total self opex in
  let ebitda := rev_usd - cogs_usd - opex_usd in
  Ok (mkEbitda ts ebitda rev_usd cogs_usd opex_usd).

End Tools.

End F64.


(** ** The intent classifier of [agent/planner.py] *)

Module Planner.

(** The regular expressions of [classify] use character classes, sequence,
    alternation, bounded repetition and [\d+]. *)
Inductive regex : Type :=
  | Eps
  | Class (p : ascii -> bool)
  | Seq (r1 r2 : regex)
  | Alt (r1 r2 : regex)
  | Opt (r : regex)
  | StarClass (p : ascii -> bool).

Definition Lit (c : ascii) : regex := Class (Ascii.eqb c).

Fixpoint Str (s : string) : regex :=
  match s with
  | EmptyString => Eps
  | String c s' => Seq (Lit c) (Str s')
  end.

(** [r{n}] *)
Fixpoint Times (n : nat) (r : regex) : regex :=
  match n with
  | O => Eps
  | S n' => Seq r (Times n' r)
  end.

(** [r{0,n}], greedy *)
Fixpoint UpTo (n : nat) (r : regex) : regex :=
  match n with
  | O => Eps
  | S n' => Opt (Seq r (UpTo n' r))
  end.

(** [r{lo,hi}], greedy *)
Definition Range (lo hi : nat) (r : regex) : regex :=
  Seq (Times lo r) (UpTo (hi - lo) r).

(** [[p]+], greedy *)
Definition Plus (p : ascii -> bool) : regex := Seq (Class p) (StarClass p).

(** [[p]*] followed by the continuation [k]: the longest run of characters
    of the class first, then shorter ones. *)
Fixpoint star {A : Type} (p : ascii -> bool) (k : list ascii -> option A)
    (s : list ascii) : option A :=
  match s with
  | c :: s' =>
      if p c then
        match star p k s' with
        | Some x => Some x
        | None => k s
        end
      else k s
  | [] => k s
  end.

(** Backtracking matcher in the order of Python's [re]: [run r s k] matches
    [r] at the head of [s] and hands the rest to the continuation [k]; the
    first alternative, and the longest repetition, that lets [k] succeed
    wins. *)
Fixpoint run {A : Type} (r : regex) (s : list ascii)
    (k : list ascii -> option A) : option A :=
  match r with
  | Eps => k s
  | Class p =>
      match s with
      | c :: s' => if p c then k s' else None
      | [] => None
      end
  | Seq r1 r2 => run r1 s (fun s' => run r2 s' k)
  | Alt r1 r2 =>
      match run r1 s k with
      | Some x => Some x
      | None => run r2 s k
      end
  | Opt r1 =>
      match run r1 s k with
      | Some x => Some x
      | None => k s
      end
  | StarClass p => star p k s
  end.

(** [re.match(r, s)]: the text matched at the head of [s]. *)
Definition match_prefix (r : regex) (s : list ascii) : option (list ascii) :=
  match run r s Some with
  | Some rest => Some (firstn (length s - length rest) s)
  | None => None
  end.

(** [re.search(r, s).group(0)]: the leftmost match. *)
Fixpoint search_list (r : regex) (s : list ascii) : option (list ascii) :=
  match match_prefix r s with
  | Some m => Some m
  | None =>
      match s with
      | [] => None
      | _ :: s' => search_list r s'
      end
  end.

Definition search (r : regex) (s : string) : option string :=
  string_of_list_ascii <$> search_list r (list_ascii_of_string s).

(** [([a-zA-Z]{3,9} \d{4}|\d{4}-\d{2}(?:-\d{2})?)] *)
Definition month_re : regex :=
  Alt (Seq (Range 3 9 (Class Py.is_alpha))
           (Seq (Lit " ") (Times 4 (Class Py.is_digit))))
      (Seq (Times 4 (Class Py.is_digit))
           (Seq (Lit "-")
                (Seq (Times 2 (Class Py.is_digit))
                     (Opt (Seq (Lit "-") (Times 2 (Class Py.is_digit))))))).

(** [last (\d+) months] *)
Definition last_months_re : regex :=
  Seq (Str "last ") (Seq (Plus Py.is_digit) (Str " months")).

(** Group 1 of a match of [last_months_re]: the text between the 5
    characters of ["last "] and the 7 characters of [" months"]. *)
Definition last_months_group1 (m : list ascii) : string :=
  string_of_list_ascii (firstn (length m - 12) (skipn 5 m)).

Definition digit_value (c : ascii) : Z := Z.of_nat (nat_of_ascii c - 48).

Fixpoint int_of_digits (acc : Z) (s : string) : Z :=
  match s with
  | EmptyString => acc
  | String c s' => int_of_digits (10 * acc + digit_value c) s'
  end.

Fixpoint all_digits (s : string) : bool :=
  match s with
  | EmptyString => true
  | String c s' => Py.is_digit c && all_digits s'
  end.

(** [sys.int_info.default_max_str_digits]: the longest decimal text that
    [int] converts (CPython 3.11 and later, and the security releases of
    3.7 to 3.10); the program does not change the setting. *)
Definition max_str_digits : nat := 4300.

(** [int(s)] on a text of decimal digits; [ValueError] on the empty text, on
    a text with another character (the signs, blanks and underscores that
    [int] also accepts cannot occur in a [\d+] group) and on a text of more
    than [max_str_digits] digits. *)
Definition py_int (s : string) : result Z :=
  match s with
  | EmptyString => Raise ValueError
  | _ =>
      if all_digits s then
        if (String.length s <=? max_str_digits)%nat then Ok (int_of_digits 0 s)
        else Raise ValueError
      else Raise ValueError
  end.

(** Values of the parameter dictionary. *)
Inductive pyval : Type :=
  | PNone
  | PStr (s : string)
  | PInt (n : Z).

Definition opt_str (o : option string) : pyval :=
  match o with Some s => PStr s | None => PNone end.

(** Lines 5-39. *)
Definition classify (question : string) : result (string * gmap string pyval) :=
  let q := Py.strip (Py.lower question) in
  let month_match := search month_re q in
  let month := opt_str month_match in
  if Py.contains "revenue" q && Py.contains "budget" q then
    Ok ("revenue_vs_budget", {[ "month" := month ]})
  else if Py.contains "gross margin" q || Py.contains "gross margin %" q
          || Py.contains "gross margin percent" q then
    let m := search_list last_months_re (list_ascii_of_string q) in
    let* months := match m with
                   | Some t => py_int (last_months_group1 t)
                   | None => Ok 3
                   end in
    Ok ("gross_margin_trend",
        <[ "months" := PInt months ]> {[ "end_month" := month ]})
  else if Py.contains "opex" q || Py.contains "operating expense" q then
    Ok ("opex_breakdown", {[ "month" := month ]})
  else if Py.contains "cash runway" q || Py.contains "runway" q then
    Ok ("cash_runway", {[ "as_of" := month ]})
  else if Py.contains "ebitda" q || Py.contains "earnings" q
          || Py.contains "operating profit" q then
    Ok ("ebitda_proxy", {[ "month" := month ]})
  else Ok ("unknown", ∅).

(** The words of a regular expression. *)
Fixpoint matches (r : regex) (w : list ascii) : Prop :=
  match r with
  | Eps => w = []
  | Class p => exists c, w = [c] /\ p c = true
  | Seq r1 r2 => exists w1 w2, w = (w1 ++ w2)%list /\ matches r1 w1 /\ matches r2 w2
  | Alt r1 r2 => matches r1 w \/ matches r2 w
  | Opt r1 => w = [] \/ matches r1 w
  | StarClass p => forallb p w = true
  end.


End Planner.

(** ** The load path: [FinanceData.__init__] on a workbook *)

Module Loader.

(** A cell of a sheet as pandas reads it. *)
Inductive xcell : Type :=
  | XNum (q : Qc)
  | XText (s : string)
  | XDate (t : Timestamp)
  | XBlank.

#[global] Instance xcell_eq_dec : EqDecision xcell.
Proof. solve_decision. Defined.

(** A frame of raw cells: the names of its columns and its rows. *)
Record RawFrame : Type := mkRaw {
  columns : list string;
  rows : list (list xcell);
}.

(** A workbook: its sheets by name. *)
Abbreviation Workbook := (gmap string RawFrame).

(** Position of the column of that name.  [read_excel] gives the columns of
    a sheet distinct names; [rename] can give two columns one name, and
    pandas then reads [df[name]] as a frame, on which the loader fails.
    Such sheets are outside [plain_workbook]; here the first column is
    taken. *)
Fixpoint col_pos (name : string) (cols : list string) : option nat :=
  match cols with
  | [] => None
  | n :: cols' => if String.eqb n name then Some 0%nat else S <$> col_pos name cols'
  end.

(** [name in df.columns] *)
Definition has_column (name : string) (df : RawFrame) : bool :=
  match col_pos name (columns df) with Some _ => true | None => false end.

Definition cell_at (i : nat) (row : list xcell) : xcell := nth i row XBlank.

(** [df[name]]: [KeyError] when there is no such column. *)
Definition column (name : string) (df : RawFrame) : result (list xcell) :=
  match col_pos name (columns df) with
  | Some i => Ok (map (cell_at i) (rows df))
  | None => Raise KeyError
  end.

(** Writing cell [i] of a row; a row shorter than the header reads as
    padded with blank cells. *)
Fixpoint set_cell (i : nat) (x : xcell) (row : list xcell) : list xcell :=
  match i, row with
  | O, [] => [x]
  | O, _ :: row' => x :: row'
  | S i', [] => XBlank :: set_cell i' x []
  | S i', c :: row' => c :: set_cell i' x row'
  end.

(** [df[name] = f(df[name])] for a cell by cell [f], on column [i]. *)
Definition map_column (i : nat) (f : xcell -> xcell) (df : RawFrame) : RawFrame :=
  mkRaw (columns df) (map (fun row => set_cell i (f (cell_at i row)) row) (rows df)).

Fixpoint rename_label (mapping : list (string * string)) (n : string) : string :=
  match mapping with
  | [] => n
  | (old, new) :: mapping' =>
      if String.eqb old n then new else rename_label mapping' n
  end.

(** [df.rename(columns=mapping, inplace=True)] *)
Definition rename (mapping : list (string * string)) (df : RawFrame) : RawFrame :=
  mkRaw (map (rename_label mapping) (columns df)) (rows df).

(** [pd.read_excel(xls, sheet, parse_dates=["month"])]: [ValueError] when the
    workbook has no such sheet, and when the sheet has no column [month].
    A month cell that cannot be read as a date is left as it is. *)
Definition read_excel (xls : Workbook) (sheet : string) : result RawFrame :=
  match xls !! sheet with
  | None => Raise ValueError
  | Some df => if has_column "month" df then Ok df else Raise ValueError
  end.

(** What was loaded: the four frames and the filled FX table. *)
Record Loaded : Type := mkLoaded {
  l_actuals : RawFrame;
  l_budget : RawFrame;
  l_cash : RawFrame;
  l_fx : RawFrame;
  l_fx_map : Frame xcell xcell;
}.

Definition null_cell (c : xcell) : option xcell :=
  match c with XBlank => None | _ => Some c end.

Definition date_of_cell (c : xcell) : Timestamp :=
  match c with XDate t => t | _ => mkTimestamp 1970 1 1 end.

Definition row_date_le (i : nat) (a b : list xcell) : Prop :=
  Timestamp_le (date_of_cell (cell_at i a)) (date_of_cell (cell_at i b)).

#[global] Instance row_date_le_dec i : RelDecision (row_date_le i).
Proof. intros a b. unfold row_date_le. apply _. Defined.

(** [df.sort_values("date")], the date being column [i] (a stable sort). *)
Definition sort_values_by_date (i : nat) (df : RawFrame) : RawFrame :=
  mkRaw (columns df) (merge_sort (row_date_le i) (rows df)).

(** The rows of the [fx] frame in long format: date (column [i]), currency
    (column [j]) and rate (column [k]). *)
Definition long_rows (i j k : nat) (df : RawFrame) : list (long_row xcell xcell) :=
  map (fun row => (date_of_cell (cell_at i row), cell_at j row, null_cell (cell_at k row)))
      (rows df).

(** [.fillna(0)] *)
Definition fillna0 (c : cell) : xcell :=
  match c with Some q => XNum q | None => XNum 0%Qc end.

Definition renames_amounts : list (string * string) :=
  [("month", "date"); ("account_category", "category")].

Definition renames_cash : list (string * string) :=
  [("month", "date"); ("cash_usd", "cash_balance")].

Definition renames_fx : list (string * string) :=
  [("month", "date"); ("rate_to_usd", "usd_rate")].

Section Load.

(** [pd.to_datetime] on one cell of a date column (external library); [None]
    when it raises.  The conversion is taken cell by cell, as it is on the
    dates of an Excel date column.  A blank month cell, which pandas turns
    into a missing date ([NaT]) without an error, is not modelled: it is
    outside [plain_workbook]. *)
Variable pd_to_datetime : xcell -> option Timestamp.

(** The number read from a text cell by [pd.to_numeric] (external library);
    [None] when the text is not a number. *)
Variable parse_number : string -> option Qc.

(** [pd.to_numeric(col, errors="coerce")] on one cell of a column that
    holds numbers, texts and blanks: NaN for what is not a number; it never
    raises.  (pandas reads the dates of a column of dates as counts of
    nanoseconds; a number column with a date is outside [plain_workbook].) *)
Definition to_numeric_coerce (c : xcell) : cell :=
  match c with
  | XNum q => Some q
  | XText s => parse_number s
  | XDate _ => None
  | XBlank => None
  end.

(** [df[name] = pd.to_numeric(df[name], errors="coerce").fillna(0)] *)
Definition coerce_numeric (name : string) (df : RawFrame) : result RawFrame :=
  match col_pos name (columns df) with
  | Some i => Ok (map_column i (fun c => fillna0 (to_numeric_coerce c)) df)
  | None => Raise KeyError
  end.

Definition converts (c : xcell) : bool :=
  match pd_to_datetime c with Some _ => true | None => false end.

Definition month_start_cell (c : xcell) : xcell :=
  match pd_to_datetime c with
  | Some t => XDate (normalize_month t)
  | None => c
  end.

(** A frame with the cells of its date column, when it has one, replaced by
    the first day of their month. *)
Definition normalized (df : RawFrame) : RawFrame :=
  match col_pos "date" (columns df) with
  | Some i => map_column i month_start_cell df
  | None => df
  end.

(** Lines 48-50 for one frame:
    [if "date" in df.columns:
       df["date"] = pd.to_datetime(df["date"]).dt.to_period("M").dt.to_timestamp()] *)
Definition normalize_dates (df : RawFrame) : result RawFrame :=
  match col_pos "date" (columns df) with
  | None => Ok df
  | Some i =>
      if forallb (fun row => converts (cell_at i row)) (rows df)
      then Ok (map_column i month_start_cell df)
      else Raise ValueError
  end.

(** Lines 59-60: [sort_values("date")], then [pivot] with its three columns,
    [sort_index], [ffill] and [bfill]. *)
Definition load_fx_map (fx : RawFrame) : result (RawFrame * Frame xcell xcell) :=
  match col_pos "date" (columns fx) with
  | None => Raise KeyError
  | Some i =>
      let fx := sort_values_by_date i fx in
      match col_pos "currency" (columns fx), col_pos "usd_rate" (columns fx) with
      | Some j, Some k =>
          let* fx_map := build_fx_map (long_rows i j k fx) in
          Ok (fx, fx_map)
      | _, _ => Raise KeyError
      end
  end.

(** Lines 28-60. *)
Definition load (xls : Workbook) : result Loaded :=
  let* actuals := read_excel xls "actuals" in
  let actuals := rename renames_amounts actuals in
  let* budget := read_excel xls "budget" in
  let budget := rename renames_amounts budget in
  let* cash := read_excel xls "cash" in
  let cash := rename renames_cash cash in
  let* fx := read_excel xls "fx" in
  let fx := rename renames_fx fx in
  let* actuals := normalize_dates actuals in
  let* budget := normalize_dates budget in
  let* cash := normalize_dates cash in
  let* fx := normalize_dates fx in
  let* actuals := coerce_numeric "amount" actuals in
  let* budget := coerce_numeric "amount" budget in
  let* cash := if has_column "cash_balance" cash
               then coerce_numeric "cash_balance" cash else Ok cash in
  let* fx_and_map := load_fx_map fx in
  Ok (mkLoaded actuals budget cash (fst fx_and_map) (snd fx_and_map)).

(** *** The conditions under which loading succeeds *)

(** Every cell of the date column, when there is one, converts to a date. *)
Definition dates_convert (df : RawFrame) : Prop :=
  match col_pos "date" (columns df) with
  | Some i => Forall (fun row => is_Some (pd_to_datetime (cell_at i row))) (rows df)
  | None => True
  end.



(** The [amount] cells after loading, from the cells of the sheet. *)
Definition coerced (c : xcell) : xcell := fillna0 (to_numeric_coerce c).


End Load.




End Loader.

(** ** Sample data

    A small parser standing for [dateutil] on the formats named in the
    docstring of [_month_str_to_ts], and small data sets, to run the model. *)

Module Sample.

Definition month_names : list (string * Z) :=
  [("january", 1); ("jan", 1); ("february", 2); ("feb", 2); ("march", 3);
   ("mar", 3); ("april", 4); ("apr", 4); ("may", 5); ("june", 6); ("jun", 6);
   ("july", 7); ("jul", 7); ("august", 8); ("aug", 8); ("september", 9);
   ("sep", 9); ("october", 10); ("oct", 10); ("november", 11); ("nov", 11);
   ("december", 12); ("dec", 12)].

Fixpoint month_of_name (names : list (string * Z)) (s : string) : option Z :=
  match names with
  | [] => None
  | (n, m) :: names' => if String.eqb n s then Some m else month_of_name names' s
  end.

Definition number (s : string) : option Z :=
  match Planner.py_int s with Ok n => Some n | Raise _ => None end.

Definition in_range (lo hi : Z) (o : option Z) : option Z :=
  match o with
  | Some n => if (lo <=? n) && (n <=? hi) then Some n else None
  | None => None
  end.

(** Reads "2025-06", "2025-06-15", "June 2025" and "Jun 2025". *)
Definition parse (m : string) : option datetime :=
  let n := String.length m in
  if (n =? 7)%nat && String.eqb (String.substring 4 1 m) "-" then
    match number (String.substring 0 4 m),
          in_range 1 12 (number (String.substring 5 2 m)) with
    | Some y, Some mo => Some (mkDatetime y mo 1)
    | _, _ => None
    end
  else if (n =? 10)%nat && String.eqb (String.substring 4 1 m) "-"
          && String.eqb (String.substring 7 1 m) "-" then
    match number (String.substring 0 4 m),
          in_range 1 12 (number (String.substring 5 2 m)),
          in_range 1 31 (number (String.substring 8 2 m)) with
    | Some y, Some mo, Some d => Some (mkDatetime y mo d)
    | _, _, _ => None
    end
  else
    match String.index 0 " " m with
    | Some i =>
        match month_of_name month_names (Py.lower (String.substring 0 i m)),
              number (String.substring (i + 1) (n - i - 1) m) with
        | Some mo, Some y => Some (mkDatetime y mo 1)
        | _, _ => None
        end
    | None => None
    end.

Definition usd (n : Z) : Qc := Qc_of_Z n.

Definition apr25 : Timestamp := mkTimestamp 2025 4 1.
Definition may25 : Timestamp := mkTimestamp 2025 5 1.
Definition jun25 : Timestamp := mkTimestamp 2025 6 1.

Definition sample_actuals : list AmountRecord :=
  [ mkAmount jun25 "ParentCo" "Revenue" "USD" (usd 120000);
    mkAmount jun25 "ParentCo" "COGS" "USD" (usd 48000);
    mkAmount jun25 "ParentCo" "Opex:Marketing" "USD" (usd 20000);
    mkAmount jun25 "EMEA" "Opex:Sales" "EUR" (usd 10000);
    mkAmount jun25 "EMEA" "Opex:Marketing" "EUR" (usd 5000);
    mkAmount jun25 "ParentCo" "Operating lease" "USD" (usd 1000);
    mkAmount may25 "ParentCo" "Revenue" "USD" (usd 100);
    mkAmount may25 "ParentCo" "COGS" "USD" (usd 150) ].

Definition sample_budget : list AmountRecord :=
  [ mkAmount jun25 "ParentCo" "Revenue" "USD" (usd 110000) ].

Definition sample_cash : list CashRecord :=
  [ mkCash apr25 "Consolidated" "USD" (usd 900);
    mkCash may25 "Consolidated" "USD" (usd 700);
    mkCash jun25 "Consolidated" "USD" (usd 600) ].

Definition sample_fx : list FxRate :=
  [ mkFx apr25 "EUR" (Some (usd 2));
    mkFx jun25 "EUR" None;
    mkFx may25 "GBP" (Some (usd 3)) ].

Definition empty_fx_map : FxMap := mkFrame [] [].

Definition fx_map_or_empty (r : result FxMap) : FxMap :=
  match r with Ok m => m | Raise _ => empty_fx_map end.

Definition fd : FinanceData :=
  mkFinanceData sample_actuals sample_budget sample_cash sample_fx
    (fx_map_or_empty (fx_map_of sample_fx)).

(** Cash balances kept per entity: two rows for each month. *)
Definition two_entity_cash : list CashRecord :=
  [ mkCash apr25 "ParentCo" "USD" (usd 900);
    mkCash apr25 "EMEA" "USD" (usd 300);
    mkCash may25 "ParentCo" "USD" (usd 700);
    mkCash may25 "EMEA" "USD" (usd 250);
    mkCash jun25 "ParentCo" "USD" (usd 600);
    mkCash jun25 "EMEA" "USD" (usd 200) ].

Definition fd_two_entities : FinanceData :=
  mkFinanceData sample_actuals sample_budget two_entity_cash sample_fx
    (fx_map_or_empty (fx_map_of sample_fx)).

(** Workbooks.  Dates are date cells; one amount is not a number. *)
Definition to_datetime (c : Loader.xcell) : option Timestamp :=
  match c with
  | Loader.XDate t => Some t
  | _ => None
  end.

Definition no_number (s : string) : option Qc := None.

Definition amounts_sheet : Loader.RawFrame :=
  Loader.mkRaw ["month"; "entity"; "account_category"; "currency"; "amount"]
    [ [Loader.XDate (mkTimestamp 2025 6 17); Loader.XText "ParentCo";
       Loader.XText "Revenue"; Loader.XText "USD"; Loader.XNum (usd 120000)];
      [Loader.XDate (mkTimestamp 2025 6 1); Loader.XText "ParentCo";
       Loader.XText "COGS"; Loader.XText "USD"; Loader.XText "n/a"] ].

Definition cash_sheet : Loader.RawFrame :=
  Loader.mkRaw ["month"; "entity"; "currency"; "cash_usd"]
    [ [Loader.XDate may25; Loader.XText "Consolidated"; Loader.XText "USD";
       Loader.XNum (usd 700)];
      [Loader.XDate jun25; Loader.XText "Consolidated"; Loader.XText "USD";
       Loader.XNum (usd 600)] ].


Definition fx_sheet : Loader.RawFrame :=
  Loader.mkRaw ["month"; "currency"; "rate_to_usd"]
    [ [Loader.XDate jun25; Loader.XText "EUR"; Loader.XBlank];
      [Loader.XDate apr25; Loader.XText "EUR"; Loader.XNum (usd 2)] ].


Definition workbook (cash_s fx_s : Loader.RawFrame) : Loader.Workbook :=
  {[ "actuals" := amounts_sheet; "budget" := amounts_sheet;
     "cash" := cash_s; "fx" := fx_s ]}.

Definition wb : Loader.Workbook := workbook cash_sheet fx_sheet.

(** Three operating expenses of June 2025 in US dollars, as floats, and an
    FX table that has no US dollar. *)
Definition opex64 : list F64.AmountRecord :=
  [ F64.mkAmount jun25 "ParentCo" "Opex:Marketing" "USD" 651.59%float;
    F64.mkAmount jun25 "ParentCo" "Opex:Sales" "USD" 788.72%float;
    F64.mkAmount jun25 "EMEA" "Opex:Marketing" "USD" 93.86%float ].

Definition fx_map64 : Frame string float :=
  match build_fx_map [(apr25, "EUR", Some 1.1%float); (jun25, "EUR", Some 1.2%float)] with
  | Ok m => m
  | Raise _ => mkFrame [] []
  end.

Definition fd64 : F64.FinanceData := F64.mkFinanceData opex64 fx_map64.



End Sample.

(** ** Predicates of the specification *)

(** The optional entity argument selects a row: no entity, or the empty
    name, selects every row. *)
Definition entity_selected (ent : option string) (e : string) : Prop :=
  match ent with
  | Some name => name = "" \/ e = name
  | None => True
  end.

Definition entity_selectedb (ent : option string) (e : string) : bool :=
  match ent with
  | Some name => negb (Py.truthy name) || String.eqb e name
  | None => true
  end.

(** A revenue row of month [ts] for the selected entity. *)
Definition revenue_row_for (ts : Timestamp) (ent : option string)
    (r : AmountRecord) : Prop :=
  date r = ts /\ Py.lower (category r) = "revenue" /\ entity_selected ent (entity r).

(** A row of month [ts] whose category contains "opex" or "operating",
    whatever the case of its letters, for the selected entity. *)
Definition opex_row_for (ts : Timestamp) (ent : option string)
    (r : AmountRecord) : bool :=
  bool_decide (date r = ts)
  && (Py.contains "opex" (Py.lower (category r))
      || Py.contains "operating" (Py.lower (category r)))
  && entity_selectedb ent (entity r).

(** The USD revenue and the USD cost of goods sold of month [ts]: the sums
    over the rows of the actuals of that month whose category is "revenue",
    respectively "cogs", whatever the case. *)
Definition month_revenue_usd (self : FinanceData) (ts : Timestamp) : Qc :=
  usd_total self
    (List.filter (fun r => bool_decide (date r = ts)
                           && String.eqb (Py.lower (category r)) "revenue")
                 (actuals self)).

Definition month_cogs_usd (self : FinanceData) (ts : Timestamp) : Qc :=
  usd_total self
    (List.filter (fun r => bool_decide (date r = ts)
                           && String.eqb (Py.lower (category r)) "cogs")
                 (actuals self)).

(** What the specification says of one row of the gross margin trend. *)
Definition margin_row_ok (self : FinanceData) (row : MarginRow) : Prop :=
  gm_revenue_usd row = month_revenue_usd self (gm_date row) /\
  gm_cogs_usd row = month_cogs_usd self (gm_date row) /\
  match gross_margin_pct row with
  | None => gm_revenue_usd row = 0%Qc
  | Some g =>
      gm_revenue_usd row <> 0%Qc /\
      g = ((gm_revenue_usd row - gm_cogs_usd row) / gm_revenue_usd row)%Qc /\
      ((0 < gm_revenue_usd row)%Qc -> (gm_revenue_usd row < gm_cogs_usd row)%Qc ->
       (g < 0)%Qc)
  end.

(** The three consecutive calendar months ending at the month of [ts]. *)
Definition three_months (ts : Timestamp) : list Timestamp :=
  [to_timestamp (to_period ts - 2); to_timestamp (to_period ts - 1);
   to_timestamp (to_period ts)].

(** The rate of a cash row: the cell of the FX table when its key is there,
    1 otherwise. *)
Definition cash_rate (self : FinanceData) (r : CashRecord) : cell :=
  match loc (fx_map self) (normalize_month (cash_date r)) (cash_currency r) with
  | Ok rate => rate
  | Raise _ => Some 1%Qc
  end.

(** The cash rows of the selected entity. *)
Definition cash_rows_for (self : FinanceData) (ent : option string) : list CashRecord :=
  List.filter (fun r => entity_selectedb ent (cash_entity r)) (cash self).

(** The USD balance of month [m] for the selected entity: the balance of the
    cash row of that month times its rate, missing when there is no row. *)
Definition month_balance_usd (self : FinanceData) (ent : option string)
    (m : Timestamp) : cell :=
  match List.find (fun r => bool_decide (normalize_month (cash_date r) = m))
                  (cash_rows_for self ent) with
  | Some r => cell_mul (Some (cash_balance r)) (cash_rate self r)
  | None => None
  end.

(** What the specification says of the result of [cash_runway_months] for
    the resolved month [ts]: with the balances of the three months filled
    forward then backward, the average burn is the mean of the two declines,
    and the runway is the current cash over it when it is positive and
    infinite otherwise; with no balance at all the burn is reported as 0 and
    the runway is infinite. *)
Definition runway_ok (self : FinanceData) (ent : option string) (ts : Timestamp)
    (r : Runway) : Prop :=
  as_of r = ts /\
  match bfill (ffill (map (month_balance_usd self ent) (three_months ts))) with
  | [Some b0; Some b1; Some b2] =>
      let avg := (((b0 - b1) + (b1 - b2)) / Qc_of_Z 2)%Qc in
      current_cash_usd r = Finite b2 /\
      avg_monthly_burn_usd r = avg /\
      runway_months r = if decide (0 < avg)%Qc then Finite (b2 / avg)%Qc else Inf
  | [None; None; None] =>
      current_cash_usd r = NaN /\
      avg_monthly_burn_usd r = 0%Qc /\
      runway_months r = Inf
  | _ => False
  end.

(** *** Reading a filled column *)

(** The last known value of a column, read from the top. *)
Fixpoint last_known {V : Type} (l : list (option V)) : option V :=
  match l with
  | [] => None
  | x :: l' =>
      match last_known l' with
      | Some v => Some v
      | None => x
      end
  end.

(** The first known value of a column. *)
Fixpoint first_known {V : Type} (l : list (option V)) : option V :=
  match l with
  | [] => None
  | Some v :: _ => Some v
  | None :: l' => first_known l'
  end.

(** What [ffill().bfill()] leaves at position [i]: the last value known at
    or above [i], and the first known value of the column when there is
    none. *)
Definition filled_value {V : Type} (l : list (option V)) (i : nat) : option V :=
  match last_known (take (S i) l) with
  | Some v => Some v
  | None => first_known l
  end.

(** *** The classifier and its caller *)




(** *** Sums of USD amounts *)

(** The USD amount of a row of the actuals: its amount times the rate of
    the FX table at its month and currency, its amount itself when the
    table does not have that key, and NaN when the rate of the table is
    NaN. *)
Definition usd_cell (self : FinanceData) (r : AmountRecord) : cell :=
  match loc (fx_map self) (normalize_month (date r)) (currency r) with
  | Ok (Some v) => Some (amount r * v)%Qc
  | Ok None => None
  | Raise _ => Some (amount r)
  end.

(** [col.sum()] by its additions: the NaN cells count for 0. *)
Definition series_sum (l : list cell) : Qc :=
  add_reduce 0%Qc 0%Qc Qcplus (map cell_value l).

(** The sum of a group of [GroupBy.sum] by its additions: the NaN cells are
    skipped (no rational is NaN, so no compensation is reset). *)
Definition grouped_sum (l : list cell) : Qc :=
  kahan_sum 0%Qc Qcplus Qcminus (fun _ => false) (dropna l).

(** *** The loaded frames *)



(** The frame [df'] has the rows of the sheet [df], in their order, with
    the cells of the sheet in every column that is not named in [names]. *)
Definition same_outside (names : list string) (df df' : Loader.RawFrame) : Prop :=
  length (Loader.rows df') = length (Loader.rows df) /\
  forall (n j : nat) (row row' : list Loader.xcell),
    Loader.rows df !! n = Some row -> Loader.rows df' !! n = Some row' ->
    (forall name, In name names ->
       Loader.col_pos name (Loader.columns df') <> Some j) ->
    Loader.cell_at j row' = Loader.cell_at j row.

(** The cell is a number. *)
Definition is_number (c : Loader.xcell) : Prop := exists q, c = Loader.XNum q.

(** *** Workbooks within the data model *)








(** * Properties *)

(** ** Auxiliary facts *)

Lemma entity_selectedb_spec (ent : option string) (e : string) :
  entity_selectedb ent e = true <-> entity_selected ent e.
Proof.
  destruct ent as [name|]; simpl; [|tauto].
  rewrite orb_true_iff, String.eqb_eq.
  destruct name; simpl; split; intros [H|H]; auto; discriminate.
Qed.

Lemma filter_entity_filter {R : Type} (ent : R -> string) (e : option string)
    (df : list R) :
  filter_entity ent e df = List.filter (fun r => entity_selectedb e (ent r)) df.
Proof.
  destruct e as [name|]; simpl.
  - destruct name as [|c name']; simpl.
    + induction df as [|x df IH]; simpl; congruence.
    + reflexivity.
  - induction df as [|x df IH]; simpl; congruence.
Qed.

Lemma filter_filter_andb {A : Type} (f g : A -> bool) (l : list A) :
  List.filter g (List.filter f l) = List.filter (fun x => f x && g x) l.
Proof.
  induction l as [|x l IH]; simpl; [reflexivity|].
  destruct (f x); simpl; [destruct (g x)|]; rewrite IH; reflexivity.
Qed.

Lemma filter_none {A : Type} (f : A -> bool) (l : list A) :
  (forall x, In x l -> f x = false) -> List.filter f l = [].
Proof.
  induction l as [|x l IH]; intros H; simpl; [reflexivity|].
  rewrite (H x) by (left; reflexivity).
  apply IH. intros y Hy. apply H. right. exact Hy.
Qed.

Lemma month_str_to_ts_first_of_month parse m ts :
  _month_str_to_ts parse m = Ok ts ->
  day ts = 1 /\ 1 <= month ts <= 12 /\
  exists dt, parse m = Some dt /\ year ts = dt_year dt /\ month ts = dt_month dt.
Proof.
  unfold _month_str_to_ts, Timestamp_first_of_month.
  destruct (parse m) as [dt|]; [|discriminate].
  destruct (1 <=? dt_month dt) eqn:H1; simpl; [|discriminate].
  destruct (dt_month dt <=? 12) eqn:H2; [|discriminate].
  intros [= <-]. simpl. repeat split; try lia. eauto.
Qed.

(** ** Currency conversion *)

Section FxTable.

Context {C V : Type} `{EqDecision C}.

Lemma ffill_from_length (last : option V) (l : list (option V)) :
  length (ffill_from last l) = length l.
Proof. revert last. induction l as [|x l IH]; intros last; simpl; [|rewrite IH]; reflexivity. Qed.

Lemma bfill_length (l : list (option V)) : length (bfill l) = length l.
Proof.
  induction l as [|x l IH]; simpl; [reflexivity|].
  destruct x; simpl; rewrite IH; reflexivity.
Qed.

(** A known value is kept by both fills. *)
Lemma ffill_from_lookup_Some (last : option V) (l : list (option V)) (i : nat) (v : V) :
  l !! i = Some (Some v) -> ffill_from last l !! i = Some (Some v).
Proof.
  revert last i. induction l as [|x l IH]; intros last [|i]; simpl; try discriminate.
  - intros [= ->]. reflexivity.
  - apply IH.
Qed.

Lemma bfill_lookup_Some (l : list (option V)) (i : nat) (v : V) :
  l !! i = Some (Some v) -> bfill l !! i = Some (Some v).
Proof.
  revert i. induction l as [|x l IH]; intros [|i]; simpl; try discriminate.
  - intros [= ->]. reflexivity.
  - intros H. apply IH in H. destruct x; exact H.
Qed.

Lemma index_of_lookup (d : Timestamp) (idx : list Timestamp) (i : nat) :
  index_of d idx = Some i -> idx !! i = Some d.
Proof.
  revert i. induction idx as [|x idx IH]; intros i; simpl; [discriminate|].
  destruct (decide (x = d)) as [->|Hne].
  - intros [= <-]. reflexivity.
  - destruct (index_of d idx) as [j|]; [|discriminate].
    intros [= <-]. simpl. apply IH. reflexivity.
Qed.

Lemma index_of_In (d : Timestamp) (idx : list Timestamp) :
  (exists i, index_of d idx = Some i) <-> In d idx.
Proof.
  induction idx as [|x idx IH]; simpl.
  - split; [intros [i H]; discriminate|tauto].
  - destruct (decide (x = d)) as [->|Hne].
    + split; eauto.
    + rewrite <- IH. split.
      * intros [i H]. destruct (index_of d idx); [eauto|discriminate].
      * intros [H|[i H]]; [contradiction|]. rewrite H. simpl. eauto.
Qed.

Lemma column_of_labels (g : C -> list (option V)) (c : C) (labels : list C) :
  column_of c (map (fun c' => (c', g c')) labels)
  = if decide (c ∈ labels) then Some (g c) else None.
Proof.
  induction labels as [|c' labels IH]; simpl.
  - destruct (decide (c ∈ [])) as [Hin|]; [inversion Hin|reflexivity].
  - destruct (decide (c' = c)) as [->|Hne].
    + destruct (decide (c ∈ c :: labels)) as [_|Hn]; [reflexivity|].
      exfalso. apply Hn. left.
    + rewrite IH. destruct (decide (c ∈ labels)) as [Hin|Hn];
        destruct (decide (c ∈ c' :: labels)) as [Hin'|Hn']; try reflexivity.
      * exfalso. apply Hn'. right. exact Hin.
      * exfalso. apply elem_of_cons in Hin'. destruct Hin' as [->|?]; contradiction.
Qed.

(** The frame built from long rows without a repeated key. *)
Lemma build_fx_map_Ok (rows : list (long_row C V)) (f : Frame C V) :
  build_fx_map rows = Ok f ->
  let idx := merge_sort Timestamp_le (remove_dups (map (fun r => fst (fst r)) rows)) in
  let labels := remove_dups (map (fun r => snd (fst r)) rows) in
  NoDup (map long_key rows) /\
  frame_index f = idx /\
  frame_columns f
  = map (fun c => (c, bfill (ffill (map (fun d => pivot_cell rows d c) idx)))) labels.
Proof.
  unfold build_fx_map, pivot.
  destruct (decide (NoDup (map long_key rows))) as [Hnd|]; [|discriminate].
  simpl. intros [= <-]. split; [exact Hnd|]. split; [reflexivity|].
  unfold frame_bfill, frame_ffill. simpl. rewrite !map_map. reflexivity.
Qed.

Lemma pivot_cell_row (rows : list (long_row C V)) (d : Timestamp) (c : C) (v : option V) :
  NoDup (map long_key rows) -> In (d, c, v) rows -> pivot_cell rows d c = v.
Proof.
  unfold pivot_cell. induction rows as [|r rows IH]; intros Hnd Hin; [destruct Hin|].
  simpl. inversion Hnd as [|k ks Hk Hnd']; subst.
  destruct (bool_decide (long_key r = (d, c))) eqn:E.
  - apply bool_decide_eq_true in E. destruct Hin as [->|Hin]; [reflexivity|].
    exfalso. apply Hk. rewrite E. apply list_elem_of_In.
    apply (in_map long_key) in Hin. exact Hin.
  - apply bool_decide_eq_false in E. destruct Hin as [->|Hin].
    + exfalso. apply E. reflexivity.
    + apply IH; assumption.
Qed.

(** A key is in the filled table exactly when its date is the date of some
    row and its label the label of some row. *)
Lemma loc_build_fx_map_key (rows : list (long_row C V)) (f : Frame C V)
    (d : Timestamp) (c : C) :
  build_fx_map rows = Ok f ->
  (succeeds (loc f d c) <->
   In d (map (fun r => fst (fst r)) rows) /\ In c (map (fun r => snd (fst r)) rows)).
Proof.
  intros Hf. apply build_fx_map_Ok in Hf. cbv zeta in Hf.
  destruct Hf as (_ & Hidx & Hcols).
  unfold loc. rewrite Hidx, Hcols, column_of_labels.
  set (idx := merge_sort Timestamp_le _).
  assert (Hd : In d idx <-> In d (map (fun r => fst (fst r)) rows)).
  { unfold idx. rewrite <- !list_elem_of_In, merge_sort_Permutation, elem_of_remove_dups.
    reflexivity. }
  assert (Hc : c ∈ remove_dups (map (fun r => snd (fst r)) rows)
               <-> In c (map (fun r => snd (fst r)) rows)).
  { rewrite elem_of_remove_dups. apply list_elem_of_In. }
  rewrite <- Hd, <- Hc, <- index_of_In.
  destruct (index_of d idx) as [i|] eqn:Hi.
  - destruct (decide _) as [Hin|Hn].
    + apply index_of_lookup, lookup_lt_Some in Hi.
      destruct (lookup_lt_is_Some_2 (bfill (ffill (map (fun d0 => pivot_cell rows d0 c) idx))) i)
        as [v Hv].
      { unfold ffill. rewrite bfill_length, ffill_from_length, length_map. exact Hi. }
      rewrite Hv. simpl. split; eauto.
    + simpl. split; [contradiction|]. intros [_ Hin]. contradiction.
  - simpl. split; [contradiction|]. intros [[i Hi'] _]. discriminate.
Qed.

(** The rate of a row of the data is the cell of its own key. *)
Lemma loc_build_fx_map_known (rows : list (long_row C V)) (f : Frame C V)
    (d : Timestamp) (c : C) (v : V) :
  build_fx_map rows = Ok f ->
  In (d, c, Some v) rows ->
  loc f d c = Ok (Some v).
Proof.
  intros Hf Hin. apply build_fx_map_Ok in Hf. cbv zeta in Hf.
  destruct Hf as (Hnd & Hidx & Hcols).
  unfold loc. rewrite Hidx, Hcols, column_of_labels.
  set (idx := merge_sort Timestamp_le _).
  assert (Hd : In d idx).
  { unfold idx. rewrite <- list_elem_of_In, merge_sort_Permutation, elem_of_remove_dups.
    apply list_elem_of_In. apply (in_map (fun r => fst (fst r))) in Hin. exact Hin. }
  apply index_of_In in Hd. destruct Hd as [i Hi]. rewrite Hi.
  destruct (decide _) as [_|Hn].
  - apply index_of_lookup in Hi.
    rewrite (bfill_lookup_Some _ i v); [reflexivity|].
    apply ffill_from_lookup_Some.
    rewrite list_lookup_fmap, Hi. simpl.
    rewrite (pivot_cell_row rows d c (Some v) Hnd Hin). reflexivity.
  - exfalso. apply Hn. rewrite elem_of_remove_dups.
    apply list_elem_of_In. apply (in_map (fun r => snd (fst r))) in Hin. exact Hin.
Qed.

End FxTable.

(** The filled FX table of the loaded [fx] rows has the key (date, currency)
    exactly when the date and the currency each occur in the rows. *)
Lemma fx_map_of_key (rows : list FxRate) (m : FxMap) (d : Timestamp) (c : string) :
  fx_map_of rows = Ok m ->
  (succeeds (loc m d c) <-> In d (map fx_date rows) /\ In c (map fx_currency rows)).
Proof.
  unfold fx_map_of. intros Hm.
  rewrite (loc_build_fx_map_key _ _ d c Hm).
  unfold sort_values_date.
  rewrite <- !list_elem_of_In.
  rewrite !(fmap_Permutation _ _ _ (merge_sort_Permutation _ _)).
  rewrite !list_elem_of_In, !map_map. reflexivity.
Qed.

(** With the table built by [__init__], a record whose month and currency
    both occur in the [fx] rows takes the cell of the table, and any other
    record takes the rate 1. *)
Corollary to_usd_row_rate_of_table {R : Type} (date_col : R -> Timestamp)
    (amount_col : R -> Qc) (currency_col : R -> string)
    (self : FinanceData) (row : R) :
  fx_map_of (fx self) = Ok (fx_map self) ->
  let d := normalize_month (date_col row) in
  let c := to_usd_row date_col amount_col currency_col self row in
  (In d (map fx_date (fx self)) /\ In (currency_col row) (map fx_currency (fx self)) ->
   loc (fx_map self) d (currency_col row) = Ok (usd_rate c)) /\
  (~ (In d (map fx_date (fx self)) /\ In (currency_col row) (map fx_currency (fx self))) ->
   usd_rate c = Some 1%Qc).
Proof.
  intros Hm d c.
  pose proof (fx_map_of_key _ _ d (currency_col row) Hm) as Hkey.
  unfold c, to_usd_row, lookup_rate. simpl. fold d.
  destruct (loc (fx_map self) d (currency_col row)) as [v|e]; simpl in Hkey.
  - split; [reflexivity|]. intros Hn. exfalso. apply Hn, Hkey. exact I.
  - split.
    + intros Hin. apply Hkey in Hin. contradiction.
    + intros _. destruct (String.eqb _ _); reflexivity.
Qed.


(** ** Revenue against budget *)

Lemma revenue_filter_spec (ts : Timestamp) (ent : option string)
    (df : list AmountRecord) (row : AmountRecord) :
  In row (filter_entity entity ent
            (List.filter (fun r => on_date ts r && is_revenue r) df)) <->
  In row df /\ revenue_row_for ts ent row.
Proof.
  rewrite filter_entity_filter, filter_filter_andb, filter_In.
  unfold revenue_row_for, on_date, is_revenue.
  rewrite !andb_true_iff, bool_decide_eq_true, String.eqb_eq, entity_selectedb_spec.
  tauto.
Qed.

Lemma usd_total_nil (self : FinanceData) : usd_total self [] = 0%Qc.
Proof. reflexivity. Qed.

Lemma no_revenue_rows_empty (ts : Timestamp) (ent : option string)
    (df : list AmountRecord) :
  (forall row, In row df -> ~ revenue_row_for ts ent row) ->
  filter_entity entity ent
    (List.filter (fun r => on_date ts r && is_revenue r) df) = [].
Proof.
  intros H.
  destruct (filter_entity _ _ _) as [|row l] eqn:E; [reflexivity|].
  assert (Hin : In row (filter_entity entity ent
            (List.filter (fun r => on_date ts r && is_revenue r) df))).
  { rewrite E. left. reflexivity. }
  apply revenue_filter_spec in Hin. destruct Hin as [Hin Hrow].
  destruct (H row Hin Hrow).
Qed.

(** C8. When the month string resolves, [revenue_vs_budget] returns a
    result; its [actual_usd] is 0 when no row of the actuals is a revenue
    row of that month for the selected entity, and its [budget_usd] is 0
    when no row of the budget is. *)
Theorem revenue_vs_budget_zero_without_rows (parse : string -> option datetime)
    (self : FinanceData) (month : string) (ent : option string) (ts : Timestamp) :
  _month_str_to_ts parse month = Ok ts ->
  exists r,
    revenue_vs_budget parse self month ent = Ok r /\
    rvb_month r = ts /\
    ((forall row, In row (actuals self) -> ~ revenue_row_for ts ent row) ->
     actual_usd r = 0%Qc) /\
    ((forall row, In row (budget self) -> ~ revenue_row_for ts ent row) ->
     budget_usd r = 0%Qc).
Proof.
  intros Hts. unfold revenue_vs_budget. rewrite Hts. simpl.
  eexists. split; [reflexivity|]. simpl.
  split; [reflexivity|].
  split; intros H; rewrite (no_revenue_rows_empty ts ent _ H); apply usd_total_nil.
Qed.

Lemma revenue_vs_budget_zero_without_rows_witness :
  exists r,
    revenue_vs_budget Sample.parse Sample.fd "2025-07" (Some "EMEA") = Ok r /\
    actual_usd r = 0%Qc /\ budget_usd r = 0%Qc.
Proof.
  destruct (revenue_vs_budget_zero_without_rows Sample.parse Sample.fd
              "2025-07" (Some "EMEA") (mkTimestamp 2025 7 1) eq_refl)
    as (r & Hr & _ & Ha & Hb).
  exists r. split; [exact Hr|].
  split; [apply Ha|apply Hb]; intros row Hin [Hd _];
    simpl in Hin; intuition (subst; discriminate).
Defined.

(** ** Month strings *)

(** C6. Two month strings that the parser reads as dates of the same year
    and month resolve to the same first-of-month timestamp, and
    [revenue_vs_budget] and [ebitda_proxy] return the same result for both. *)
Theorem same_month_same_results (parse : string -> option datetime)
    (self : FinanceData) (m1 m2 : string) (d1 d2 : datetime)
    (ent : option string) :
  parse m1 = Some d1 ->
  parse m2 = Some d2 ->
  dt_year d1 = dt_year d2 ->
  dt_month d1 = dt_month d2 ->
  _month_str_to_ts parse m1 = _month_str_to_ts parse m2 /\
  revenue_vs_budget parse self m1 ent = revenue_vs_budget parse self m2 ent /\
  ebitda_proxy parse self m1 ent = ebitda_proxy parse self m2 ent.
Proof.
  intros H1 H2 Hy Hm.
  assert (E : _month_str_to_ts parse m1 = _month_str_to_ts parse m2).
  { unfold _month_str_to_ts. rewrite H1, H2, Hy, Hm. reflexivity. }
  unfold revenue_vs_budget, ebitda_proxy. rewrite E. auto.
Qed.

(** The sample parser reads the four spellings of the docstring, and a day
    inside the month, as the same first-of-month timestamp. *)
Example month_spellings_sample :
  map (_month_str_to_ts Sample.parse)
      ["June 2025"; "Jun 2025"; "2025-06"; "2025-06-01"; "2025-06-15"]
  = repeat (Ok Sample.jun25) 5.
Proof. reflexivity. Qed.

Lemma same_month_same_results_witness :
  _month_str_to_ts Sample.parse "June 2025" = _month_str_to_ts Sample.parse "2025-06-15" /\
  revenue_vs_budget Sample.parse Sample.fd "June 2025" None
    = revenue_vs_budget Sample.parse Sample.fd "2025-06-15" None /\
  ebitda_proxy Sample.parse Sample.fd "June 2025" None
    = ebitda_proxy Sample.parse Sample.fd "2025-06-15" None.
Proof.
  apply (same_month_same_results Sample.parse Sample.fd "June 2025" "2025-06-15"
           (mkDatetime 2025 6 1) (mkDatetime 2025 6 15) None);
    reflexivity.
Defined.

(** ** Grouped sums *)

Lemma col_sum_cons (c : cell) (l : list cell) :
  col_sum (c :: l) = (cell_value c + col_sum l)%Qc.
Proof. destruct c; simpl; [reflexivity|ring]. Qed.

Lemma Qc_sum_app (l1 l2 : list Qc) :
  Qc_sum (l1 ++ l2) = (Qc_sum l1 + Qc_sum l2)%Qc.
Proof. induction l1 as [|x l1 IH]; simpl; [ring|rewrite IH; ring]. Qed.

Lemma Qc_sum_Permutation (l1 l2 : list Qc) :
  l1 ≡ₚ l2 -> Qc_sum l1 = Qc_sum l2.
Proof.
  induction 1 as [|x l1 l2 _ IH|x y l|l1 l2 l3 _ IH1 _ IH2]; simpl.
  - reflexivity.
  - rewrite IH. reflexivity.
  - ring.
  - congruence.
Qed.

Section GroupSums.

Context {K : Type} `{EqDecision K}.

(** Adding [v] to the term of one key of a duplicate-free list of keys adds
    [v] to the sum. *)
Lemma Qc_sum_bump (keys : list K) (k0 : K) (v : Qc) (f : K -> Qc) :
  NoDup keys -> k0 ∈ keys ->
  Qc_sum (map (fun k => if decide (k0 = k) then (v + f k)%Qc else f k) keys)
  = (v + Qc_sum (map f keys))%Qc.
Proof.
  intros Hnd. induction Hnd as [|k keys Hk Hnd IH]; intros Hin.
  - inversion Hin.
  - simpl. destruct (decide (k0 = k)) as [->|Hne].
    + assert (E : map (fun k' => if decide (k = k') then (v + f k')%Qc else f k') keys
                  = map f keys).
      { apply map_ext_in. intros k' Hk'. destruct (decide (k = k')) as [<-|]; [|reflexivity].
        exfalso. apply Hk. apply list_elem_of_In. exact Hk'. }
      rewrite E. ring.
    + rewrite IH.
      * ring.
      * apply elem_of_cons in Hin. destruct Hin; [contradiction|assumption].
Qed.

End GroupSums.

Lemma groupby_partition (rows : list (Converted (R:=AmountRecord)))
    (keys : list string) :
  NoDup keys ->
  (forall r, In r rows -> category (source r) ∈ keys) ->
  Qc_sum (map (fun k =>
                 col_sum (map amount_usd
                   (List.filter (fun r => String.eqb (category (source r)) k) rows)))
              keys)
  = col_sum (map amount_usd rows).
Proof.
  intros Hnd. induction rows as [|r rows IH]; intros Hin.
  - simpl. clear Hnd Hin. induction keys as [|k keys IHk]; simpl; [reflexivity|].
    rewrite IHk. ring.
  - change (map amount_usd (r :: rows)) with (amount_usd r :: map amount_usd rows).
    rewrite col_sum_cons.
    rewrite <- IH by (intros r' Hr'; apply Hin; right; exact Hr').
    rewrite <- (Qc_sum_bump keys (category (source r)) (cell_value (amount_usd r)))
      by (try exact Hnd; apply Hin; left; reflexivity).
    f_equal. apply map_ext. intros k. simpl.
    destruct (decide (category (source r) = k)) as [->|Hne].
    + rewrite String.eqb_refl. simpl map. apply col_sum_cons.
    + apply String.eqb_neq in Hne. rewrite Hne. reflexivity.
Qed.

Lemma groupby_category_sum_total (rows : list (Converted (R:=AmountRecord))) :
  Qc_sum (map opex_amount_usd (groupby_category_sum rows))
  = col_sum (map amount_usd rows).
Proof.
  unfold groupby_category_sum. rewrite map_map. simpl.
  apply groupby_partition.
  - rewrite merge_sort_Permutation. apply NoDup_remove_dups.
  - intros r Hr. rewrite merge_sort_Permutation, elem_of_remove_dups.
    apply list_elem_of_In. apply (in_map (fun r => category (source r))). exact Hr.
Qed.

Lemma sort_values_amount_desc_total (rows : list OpexRow) :
  Qc_sum (map opex_amount_usd (sort_values_amount_desc rows))
  = Qc_sum (map opex_amount_usd rows).
Proof.
  apply Qc_sum_Permutation. unfold sort_values_amount_desc.
  apply fmap_Permutation. apply merge_sort_Permutation.
Qed.

#[global] Instance opex_ge_total : Total opex_ge.
Proof.
  intros a b. unfold opex_ge, Qc_ge.
  destruct (Qc_le_total (opex_amount_usd a) (opex_amount_usd b)); auto.
Qed.

#[global] Instance opex_ge_trans : Transitive opex_ge.
Proof.
  intros a b c. unfold opex_ge, Qc_ge. intros H1 H2.
  apply (Qcle_trans _ (opex_amount_usd b)); assumption.
Qed.

Lemma opex_filter_merge (ts : Timestamp) (ent : option string)
    (df : list AmountRecord) :
  filter_entity entity ent (List.filter (fun r => on_date ts r && is_opex r) df)
  = List.filter (opex_row_for ts ent) df.
Proof.
  rewrite filter_entity_filter, filter_filter_andb. reflexivity.
Qed.

(** ** Opex breakdown and EBITDA *)

Lemma opex_breakdown_ok (parse : string -> option datetime) (self : FinanceData)
    (month : string) (ent : option string) (ts : Timestamp) :
  _month_str_to_ts parse month = Ok ts ->
  opex_breakdown parse self month ent
  = Ok (sort_values_amount_desc
          (groupby_category_sum
             (to_usd_amounts self (List.filter (opex_row_for ts ent) (actuals self))))).
Proof.
  intros Hts. unfold opex_breakdown. rewrite Hts. simpl.
  rewrite opex_filter_merge. reflexivity.
Qed.

(** In exact arithmetic the amounts of the breakdown add up to the total of
    the rows.  (In binary64 the two sums can differ by the rounding of their
    additions.) *)
Lemma opex_rows_total (self : FinanceData) (df : list AmountRecord) :
  Qc_sum (map opex_amount_usd
            (sort_values_amount_desc (groupby_category_sum (to_usd_amounts self df))))
  = usd_total self df.
Proof.
  rewrite sort_values_amount_desc_total, groupby_category_sum_total. reflexivity.
Qed.

(** ** Gross margin trend *)

Lemma to_period_to_timestamp (p : Z) : to_period (to_timestamp p) = p.
Proof.
  unfold to_period, to_timestamp. simpl.
  pose proof (Z.div_mod p 12 ltac:(lia)). lia.
Qed.


Lemma normalize_month_first_of_month (t : Timestamp) :
  day t = 1 -> 1 <= month t <= 12 -> normalize_month t = t.
Proof.
  destruct t as [y m d]. simpl. intros -> Hm.
  unfold normalize_month, to_period, to_timestamp. simpl.
  replace ((y - 1970) * 12 + (m - 1)) with ((m - 1) + (y - 1970) * 12) by lia.
  rewrite Z.div_add, Z.mod_add by lia.
  rewrite Z.div_small, Z.mod_small by lia.
  f_equal; lia.
Qed.

Lemma period_range_length (p n : Z) : length (period_range p n) = Z.to_nat n.
Proof. unfold period_range. rewrite length_map, length_seq. reflexivity. Qed.

Lemma period_range_lookup (p n : Z) (i : nat) :
  (i < Z.to_nat n)%nat -> period_range p n !! i = Some (p - n + 1 + Z.of_nat i).
Proof.
  intros Hi. unfold period_range.
  rewrite list_lookup_fmap, lookup_seq_lt by exact Hi. reflexivity.
Qed.

Lemma period_range_last (p n : Z) : 0 < n -> last (period_range p n) = Some p.
Proof.
  intros Hn. rewrite last_lookup, period_range_length.
  rewrite period_range_lookup by lia.
  f_equal. lia.
Qed.

Lemma gross_margin_trend_dates (parse : string -> option datetime)
    (self : FinanceData) (months : Z) (end_month : option string)
    (end_ts : Timestamp) :
  resolve_end parse end_month (map date (actuals self)) = Ok end_ts ->
  gross_margin_trend parse self months end_month
  = Ok (map (margin_row self) (months_ending end_ts months)).
Proof.
  intros H. unfold gross_margin_trend. rewrite H. reflexivity.
Qed.



Lemma Qcdiv_neg_pos (x y : Qc) : (x < 0)%Qc -> (0 < y)%Qc -> (x / y < 0)%Qc.
Proof.
  intros Hx Hy. unfold Qcdiv.
  apply Qclt_minus_iff.
  replace (0 + - (x * / y))%Qc with ((- x) * / y)%Qc by ring.
  apply Qcmult_pos_pos; [|apply Qcinv_pos; exact Hy].
  apply Qclt_minus_iff in Hx. rewrite Qcplus_0_l in Hx. exact Hx.
Qed.

Lemma margin_row_spec (self : FinanceData) (ts : Timestamp) :
  margin_row_ok self (margin_row self ts).
Proof.
  unfold margin_row_ok, margin_row. simpl.
  split; [reflexivity|]. split; [reflexivity|].
  set (rev := usd_total self _).
  set (cogs := usd_total self _).
  destruct (bool_decide (rev = 0%Qc)) eqn:E.
  - apply bool_decide_eq_true in E. exact E.
  - apply bool_decide_eq_false in E.
    split; [exact E|]. split; [reflexivity|].
    intros Hpos Hlt. apply Qcdiv_neg_pos; [|exact Hpos].
    apply Qclt_minus_iff in Hlt. apply Qclt_minus_iff.
    replace (0 + - (rev - cogs))%Qc with (cogs + - rev)%Qc by ring.
    exact Hlt.
Qed.

(** C3. Whenever the end month resolves, [gross_margin_trend] returns its
    rows without an error, also for months without revenue.  In each row the
    revenue and the cost are the USD sums of that month, and
    [gross_margin_pct] is null exactly when the revenue is 0; otherwise it is
    [(revenue_usd - cogs_usd) / revenue_usd], which is negative when the
    cost exceeds a positive revenue.  When the end month does not resolve,
    that error is raised. *)
Theorem gross_margin_pct_null_iff_no_revenue (parse : string -> option datetime)
    (self : FinanceData) (months : Z) (end_month : option string) :
  match resolve_end parse end_month (map date (actuals self)) with
  | Ok _ =>
      exists rows,
        gross_margin_trend parse self months end_month = Ok rows /\
        Forall (margin_row_ok self) rows
  | Raise e => gross_margin_trend parse self months end_month = Raise e
  end.
Proof.
  destruct (resolve_end parse end_month (map date (actuals self))) as [ts|e] eqn:H.
  - eexists. split; [apply (gross_margin_trend_dates _ _ _ _ _ H)|].
    apply Forall_forall. intros row Hrow.
    apply list_elem_of_In, in_map_iff in Hrow. destruct Hrow as (t & <- & _).
    apply margin_row_spec.
  - unfold gross_margin_trend. rewrite H. reflexivity.
Qed.

(** The sample data have a month without revenue (null margin), a month
    whose cost exceeds its revenue (margin -1/2) and a month of margin 3/5. *)
Example gross_margin_trend_sample :
  (fun r => match r with
            | Ok rows => map gross_margin_pct rows
            | Raise _ => []
            end) (gross_margin_trend Sample.parse Sample.fd 3 (Some "2025-06"))
  = [None; Some (- (1 / 2))%Qc; Some (Sample.usd 3 / Sample.usd 5)%Qc].
Proof. compute_done. Qed.

(** ** Cash runway *)

Lemma months_ending_three (ts : Timestamp) : months_ending ts 3 = three_months ts.
Proof.
  unfold months_ending, three_months, period_range. simpl.
  repeat f_equal; lia.
Qed.

Lemma find_to_usd_cash (self : FinanceData) (df : list CashRecord) (m : Timestamp) :
  List.find (fun c => bool_decide (conv_date c = m)) (to_usd_cash self df)
  = to_usd_row cash_date cash_balance cash_currency self
      <$> List.find (fun r => bool_decide (normalize_month (cash_date r) = m)) df.
Proof.
  induction df as [|r df IH]; simpl; [reflexivity|].
  destruct (bool_decide (normalize_month (cash_date r) = m)); [reflexivity|exact IH].
Qed.

Lemma cash_balance_usd_col_reindexed (self : FinanceData) (ent : option string)
    (months : list Timestamp) :
  cash_balance_usd_col
    (map (fun m => List.find (fun c => bool_decide (conv_date c = m))
                     (to_usd_cash self (filter_entity cash_entity ent (cash self))))
         months)
  = map (month_balance_usd self ent) months.
Proof.
  unfold cash_balance_usd_col. rewrite map_map. apply map_ext. intros m.
  rewrite find_to_usd_cash, filter_entity_filter.
  unfold month_balance_usd, cash_rows_for.
  destruct (List.find _ _) as [r|]; [|reflexivity].
  simpl. unfold lookup_rate, cash_rate.
  destruct (loc _ _ _); [reflexivity|].
  destruct (String.eqb _ _); reflexivity.
Qed.

Lemma conv_date_to_usd_cash (self : FinanceData) (df : list CashRecord) :
  map conv_date (to_usd_cash self df)
  = map (fun r => normalize_month (cash_date r)) df.
Proof. unfold to_usd_cash, _to_usd. rewrite map_map. reflexivity. Qed.

Lemma cell_le0_or_nan_Some (a : Qc) :
  cell_le0_or_nan (Some a) = if decide (0 < a)%Qc then false else true.
Proof.
  simpl. destruct (decide (0 < a)%Qc) as [H|H].
  - apply bool_decide_eq_false. apply Qclt_not_le. exact H.
  - apply bool_decide_eq_true. apply Qcnot_lt_le. exact H.
Qed.

(** The result of lines 160-178 on the three filled balances. *)
Lemma runway_of_balances (b0 b1 b2 : cell) :
  let filled := bfill (ffill [b0; b1; b2]) in
  let avg_burn := col_mean (dropna (net_burn_col filled)) in
  match filled with
  | [Some x0; Some x1; Some x2] =>
      avg_burn = Some (((x0 - x1) + (x1 - x2)) / Qc_of_Z 2)%Qc /\
      List.last filled None = Some x2
  | [None; None; None] => avg_burn = None /\ List.last filled None = None
  | _ => False
  end.
Proof.
  destruct b0 as [x0|], b1 as [x1|], b2 as [x2|]; simpl; split;
    try reflexivity; f_equal; f_equal; ring.
Qed.

(** C1, amended. When the as-of month resolves to [ts] and the cash rows of
    the selected entity have at most one row for each month,
    [cash_runway_months] returns a result: the balances of the three
    consecutive months ending at [ts] are filled forward then backward, the
    average burn is the mean of the declines from one month to the next, and
    the runway is the current cash over the average burn when that is
    strictly positive and infinite when it is zero or negative; when no
    balance is known the average burn is reported as 0 and the runway is
    infinite. *)
Theorem cash_runway_months_spec (parse : string -> option datetime)
    (self : FinanceData) (as_of_month ent : option string) (ts : Timestamp) :
  resolve_end parse as_of_month (map cash_date (cash self)) = Ok ts ->
  NoDup (map (fun r => normalize_month (cash_date r)) (cash_rows_for self ent)) ->
  exists r,
    cash_runway_months parse self as_of_month ent = Ok r /\
    runway_ok self ent ts r.
Proof.
  intros Hts Hnd.
  unfold cash_runway_months. rewrite Hts. cbn [rbind].
  unfold reindex. rewrite conv_date_to_usd_cash.
  unfold cash_rows_for in Hnd. rewrite <- filter_entity_filter in Hnd.
  destruct (decide (NoDup _)) as [_|Hbad]; [|contradiction]. cbn [rbind].
  rewrite cash_balance_usd_col_reindexed, months_ending_three.
  eexists. split; [reflexivity|].
  unfold runway_ok. simpl as_of. split; [reflexivity|].
  unfold three_months. simpl map.
  pose proof (runway_of_balances
                (month_balance_usd self ent (to_timestamp (to_period ts - 2)))
                (month_balance_usd self ent (to_timestamp (to_period ts - 1)))
                (month_balance_usd self ent (to_timestamp (to_period ts)))) as H.
  cbv zeta in H.
  destruct (bfill (ffill _)) as [|[x0|] [|[x1|] [|[x2|] [|? ?]]]];
    try contradiction; destruct H as [Havg Hlast]; rewrite Havg, Hlast.
  - cbv zeta. simpl current_cash_usd. simpl avg_monthly_burn_usd. simpl runway_months.
    split; [reflexivity|]. split; [reflexivity|].
    change (bool_decide (?a <= 0)%Qc) with (cell_le0_or_nan (Some a)).
    rewrite cell_le0_or_nan_Some.
    destruct (decide _); reflexivity.
  - simpl. auto.
Qed.

(** With two cash rows of the selected entity in one month, [reindex]
    raises. *)
Lemma cash_runway_months_raises_on_duplicates (parse : string -> option datetime)
    (self : FinanceData) (as_of_month ent : option string) (ts : Timestamp) :
  resolve_end parse as_of_month (map cash_date (cash self)) = Ok ts ->
  ~ NoDup (map (fun r => normalize_month (cash_date r)) (cash_rows_for self ent)) ->
  cash_runway_months parse self as_of_month ent = Raise ValueError.
Proof.
  intros Hts Hdup.
  unfold cash_runway_months. rewrite Hts. cbn [rbind].
  unfold reindex. rewrite conv_date_to_usd_cash.
  unfold cash_rows_for in Hdup. rewrite <- filter_entity_filter in Hdup.
  destruct (decide (NoDup _)) as [Hnd|_]; [contradiction|reflexivity].
Qed.

Lemma cash_runway_months_spec_witness :
  exists r,
    cash_runway_months Sample.parse Sample.fd (Some "2025-07") None = Ok r /\
    runway_ok Sample.fd None (mkTimestamp 2025 7 1) r.
Proof.
  apply (cash_runway_months_spec Sample.parse Sample.fd (Some "2025-07") None
           (mkTimestamp 2025 7 1)).
  - reflexivity.
  - apply (bool_decide_unpack _). vm_compute. exact I.
Defined.

(** C1 as stated fails on cash kept per entity: with two cash rows in a
    month the as-of month resolves, yet [reindex] raises [ValueError] and no
    runway is returned. *)
Lemma cash_runway_months_duplicate_month :
  resolve_end Sample.parse (Some "2025-06")
    (map cash_date (cash Sample.fd_two_entities)) = Ok Sample.jun25 /\
  cash_runway_months Sample.parse Sample.fd_two_entities (Some "2025-06") None
  = Raise ValueError /\
  ~ (exists r,
       cash_runway_months Sample.parse Sample.fd_two_entities (Some "2025-06") None
       = Ok r /\ runway_ok Sample.fd_two_entities None Sample.jun25 r).
Proof.
  assert (H : cash_runway_months Sample.parse Sample.fd_two_entities
                (Some "2025-06") None = Raise ValueError) by (vm_compute; reflexivity).
  split; [reflexivity|]. split; [exact H|].
  intros (r & Hr & _). rewrite H in Hr. discriminate.
Qed.

(** ** The classifier *)

Lemma star_sound {A : Type} (p : ascii -> bool) (k : list ascii -> option A)
    (s : list ascii) (x : A) :
  Planner.star p k s = Some x ->
  exists w s', s = (w ++ s')%list /\ forallb p w = true /\ k s' = Some x.
Proof.
  revert x. induction s as [|c s IH]; intros x H; simpl in H.
  - exists [], []. auto.
  - destruct (p c) eqn:Hp.
    + destruct (Planner.star p k s) as [y|] eqn:E.
      * injection H as ->. destruct (IH x eq_refl) as (w & s' & -> & Hw & Hk).
        exists (c :: w), s'. simpl. rewrite Hp, Hw. auto.
      * exists [], (c :: s). auto.
    + exists [], (c :: s). auto.
Qed.

Lemma run_sound {A : Type} (r : Planner.regex) :
  forall (s : list ascii) (k : list ascii -> option A) (x : A),
    Planner.run r s k = Some x ->
    exists w s', s = (w ++ s')%list /\ Planner.matches r w /\ k s' = Some x.
Proof.
  induction r as [|p|r1 IH1 r2 IH2|r1 IH1 r2 IH2|r1 IH1|p]; intros s k x H; simpl in H.
  - exists [], s. simpl. auto.
  - destruct s as [|c s]; [discriminate|].
    destruct (p c) eqn:Hp; [|discriminate].
    exists [c], s. simpl. eauto.
  - apply IH1 in H. destruct H as (w1 & s1 & -> & Hw1 & H).
    apply IH2 in H. destruct H as (w2 & s2 & -> & Hw2 & H).
    exists (w1 ++ w2)%list, s2. rewrite <- app_assoc. simpl. eauto 8.
  - destruct (Planner.run r1 s k) as [y|] eqn:E.
    + injection H as ->. apply IH1 in E. destruct E as (w & s' & -> & Hw & Hk).
      exists w, s'. simpl. auto.
    + apply IH2 in H. destruct H as (w & s' & -> & Hw & Hk).
      exists w, s'. simpl. auto.
  - destruct (Planner.run r1 s k) as [y|] eqn:E.
    + injection H as ->. apply IH1 in E. destruct E as (w & s' & -> & Hw & Hk).
      exists w, s'. simpl. auto.
    + exists [], s. simpl. auto.
  - apply star_sound in H. destruct H as (w & s' & -> & Hw & Hk).
    exists w, s'. simpl. auto.
Qed.

Lemma match_prefix_sound (r : Planner.regex) (s m : list ascii) :
  Planner.match_prefix r s = Some m -> Planner.matches r m.
Proof.
  unfold Planner.match_prefix.
  destruct (Planner.run r s Some) as [rest|] eqn:E; [|discriminate].
  intros [= <-]. apply run_sound in E.
  destruct E as (w & s' & -> & Hw & [= ->]).
  rewrite length_app, Nat.add_sub, firstn_app, Nat.sub_diag, firstn_all.
  simpl. rewrite app_nil_r. exact Hw.
Qed.

Lemma search_list_sound (r : Planner.regex) (s m : list ascii) :
  Planner.search_list r s = Some m -> Planner.matches r m.
Proof.
  induction s as [|c s IH]; simpl.
  - destruct (Planner.match_prefix r []) as [m'|] eqn:E; [|discriminate].
    intros [= <-]. exact (match_prefix_sound _ _ _ E).
  - destruct (Planner.match_prefix r (c :: s)) as [m'|] eqn:E.
    + intros [= <-]. exact (match_prefix_sound _ _ _ E).
    + exact IH.
Qed.

Lemma matches_Str (t : string) (w : list ascii) :
  Planner.matches (Planner.Str t) w -> w = list_ascii_of_string t.
Proof.
  revert w. induction t as [|c t IH]; intros w; simpl.
  - auto.
  - intros (w1 & w2 & -> & (c' & -> & Hc) & Hw2).
    apply Ascii.eqb_eq in Hc. subst c'. simpl. f_equal. apply IH. exact Hw2.
Qed.

Lemma all_digits_forallb (l : list ascii) :
  Planner.all_digits (string_of_list_ascii l) = forallb Py.is_digit l.
Proof. induction l as [|c l IH]; simpl; [reflexivity|]. rewrite IH. reflexivity. Qed.

(** The group 1 of a match of [last (\d+) months]: a non-empty text of
    digits, twelve characters shorter than the match. *)
Lemma last_months_group1_digits (m : list ascii) :
  Planner.matches Planner.last_months_re m ->
  exists c ds,
    Planner.last_months_group1 m = String c (string_of_list_ascii ds) /\
    Py.is_digit c = true /\ forallb Py.is_digit ds = true /\
    length m = (13 + length ds)%nat /\
    m = (list_ascii_of_string "last " ++ (c :: ds) ++ list_ascii_of_string " months")%list.
Proof.
  unfold Planner.last_months_re, Planner.Plus.
  intros (w1 & w2 & -> & H1 & w3 & w4 & -> & (w5 & w6 & -> & (c & -> & Hc) & Hds) & H4).
  apply matches_Str in H1, H4. subst w1 w4. simpl in Hds.
  exists c, w6. split; [|split; [exact Hc|split; [exact Hds|split; [|reflexivity]]]].
  - unfold Planner.last_months_group1.
    replace (firstn _ _) with (c :: w6); [reflexivity|].
    simpl list_ascii_of_string. simpl skipn.
    rewrite !length_app. simpl length.
    replace (5 + (1 + length w6 + 7) - 12)%nat with (length (c :: w6)) by (simpl; lia).
    change (c :: (w6 ++ ?t)%list) with ((c :: w6) ++ t)%list.
    rewrite firstn_app, Nat.sub_diag, firstn_all. simpl. rewrite app_nil_r. reflexivity.
  - simpl list_ascii_of_string. rewrite !length_app. simpl. lia.
Qed.

Lemma int_of_digits_nonneg (s : string) (acc : Z) :
  0 <= acc -> 0 <= Planner.int_of_digits acc s.
Proof.
  revert acc. induction s as [|c s IH]; intros acc H;
    cbn [Planner.int_of_digits]; [exact H|].
  apply IH. unfold Planner.digit_value.
  generalize (Nat2Z.is_nonneg (nat_of_ascii c - 48)).
  generalize (Z.of_nat (nat_of_ascii c - 48)). intros z Hz.
  apply Z.add_nonneg_nonneg; [apply Z.mul_nonneg_nonneg; [discriminate|exact H]|exact Hz].
Qed.

Lemma length_string_of_list_ascii (l : list ascii) :
  String.length (string_of_list_ascii l) = length l.
Proof. induction l as [|c l IH]; simpl; [reflexivity|]. rewrite IH. reflexivity. Qed.

(** [int] on the group 1 of a match: the number, unless the group has more
    than [max_str_digits] digits. *)
Lemma last_months_group1_int (m : list ascii) :
  Planner.matches Planner.last_months_re m ->
  (length m <= 12 + Planner.max_str_digits)%nat /\
  (exists n, Planner.py_int (Planner.last_months_group1 m) = Ok n /\ 0 <= n) \/
  (12 + Planner.max_str_digits < length m)%nat /\
  Planner.py_int (Planner.last_months_group1 m) = Raise ValueError.
Proof.
  intros H. destruct (last_months_group1_digits m H) as (c & ds & -> & Hc & Hds & Hlen & _).
  unfold Planner.py_int.
  change (Planner.all_digits (String c (string_of_list_ascii ds)))
    with (Py.is_digit c && Planner.all_digits (string_of_list_ascii ds)).
  rewrite Hc, all_digits_forallb, Hds. cbn [andb].
  change (String.length (String c (string_of_list_ascii ds)))
    with (S (String.length (string_of_list_ascii ds))).
  rewrite length_string_of_list_ascii.
  destruct (Nat.leb_spec (S (length ds)) Planner.max_str_digits) as [Hle|Hgt].
  - left. split; [lia|]. eexists. split; [reflexivity|].
    apply (int_of_digits_nonneg (String c (string_of_list_ascii ds)) 0). lia.
  - right. split; [lia|reflexivity].
Qed.

(** ** Loading *)

Section LoadFacts.

Import Loader.



Lemma col_pos_nth (name : string) (cols : list string) (i : nat) :
  col_pos name cols = Some i -> nth_error cols i = Some name.
Proof.
  revert i. induction cols as [|n cols IH]; intros i; simpl; [discriminate|].
  destruct (String.eqb n name) eqn:E.
  - apply String.eqb_eq in E. intros [= <-]. simpl. congruence.
  - destruct (col_pos name cols) as [i'|]; [|discriminate].
    intros [= <-]. simpl. apply IH. reflexivity.
Qed.

Lemma col_pos_distinct (n1 n2 : string) (cols : list string) (i j : nat) :
  n1 <> n2 -> col_pos n1 cols = Some i -> col_pos n2 cols = Some j -> i <> j.
Proof.
  intros Hne H1 H2 ->. apply col_pos_nth in H1, H2. congruence.
Qed.

Lemma cell_at_set_cell_eq (i : nat) (x : xcell) (row : list xcell) :
  cell_at i (set_cell i x row) = x.
Proof.
  unfold cell_at. revert row. induction i as [|i IH]; intros [|c row]; simpl; auto.
Qed.

Lemma cell_at_set_cell_ne (i j : nat) (x : xcell) (row : list xcell) :
  i <> j -> cell_at j (set_cell i x row) = cell_at j row.
Proof.
  unfold cell_at. revert j row.
  induction i as [|i IH]; intros [|j] [|c row] H; simpl; auto; try congruence.
  - destruct j; reflexivity.
  - rewrite IH by congruence. destruct j; reflexivity.
Qed.







Lemma read_excel_Ok (xls : Workbook) (sheet : string) (df : RawFrame) :
  read_excel xls sheet = Ok df <->
  xls !! sheet = Some df /\ has_column "month" df = true.
Proof.
  unfold read_excel. destruct (xls !! sheet) as [df'|].
  - destruct (has_column "month" df') eqn:E; split.
    + intros [= <-]. auto.
    + intros [[= <-] _]. reflexivity.
    + discriminate.
    + intros [[= <-] H]. congruence.
  - split; [discriminate|]. intros [H _]. discriminate.
Qed.

Variable pd_to_datetime : xcell -> option Timestamp.
Variable parse_number : string -> option Qc.

Lemma normalize_dates_Ok (df df' : RawFrame) :
  normalize_dates pd_to_datetime df = Ok df' <->
  dates_convert pd_to_datetime df /\
  df' = match col_pos "date" (columns df) with
        | Some i => map_column i (month_start_cell pd_to_datetime) df
        | None => df
        end.
Proof.
  unfold normalize_dates, dates_convert.
  destruct (col_pos "date" (columns df)) as [i|].
  - destruct (forallb _ _) eqn:E.
    + rewrite forallb_forall in E. split.
      * intros [= <-]. split; [|reflexivity].
        apply List.Forall_forall. intros row Hrow. specialize (E row Hrow).
        unfold converts in E. destruct (pd_to_datetime _); [eauto|discriminate].
      * intros [_ ->]. reflexivity.
    + split; [discriminate|]. intros [H _]. exfalso.
      assert (E' : forallb (fun row => converts pd_to_datetime (cell_at i row)) (rows df) = true).
      { apply forallb_forall. intros row Hrow.
        rewrite List.Forall_forall in H. destruct (H row Hrow) as [t Ht].
        unfold converts. rewrite Ht. reflexivity. }
      congruence.
  - split; [intros [= <-]; auto|intros [_ ->]; reflexivity].
Qed.

Lemma normalize_dates_columns (df df' : RawFrame) :
  normalize_dates pd_to_datetime df = Ok df' -> columns df' = columns df.
Proof.
  intros H. apply normalize_dates_Ok in H. destruct H as [_ ->].
  destruct (col_pos "date" (columns df)); reflexivity.
Qed.

Lemma coerce_numeric_Ok (name : string) (df df' : RawFrame) :
  coerce_numeric parse_number name df = Ok df' <->
  exists i, col_pos name (columns df) = Some i /\
            df' = map_column i (coerced parse_number) df.
Proof.
  unfold coerce_numeric. destruct (col_pos name (columns df)) as [i|]; split.
  - intros [= <-]. eauto.
  - intros (i' & [= <-] & ->). reflexivity.
  - discriminate.
  - intros (i' & H & _). discriminate.
Qed.

End LoadFacts.

Section LoadTheorems.

Import Loader.






Variable pd_to_datetime : xcell -> option Timestamp.
Variable parse_number : string -> option Qc.


Lemma normalized_columns (df : RawFrame) : columns (normalized pd_to_datetime df) = columns df.
Proof. unfold normalized. destruct (col_pos "date" (columns df)); reflexivity. Qed.

Lemma normalize_dates_normalized (df df' : RawFrame) :
  normalize_dates pd_to_datetime df = Ok df' <->
  dates_convert pd_to_datetime df /\ df' = normalized pd_to_datetime df.
Proof. apply normalize_dates_Ok. Qed.











End LoadTheorems.








(** In the sample workbook the amount "n/a" is loaded as 0. *)
Example load_sample_amounts :
  (fun r => match r with
            | Ok l => Loader.column "amount" (Loader.l_actuals l)
            | Raise e => Raise e
            end) (Loader.load Sample.to_datetime Sample.no_number Sample.wb)
  = Ok [Loader.XNum (Sample.usd 120000); Loader.XNum 0%Qc].
Proof. compute_done. Qed.

(** * Further properties of the code *)

(** ** Month normalization *)

Lemma normalize_month_idempotent (t : Timestamp) :
  normalize_month (normalize_month t) = normalize_month t.
Proof. unfold normalize_month. rewrite to_period_to_timestamp. reflexivity. Qed.

(** X1. The truncation of a date to its month, used by the loader and again
    by [_to_usd], keeps the year and the month of a calendar date and sets
    the day to 1; applying it a second time changes nothing, so [_to_usd]
    leaves the dates of loaded rows as they are. *)
Theorem normalize_month_truncates (t : Timestamp) :
  1 <= month t <= 12 ->
  normalize_month t = mkTimestamp (year t) (month t) 1 /\
  normalize_month (normalize_month t) = normalize_month t.
Proof.
  intros Hm. split; [|apply normalize_month_idempotent].
  destruct t as [y m d]. simpl in Hm.
  transitivity (normalize_month (mkTimestamp y m 1)); [reflexivity|].
  apply normalize_month_first_of_month; simpl; lia.
Qed.

Lemma normalize_month_truncates_witness :
  normalize_month (mkTimestamp 2025 6 17) = mkTimestamp 2025 6 1 /\
  normalize_month (normalize_month (mkTimestamp 2025 6 17))
  = normalize_month (mkTimestamp 2025 6 17).
Proof.
  apply (normalize_month_truncates (mkTimestamp 2025 6 17)). simpl. lia.
Defined.

(** ** Forward and backward fill *)

Section Fill.

Context {V : Type}.

Lemma bfill_ffill_from_lookup (l : list (option V)) :
  forall (last : option V) (i : nat),
    (i < length l)%nat ->
    bfill (ffill_from last l) !! i
    = Some (match (match last_known (take (S i) l) with
                   | Some v => Some v
                   | None => last
                   end) with
            | Some v => Some v
            | None => first_known l
            end).
Proof.
  induction l as [|x l IH]; intros last i Hi; [simpl in Hi; lia|].
  destruct i as [|j].
  - simpl. destruct x as [v|]; [reflexivity|].
    destruct last as [w|]; [reflexivity|]. simpl.
    destruct l as [|y l']; [reflexivity|].
    specialize (IH None 0%nat ltac:(simpl; lia)).
    simpl in IH. simpl.
    destruct (bfill (ffill_from _ l')) eqn:E;
      destruct y; simpl in *; congruence.
  - assert (Hj : (j < length l)%nat) by (simpl in Hi; lia).
    specialize (IH (match x with Some _ => x | None => last end) j Hj).
    change (take (S (S j)) (x :: l)) with (x :: take (S j) l).
    cbn [last_known ffill_from].
    assert (Hb : bfill (match x with Some _ => x | None => last end
                        :: ffill_from (match x with Some _ => x | None => last end) l)
                 !! S j
                 = bfill (ffill_from (match x with Some _ => x | None => last end) l) !! j).
    { simpl. destruct (match x with Some _ => x | None => last end); reflexivity. }
    rewrite Hb, IH.
    destruct (last_known (take (S j) l)) as [w|]; [reflexivity|].
    destruct x as [v|]; [reflexivity|]. reflexivity.
Qed.

Lemma first_known_None (l : list (option V)) :
  first_known l = None -> Forall (fun x => x = None) l.
Proof.
  induction l as [|[v|] l IH]; simpl; intros H.
  - constructor.
  - discriminate.
  - constructor; auto.
Qed.

End Fill.

Lemma bfill_ffill_length {V : Type} (l : list (option V)) :
  length (bfill (ffill l)) = length l.
Proof. unfold ffill. rewrite bfill_length, ffill_from_length. reflexivity. Qed.

Lemma bfill_ffill_lookup {V : Type} (l : list (option V)) (i : nat) :
  (i < length l)%nat -> bfill (ffill l) !! i = Some (filled_value l i).
Proof.
  intros Hi. unfold ffill, filled_value.
  rewrite (bfill_ffill_from_lookup l None i Hi).
  destruct (last_known _); reflexivity.
Qed.

Lemma bfill_ffill_known {V : Type} (l : list (option V)) (v : V) :
  In (Some v) l -> Forall (fun x => is_Some x) (bfill (ffill l)).
Proof.
  intros Hv. apply Forall_lookup. intros i x Hx.
  assert (Hi : (i < length l)%nat).
  { apply lookup_lt_Some in Hx. rewrite bfill_ffill_length in Hx. exact Hx. }
  rewrite (bfill_ffill_lookup l i Hi) in Hx. injection Hx as <-.
  unfold filled_value. destruct (last_known _) as [w|]; [eauto|].
  destruct (first_known l) as [w|] eqn:E; [eauto|].
  apply first_known_None in E. rewrite List.Forall_forall in E.
  specialize (E _ Hv). discriminate.
Qed.

Lemma bfill_ffill_all_missing {V : Type} (l : list (option V)) :
  Forall (fun x => x = None) l -> bfill (ffill l) = l.
Proof.
  intros Hall. unfold ffill.
  induction l as [|x l IH]; [reflexivity|].
  inversion Hall as [|? ? Hx Hl]; subst. simpl.
  rewrite (IH Hl). destruct l as [|y l']; [reflexivity|].
  inversion Hl; subst. reflexivity.
Qed.

(** X2. [ffill().bfill()] on a column, as on the FX table and on the cash
    balances of the runway window: each cell takes the last value known at
    or above it, and, when there is none, the first value known below it.
    A column with at least one known value is left without a missing cell,
    and a column with none stays empty. *)
Theorem ffill_bfill_values {V : Type} (l : list (option V)) :
  length (bfill (ffill l)) = length l /\
  (forall i, (i < length l)%nat -> bfill (ffill l) !! i = Some (filled_value l i)) /\
  (forall v, In (Some v) l -> Forall (fun x => is_Some x) (bfill (ffill l))) /\
  (Forall (fun x => x = None) l -> bfill (ffill l) = l).
Proof.
  split; [apply bfill_ffill_length|].
  split; [apply bfill_ffill_lookup|].
  split; [apply bfill_ffill_known|apply bfill_ffill_all_missing].
Qed.

(** ** The FX table *)

Lemma fx_long_In_sorted (rows : list FxRate) (r : FxRate) :
  In r rows -> In (fx_long r) (sort_values_date (map fx_long rows)).
Proof.
  intros H. apply list_elem_of_In. unfold sort_values_date.
  rewrite merge_sort_Permutation. apply list_elem_of_In.
  apply in_map. exact H.
Qed.

(** X4. In the FX table built by [__init__], the known rate of an [fx] row
    is the cell of its own (date, currency) key: filling never overwrites a
    rate that the data give. *)
Theorem fx_map_of_keeps_known_rate (rows : list FxRate) (m : FxMap)
    (d : Timestamp) (c : string) (v : Qc) :
  fx_map_of rows = Ok m ->
  In (mkFx d c (Some v)) rows ->
  loc m d c = Ok (Some v).
Proof.
  unfold fx_map_of. intros Hm Hin.
  apply (loc_build_fx_map_known _ _ d c v Hm).
  apply (fx_long_In_sorted rows (mkFx d c (Some v)) Hin).
Qed.

Lemma fx_map_of_keeps_known_rate_witness :
  loc (fx_map Sample.fd) Sample.apr25 "EUR" = Ok (Some (Sample.usd 2)).
Proof.
  apply (fx_map_of_keeps_known_rate Sample.sample_fx (fx_map Sample.fd)).
  - reflexivity.
  - simpl. auto.
Defined.

(** X5. The FX table is a full grid: it has a cell for (date, currency)
    exactly when the date is the date of some [fx] row and the currency is
    the currency of some [fx] row, also when no row has that pair. *)
Theorem fx_map_of_grid (rows : list FxRate) (m : FxMap) (d : Timestamp) (c : string) :
  fx_map_of rows = Ok m ->
  (succeeds (loc m d c) <->
   In d (map fx_date rows) /\ In c (map fx_currency rows)) /\
  (~ (In d (map fx_date rows) /\ In c (map fx_currency rows)) ->
   loc m d c = Raise KeyError).
Proof.
  intros Hm. pose proof (fx_map_of_key rows m d c Hm) as Hkey.
  split; [exact Hkey|].
  intros Hn. unfold loc in *.
  destruct (index_of d (frame_index m)) as [i|]; [|reflexivity].
  destruct (column_of c (frame_columns m)) as [col|]; [|reflexivity].
  destruct (col !! i) as [x|]; [|reflexivity].
  exfalso. apply Hn, Hkey. exact I.
Qed.

Lemma fx_map_of_grid_witness :
  (succeeds (loc (fx_map Sample.fd) Sample.jun25 "GBP") <->
   In Sample.jun25 (map fx_date Sample.sample_fx)
   /\ In "GBP" (map fx_currency Sample.sample_fx)) /\
  (~ (In Sample.jun25 (map fx_date Sample.sample_fx)
      /\ In "GBP" (map fx_currency Sample.sample_fx)) ->
   loc (fx_map Sample.fd) Sample.jun25 "GBP" = Raise KeyError).
Proof.
  apply (fx_map_of_grid Sample.sample_fx (fx_map Sample.fd)). reflexivity.
Defined.

(** The order of timestamps is a total order. *)
Lemma Timestamp_le_iff (a b : Timestamp) :
  Timestamp_le a b <->
  year a < year b \/
  (year a = year b /\ (month a < month b \/ (month a = month b /\ day a <= day b))).
Proof.
  unfold Timestamp_le, Timestamp_leb.
  rewrite !orb_true_iff, !andb_true_iff, !orb_true_iff, !andb_true_iff.
  rewrite !Z.ltb_lt, !Z.eqb_eq, Z.leb_le. reflexivity.
Qed.

#[global] Instance Timestamp_le_total : Total Timestamp_le.
Proof. intros a b. rewrite !Timestamp_le_iff. lia. Qed.

#[global] Instance Timestamp_le_trans : Transitive Timestamp_le.
Proof. intros a b c. rewrite !Timestamp_le_iff. lia. Qed.

Lemma Timestamp_le_antisym (a b : Timestamp) :
  Timestamp_le a b -> Timestamp_le b a -> a = b.
Proof.
  rewrite !Timestamp_le_iff. destruct a, b. simpl. intros H1 H2.
  f_equal; lia.
Qed.

Lemma Timestamp_le_refl (a : Timestamp) : Timestamp_le a a.
Proof. rewrite Timestamp_le_iff. lia. Qed.

Lemma StronglySorted_lookup_le {A : Type} (R : relation A) (l : list A)
    (j k : nat) (a b : A) :
  StronglySorted R l -> (j < k)%nat -> l !! j = Some a -> l !! k = Some b -> R a b.
Proof.
  intros Hs. revert j k. induction Hs as [|x l Hs IH Hx]; intros j k Hjk Ha Hb.
  - discriminate.
  - destruct k as [|k]; [lia|]. destruct j as [|j]; simpl in *.
    + injection Ha as <-. rewrite List.Forall_forall in Hx. apply Hx.
      apply list_elem_of_In. apply list_elem_of_lookup. eauto.
    + apply (IH j k); [lia|assumption|assumption].
Qed.

Section Fill2.

Context {V : Type}.

Lemma last_known_take_Some (l : list (option V)) (i0 i : nat) (v : V) :
  l !! i0 = Some (Some v) -> (i0 <= i)%nat ->
  (forall j x, (i0 < j <= i)%nat -> l !! j = Some x -> x = None) ->
  last_known (take (S i) l) = Some v.
Proof.
  revert i0 i. induction l as [|x l IH]; intros i0 i H0 Hle Hgap; [discriminate|].
  change (take (S i) (x :: l)) with (x :: take i l). cbn [last_known].
  destruct i0 as [|i0].
  - simpl in H0. injection H0 as ->.
    assert (E : last_known (take i l) = None).
    { clear IH. assert (Hg : forall j x, (j < i)%nat -> l !! j = Some x -> x = None).
      { intros j x Hj Hx. apply (Hgap (S j) x); [lia|exact Hx]. }
      clear Hgap Hle. revert i Hg. induction l as [|y l IHl]; intros i Hg.
      - destruct i; reflexivity.
      - destruct i as [|i]; [reflexivity|].
        change (take (S i) (y :: l)) with (y :: take i l). cbn [last_known].
        rewrite IHl by (intros j x Hj Hx; apply (Hg (S j) x); [lia|exact Hx]).
        apply (Hg 0%nat y); [lia|reflexivity]. }
    rewrite E. reflexivity.
  - destruct i as [|i]; [lia|].
    rewrite (IH i0 i); [reflexivity|exact H0|lia|].
    intros j y Hj Hy. apply (Hgap (S j) y); [lia|exact Hy].
Qed.

Lemma last_known_take_None (l : list (option V)) (i : nat) :
  (forall j x, (j <= i)%nat -> l !! j = Some x -> x = None) ->
  last_known (take (S i) l) = None.
Proof.
  revert i. induction l as [|x l IH]; intros i Hg; [reflexivity|].
  change (take (S i) (x :: l)) with (x :: take i l). cbn [last_known].
  assert (E : last_known (take i l) = None).
  { destruct i as [|i]; [destruct l; reflexivity|].
    apply IH. intros j y Hj Hy. apply (Hg (S j) y); [lia|exact Hy]. }
  rewrite E. apply (Hg 0%nat x); [lia|reflexivity].
Qed.

Lemma first_known_at (l : list (option V)) (i0 : nat) (v : V) :
  l !! i0 = Some (Some v) ->
  (forall j x, (j < i0)%nat -> l !! j = Some x -> x = None) ->
  first_known l = Some v.
Proof.
  revert i0. induction l as [|x l IH]; intros i0 H0 Hg; [discriminate|].
  destruct i0 as [|i0].
  - simpl in H0. injection H0 as ->. reflexivity.
  - rewrite (Hg 0%nat x) by (try lia; reflexivity). simpl.
    apply (IH i0 H0). intros j y Hj Hy. apply (Hg (S j) y); [lia|exact Hy].
Qed.

End Fill2.

Section FxTableFill.

Context {C V : Type} `{EqDecision C}.

Lemma pivot_cell_In (rows : list (long_row C V)) (d : Timestamp) (c : C) (v : V) :
  pivot_cell rows d c = Some v -> In (d, c, Some v) rows.
Proof.
  unfold pivot_cell.
  destruct (List.find _ rows) as [r|] eqn:E; [|discriminate].
  apply find_some in E. destruct E as [Hin Hk].
  apply bool_decide_eq_true in Hk. intros Hv.
  destruct r as [[d' c'] x]. unfold long_key in Hk. simpl in *.
  injection Hk as -> ->. subst x. exact Hin.
Qed.

(** The cell of the filled table at a date of the index and a label of the
    data, read from the column of the pivot. *)
Lemma loc_build_fx_map_filled (rows : list (long_row C V)) (f : Frame C V)
    (d : Timestamp) (c : C) :
  build_fx_map rows = Ok f ->
  In d (map (fun r => fst (fst r)) rows) ->
  In c (map (fun r => snd (fst r)) rows) ->
  let idx := merge_sort Timestamp_le (remove_dups (map (fun r => fst (fst r)) rows)) in
  exists i,
    idx !! i = Some d /\
    loc f d c = Ok (filled_value (map (fun d' => pivot_cell rows d' c) idx) i).
Proof.
  intros Hf Hd Hc idx. apply build_fx_map_Ok in Hf. cbv zeta in Hf.
  destruct Hf as (_ & Hidx & Hcols). fold idx in Hidx, Hcols.
  assert (Hd' : In d idx).
  { unfold idx. rewrite <- list_elem_of_In, merge_sort_Permutation, elem_of_remove_dups.
    apply list_elem_of_In. exact Hd. }
  apply index_of_In in Hd'. destruct Hd' as [i Hi].
  exists i. split; [apply index_of_lookup; exact Hi|].
  unfold loc. rewrite Hidx, Hcols, column_of_labels, Hi.
  destruct (decide _) as [_|Hn].
  - rewrite bfill_ffill_lookup; [reflexivity|].
    rewrite length_map. apply index_of_lookup, lookup_lt_Some in Hi. exact Hi.
  - exfalso. apply Hn. rewrite elem_of_remove_dups. apply list_elem_of_In. exact Hc.
Qed.

Lemma sorted_index (rows : list (long_row C V)) :
  let idx := merge_sort Timestamp_le (remove_dups (map (fun r => fst (fst r)) rows)) in
  StronglySorted Timestamp_le idx /\ NoDup idx.
Proof.
  split.
  - apply StronglySorted_merge_sort; apply _.
  - rewrite merge_sort_Permutation. apply NoDup_remove_dups.
Qed.

(** Positions follow dates in a sorted index without repetition. *)
Lemma sorted_index_pos (idx : list Timestamp) (j k : nat) (a b : Timestamp) :
  StronglySorted Timestamp_le idx -> NoDup idx ->
  idx !! j = Some a -> idx !! k = Some b ->
  Timestamp_le a b -> (j <= k)%nat.
Proof.
  intros Hs Hnd Ha Hb Hab.
  destruct (Nat.le_gt_cases j k) as [Hle|Hgt]; [exact Hle|].
  pose proof (StronglySorted_lookup_le _ _ _ _ _ _ Hs Hgt Hb Ha) as Hba.
  pose proof (Timestamp_le_antisym _ _ Hab Hba) as ->.
  pose proof (NoDup_lookup _ _ _ _ Hnd Ha Hb). lia.
Qed.

(** Forward fill in date order: the table gives at [d] the rate of the
    latest date at or before [d] that has one. *)
Lemma loc_build_fx_map_forward (rows : list (long_row C V)) (f : Frame C V)
    (d d0 : Timestamp) (c : C) (v : V) :
  build_fx_map rows = Ok f ->
  In (d0, c, Some v) rows ->
  In d (map (fun r => fst (fst r)) rows) ->
  Timestamp_le d0 d ->
  (forall d1 v1, In (d1, c, Some v1) rows -> Timestamp_le d1 d -> Timestamp_le d1 d0) ->
  loc f d c = Ok (Some v).
Proof.
  intros Hf Hin Hd Hle Hlatest.
  assert (Hc : In c (map (fun r => snd (fst r)) rows))
    by (apply (in_map (fun r => snd (fst r))) in Hin; exact Hin).
  destruct (loc_build_fx_map_filled rows f d c Hf Hd Hc) as (i & Hi & ->).
  pose proof (build_fx_map_Ok rows f Hf) as (Hnd & _).
  destruct (sorted_index rows) as [Hs Hndi].
  set (idx := merge_sort Timestamp_le _) in *.
  assert (Hd0 : In d0 idx).
  { unfold idx. rewrite <- list_elem_of_In, merge_sort_Permutation, elem_of_remove_dups.
    apply list_elem_of_In. apply (in_map (fun r => fst (fst r))) in Hin. exact Hin. }
  apply list_elem_of_In, list_elem_of_lookup in Hd0. destruct Hd0 as [i0 Hi0].
  pose proof (sorted_index_pos idx i0 i d0 d Hs Hndi Hi0 Hi Hle) as Hpos.
  f_equal. unfold filled_value.
  rewrite (last_known_take_Some _ i0 i v); [reflexivity| |exact Hpos|].
  - rewrite list_lookup_fmap, Hi0. simpl.
    rewrite (pivot_cell_row rows d0 c (Some v) Hnd Hin). reflexivity.
  - intros j x Hj Hx. rewrite list_lookup_fmap in Hx.
    destruct (idx !! j) as [dj|] eqn:Hdj; [|discriminate].
    simpl in Hx. injection Hx as <-.
    destruct (pivot_cell rows dj c) as [v1|] eqn:Hp; [|reflexivity].
    exfalso. apply pivot_cell_In in Hp.
    assert (Hdj_d : Timestamp_le dj d).
    { destruct (decide (j = i)) as [->|Hne].
      - rewrite Hi in Hdj. injection Hdj as ->. apply Timestamp_le_refl.
      - apply (StronglySorted_lookup_le _ idx j i dj d Hs); [lia|exact Hdj|exact Hi]. }
    pose proof (Hlatest dj v1 Hp Hdj_d) as Hdj_d0.
    pose proof (sorted_index_pos idx j i0 dj d0 Hs Hndi Hdj Hi0 Hdj_d0). lia.
Qed.

(** Backward fill: before the first date that has a rate, the table gives
    that first rate. *)
Lemma loc_build_fx_map_backward (rows : list (long_row C V)) (f : Frame C V)
    (d d0 : Timestamp) (c : C) (v : V) :
  build_fx_map rows = Ok f ->
  In (d0, c, Some v) rows ->
  In d (map (fun r => fst (fst r)) rows) ->
  Timestamp_le d d0 ->
  (forall d1 v1, In (d1, c, Some v1) rows -> Timestamp_le d0 d1) ->
  loc f d c = Ok (Some v).
Proof.
  intros Hf Hin Hd Hle Hfirst.
  destruct (decide (d = d0)) as [->|Hne].
  { apply (loc_build_fx_map_known rows f d0 c v Hf Hin). }
  assert (Hc : In c (map (fun r => snd (fst r)) rows))
    by (apply (in_map (fun r => snd (fst r))) in Hin; exact Hin).
  destruct (loc_build_fx_map_filled rows f d c Hf Hd Hc) as (i & Hi & ->).
  pose proof (build_fx_map_Ok rows f Hf) as (Hnd & _).
  destruct (sorted_index rows) as [Hs Hndi].
  set (idx := merge_sort Timestamp_le _) in *.
  assert (Hd0 : In d0 idx).
  { unfold idx. rewrite <- list_elem_of_In, merge_sort_Permutation, elem_of_remove_dups.
    apply list_elem_of_In. apply (in_map (fun r => fst (fst r))) in Hin. exact Hin. }
  apply list_elem_of_In, list_elem_of_lookup in Hd0. destruct Hd0 as [i0 Hi0].
  assert (Hcell : forall j dj v1, idx !! j = Some dj -> pivot_cell rows dj c = Some v1 ->
                    (i0 <= j)%nat).
  { intros j dj v1 Hdj Hp. apply pivot_cell_In in Hp.
    apply (sorted_index_pos idx i0 j d0 dj Hs Hndi Hi0 Hdj). apply (Hfirst dj v1 Hp). }
  assert (Hlt : (i < i0)%nat).
  { pose proof (sorted_index_pos idx i i0 d d0 Hs Hndi Hi Hi0 Hle).
    destruct (decide (i = i0)) as [->|]; [|lia]. congruence. }
  f_equal. unfold filled_value.
  rewrite last_known_take_None.
  - apply (first_known_at _ i0 v).
    + rewrite list_lookup_fmap, Hi0. simpl.
      rewrite (pivot_cell_row rows d0 c (Some v) Hnd Hin). reflexivity.
    + intros j x Hj Hx. rewrite list_lookup_fmap in Hx.
      destruct (idx !! j) as [dj|] eqn:Hdj; [|discriminate].
      simpl in Hx. injection Hx as <-.
      destruct (pivot_cell rows dj c) as [v1|] eqn:Hp; [|reflexivity].
      pose proof (Hcell j dj v1 Hdj Hp). lia.
  - intros j x Hj Hx. rewrite list_lookup_fmap in Hx.
    destruct (idx !! j) as [dj|] eqn:Hdj; [|discriminate].
    simpl in Hx. injection Hx as <-.
    destruct (pivot_cell rows dj c) as [v1|] eqn:Hp; [|reflexivity].
    pose proof (Hcell j dj v1 Hdj Hp). lia.
Qed.

(** No gap is left in a column that has a rate. *)
Lemma loc_build_fx_map_no_gap (rows : list (long_row C V)) (f : Frame C V)
    (d d0 : Timestamp) (c : C) (v0 : V) :
  build_fx_map rows = Ok f ->
  In (d0, c, Some v0) rows ->
  In d (map (fun r => fst (fst r)) rows) ->
  exists v, loc f d c = Ok (Some v).
Proof.
  intros Hf Hin Hd.
  assert (Hc : In c (map (fun r => snd (fst r)) rows))
    by (apply (in_map (fun r => snd (fst r))) in Hin; exact Hin).
  destruct (loc_build_fx_map_filled rows f d c Hf Hd Hc) as (i & Hi & Hloc).
  pose proof (build_fx_map_Ok rows f Hf) as (Hnd & _).
  set (idx := merge_sort Timestamp_le _) in *.
  set (col := map (fun d' => pivot_cell rows d' c) idx) in *.
  assert (Hknown : In (Some v0) col).
  { unfold col. apply in_map_iff. exists d0. split.
    - apply (pivot_cell_row rows d0 c (Some v0) Hnd Hin).
    - unfold idx. rewrite <- list_elem_of_In, merge_sort_Permutation, elem_of_remove_dups.
      apply list_elem_of_In. apply (in_map (fun r => fst (fst r))) in Hin. exact Hin. }
  pose proof (bfill_ffill_known col v0 Hknown) as Hall.
  assert (Hi' : (i < length col)%nat).
  { unfold col. rewrite length_map. apply lookup_lt_Some in Hi. exact Hi. }
  pose proof (bfill_ffill_lookup col i Hi') as Hlook.
  rewrite Forall_lookup in Hall. destruct (Hall i _ Hlook) as [v Hv].
  exists v. rewrite Hloc, Hv. reflexivity.
Qed.

End FxTableFill.

Lemma fx_long_sorted_In (rows : list FxRate) (d : Timestamp) (c : string) (x : cell) :
  In (d, c, x) (sort_values_date (map fx_long rows)) -> In (mkFx d c x) rows.
Proof.
  intros H. apply list_elem_of_In in H. unfold sort_values_date in H.
  rewrite merge_sort_Permutation in H. apply list_elem_of_In, in_map_iff in H.
  destruct H as ([d' c' x'] & E & Hin). unfold fx_long in E. simpl in E.
  injection E as -> -> ->. exact Hin.
Qed.

Lemma fx_dates_sorted (rows : list FxRate) (d : Timestamp) :
  In d (map fx_date rows) ->
  In d (map (fun r => fst (fst r)) (sort_values_date (map fx_long rows))).
Proof.
  intros H. apply in_map_iff in H. destruct H as (r & <- & Hr).
  apply (fx_long_In_sorted rows r) in Hr.
  apply (in_map (fun r => fst (fst r))) in Hr. exact Hr.
Qed.

(** X6. In the FX table built by [__init__], a currency with at least one
    known rate has a known rate at every date of the table: after the two
    fills no cell of its column is missing. *)
Theorem fx_map_of_no_gap (rows : list FxRate) (m : FxMap)
    (d d0 : Timestamp) (c : string) (v0 : Qc) :
  fx_map_of rows = Ok m ->
  In (mkFx d0 c (Some v0)) rows ->
  In d (map fx_date rows) ->
  exists v, loc m d c = Ok (Some v).
Proof.
  unfold fx_map_of. intros Hm Hin Hd.
  apply (loc_build_fx_map_no_gap _ m d d0 c v0 Hm).
  - apply (fx_long_In_sorted rows _ Hin).
  - apply fx_dates_sorted. exact Hd.
Qed.

Lemma fx_map_of_no_gap_witness :
  exists v, loc (fx_map Sample.fd) Sample.may25 "EUR" = Ok (Some v).
Proof.
  apply (fx_map_of_no_gap Sample.sample_fx (fx_map Sample.fd)
           Sample.may25 Sample.apr25 "EUR" (Sample.usd 2)).
  - reflexivity.
  - simpl. auto.
  - simpl. auto.
Defined.

(** X7. The fills of the FX table follow the order of the dates.  At a date
    [d] of the table, a currency takes the rate of the latest date at or
    before [d] at which it has a known rate; at a date before its first
    known rate it takes that first rate. *)
Theorem fx_map_of_fill_by_date (rows : list FxRate) (m : FxMap)
    (d d0 : Timestamp) (c : string) (v : Qc) :
  fx_map_of rows = Ok m ->
  In (mkFx d0 c (Some v)) rows ->
  In d (map fx_date rows) ->
  (Timestamp_le d0 d ->
   (forall d1 v1, In (mkFx d1 c (Some v1)) rows ->
                  Timestamp_le d1 d -> Timestamp_le d1 d0) ->
   loc m d c = Ok (Some v)) /\
  (Timestamp_le d d0 ->
   (forall d1 v1, In (mkFx d1 c (Some v1)) rows -> Timestamp_le d0 d1) ->
   loc m d c = Ok (Some v)).
Proof.
  unfold fx_map_of. intros Hm Hin Hd.
  pose proof (fx_long_In_sorted rows _ Hin) as Hin'.
  pose proof (fx_dates_sorted rows d Hd) as Hd'.
  split.
  - intros Hle Hlatest.
    apply (loc_build_fx_map_forward _ m d d0 c v Hm Hin' Hd' Hle).
    intros d1 v1 H1. apply (Hlatest d1 v1). apply fx_long_sorted_In. exact H1.
  - intros Hle Hfirst.
    apply (loc_build_fx_map_backward _ m d d0 c v Hm Hin' Hd' Hle).
    intros d1 v1 H1. apply (Hfirst d1 v1). apply fx_long_sorted_In. exact H1.
Qed.

(** In the sample, EUR has a rate in April only and GBP in May only: June
    takes the April rate of EUR, and April takes the May rate of GBP. *)
Lemma fx_map_of_fill_by_date_witness :
  loc (fx_map Sample.fd) Sample.jun25 "EUR" = Ok (Some (Sample.usd 2)) /\
  loc (fx_map Sample.fd) Sample.apr25 "GBP" = Ok (Some (Sample.usd 3)).
Proof.
  split.
  - refine (proj1 (fx_map_of_fill_by_date Sample.sample_fx (fx_map Sample.fd)
                     Sample.jun25 Sample.apr25 "EUR" (Sample.usd 2) _ _ _) _ _).
    + reflexivity.
    + simpl. auto.
    + simpl. auto.
    + reflexivity.
    + intros d1 v1 H _. simpl in H.
      destruct H as [H|[H|[H|[]]]]; inversion H. reflexivity.
  - refine (proj2 (fx_map_of_fill_by_date Sample.sample_fx (fx_map Sample.fd)
                     Sample.apr25 Sample.may25 "GBP" (Sample.usd 3) _ _ _) _ _).
    + reflexivity.
    + simpl. auto.
    + simpl. auto.
    + reflexivity.
    + intros d1 v1 H. simpl in H.
      destruct H as [H|[H|[H|[]]]]; inversion H. reflexivity.
Defined.

(** ** Conversion with the table of [__init__] *)

(** X8. With the FX table built by [__init__], a record whose month is not a
    date of the [fx] rows, or whose currency is not a currency of the [fx]
    rows, is converted at the rate 1 whatever its currency: its USD amount
    is its amount. *)
Theorem to_usd_without_fx_data {R : Type} (date_col : R -> Timestamp)
    (amount_col : R -> Qc) (currency_col : R -> string)
    (self : FinanceData) (row : R) :
  fx_map_of (fx self) = Ok (fx_map self) ->
  ~ (In (normalize_month (date_col row)) (map fx_date (fx self)) /\
     In (currency_col row) (map fx_currency (fx self))) ->
  usd_rate (to_usd_row date_col amount_col currency_col self row) = Some 1%Qc /\
  amount_usd (to_usd_row date_col amount_col currency_col self row)
  = Some (amount_col row).
Proof.
  intros Hm Hn.
  destruct (to_usd_row_rate_of_table date_col amount_col currency_col self row Hm)
    as [_ Hone].
  cbv zeta in Hone. specialize (Hone Hn).
  split; [exact Hone|].
  unfold to_usd_row in *. simpl in *. rewrite Hone. simpl.
  f_equal. ring.
Qed.

Lemma to_usd_without_fx_data_witness :
  amount_usd (to_usd_row date amount currency Sample.fd
                (mkAmount Sample.jun25 "APAC" "Revenue" "JPY" (Sample.usd 5000)))
  = Some (Sample.usd 5000).
Proof.
  apply (to_usd_without_fx_data date amount currency Sample.fd
           (mkAmount Sample.jun25 "APAC" "Revenue" "JPY" (Sample.usd 5000))).
  - reflexivity.
  - simpl. intros [_ [H|[H|[H|[]]]]]; discriminate.
Defined.

(** X9. With the FX table built by [__init__], a record whose month and
    currency are those of an [fx] row with a known rate is converted at that
    rate: its USD amount is its amount times the rate of the row. *)
Theorem to_usd_with_fx_row {R : Type} (date_col : R -> Timestamp)
    (amount_col : R -> Qc) (currency_col : R -> string)
    (self : FinanceData) (row : R) (v : Qc) :
  fx_map_of (fx self) = Ok (fx_map self) ->
  In (mkFx (normalize_month (date_col row)) (currency_col row) (Some v)) (fx self) ->
  usd_rate (to_usd_row date_col amount_col currency_col self row) = Some v /\
  amount_usd (to_usd_row date_col amount_col currency_col self row)
  = Some (amount_col row * v)%Qc.
Proof.
  unfold fx_map_of. intros Hm Hin.
  assert (Hloc : loc (fx_map self) (normalize_month (date_col row)) (currency_col row)
                 = Ok (Some v)).
  { apply (loc_build_fx_map_known _ _ _ _ v Hm).
    apply (fx_long_In_sorted (fx self) _ Hin). }
  unfold to_usd_row, lookup_rate. simpl. rewrite Hloc. simpl. auto.
Qed.

Lemma to_usd_with_fx_row_witness :
  amount_usd (to_usd_row date amount currency Sample.fd
                (mkAmount (mkTimestamp 2025 4 20) "EMEA" "Revenue" "EUR" (Sample.usd 10)))
  = Some (Sample.usd 10 * Sample.usd 2)%Qc.
Proof.
  apply (to_usd_with_fx_row date amount currency Sample.fd
           (mkAmount (mkTimestamp 2025 4 20) "EMEA" "Revenue" "EUR" (Sample.usd 10))
           (Sample.usd 2)).
  - reflexivity.
  - simpl. auto.
Defined.

(** ** The accounts of the opex breakdown *)

Lemma filter_to_usd_amounts (self : FinanceData) (p : AmountRecord -> bool)
    (df : list AmountRecord) :
  List.filter (fun c => p (source c)) (to_usd_amounts self df)
  = to_usd_amounts self (List.filter p df).
Proof.
  unfold to_usd_amounts, _to_usd.
  induction df as [|r df IH]; simpl; [reflexivity|].
  destruct (p r); simpl; rewrite IH; reflexivity.
Qed.

Lemma groupby_category_sum_accounts (self : FinanceData) (base : list AmountRecord) :
  map account (groupby_category_sum (to_usd_amounts self base))
  = merge_sort String.le (remove_dups (map category base)).
Proof.
  unfold groupby_category_sum. rewrite map_map. simpl. rewrite map_id.
  unfold to_usd_amounts, _to_usd. rewrite map_map. reflexivity.
Qed.

Lemma groupby_category_sum_amounts (self : FinanceData) (base : list AmountRecord) :
  Forall (fun row =>
            opex_amount_usd row
            = usd_total self
                (List.filter (fun r => String.eqb (category r) (account row)) base))
         (groupby_category_sum (to_usd_amounts self base)).
Proof.
  unfold groupby_category_sum. apply Forall_fmap, Forall_forall.
  intros k _. simpl.
  rewrite (filter_to_usd_amounts self (fun r => String.eqb (category r) k)).
  reflexivity.
Qed.



(** ** Sums over regrouped rows *)

Lemma seq_sum_Qc (l : list Qc) (a : Qc) :
  seq_sum Qcplus a l = (a + Qc_sum l)%Qc.
Proof.
  unfold seq_sum. revert a. induction l as [|x l IH]; intros a; simpl; [ring|].
  rewrite IH. ring.
Qed.

Lemma zip_with_Qc_sum (r x : list Qc) :
  length r = length x ->
  Qc_sum (zip_with Qcplus r x) = (Qc_sum r + Qc_sum x)%Qc.
Proof.
  revert x. induction r as [|a r IH]; intros [|b x] Hl; simpl in *; try discriminate.
  - ring.
  - rewrite IH by lia. ring.
Qed.

Lemma Qc_sum_take_drop (n : nat) (l : list Qc) :
  (Qc_sum (take n l) + Qc_sum (drop n l))%Qc = Qc_sum l.
Proof. rewrite <- Qc_sum_app, take_drop. reflexivity. Qed.

Lemma add_lanes_Qc (b : nat) :
  forall r l : list Qc,
    length r = 8%nat -> (8 * b <= length l)%nat ->
    length (fst (add_lanes Qcplus b r l)) = 8%nat /\
    (Qc_sum (fst (add_lanes Qcplus b r l)) + Qc_sum (snd (add_lanes Qcplus b r l)))%Qc
    = (Qc_sum r + Qc_sum l)%Qc.
Proof.
  induction b as [|b IH]; intros r l Hr Hl; cbn [add_lanes fst snd].
  - auto.
  - assert (Ht : length (take 8 l) = 8%nat) by (rewrite length_take; lia).
    destruct (IH (zip_with Qcplus r (take 8 l)) (drop 8 l)) as [H1 H2].
    + rewrite length_zip_with, Hr, Ht. reflexivity.
    + rewrite length_drop. lia.
    + split; [exact H1|]. rewrite H2, zip_with_Qc_sum by congruence.
      rewrite <- (Qc_sum_take_drop 8 l). ring.
Qed.

Lemma block_sum_Qc (l : list Qc) :
  (8 <= length l)%nat -> block_sum 0%Qc Qcplus l = Qc_sum l.
Proof.
  intros Hl. unfold block_sum.
  destruct (add_lanes_Qc (length l / 8 - 1) (take 8 l) (drop 8 l)) as [H1 H2].
  - rewrite length_take. lia.
  - rewrite length_drop.
    pose proof (Nat.Div0.mul_div_le (length l) 8). lia.
  - rewrite Qc_sum_take_drop in H2.
    destruct (add_lanes Qcplus (length l / 8 - 1) (take 8 l) (drop 8 l)) as [r rest].
    cbn [fst snd] in H1, H2.
    destruct r as [|r0 [|r1 [|r2 [|r3 [|r4 [|r5 [|r6 [|r7 [|r8 r]]]]]]]]];
      try discriminate.
    rewrite seq_sum_Qc, <- H2. simpl. ring.
Qed.

Lemma pairwise_sum_Qc (fuel : nat) :
  forall l : list Qc, pairwise_sum 0%Qc Qcplus fuel l = Qc_sum l.
Proof.
  induction fuel as [|fuel IH]; intros l; cbn [pairwise_sum];
    destruct (Nat.ltb_spec (length l) 8) as [H8|H8];
    try (rewrite seq_sum_Qc; ring);
    destruct (Nat.leb_spec (length l) 128) as [H128|H128];
    try (apply block_sum_Qc; exact H8).
  rewrite !IH. apply Qc_sum_take_drop.
Qed.

(** Over exact rationals the additions of [col.sum()] give the sum. *)
Lemma add_reduce_Qc (l : list Qc) : add_reduce 0%Qc 0%Qc Qcplus l = Qc_sum l.
Proof. unfold add_reduce. rewrite pairwise_sum_Qc. ring. Qed.

(** Over exact rationals the compensation of [group_sum] stays 0. *)
Lemma kahan_sum_Qc (l : list Qc) :
  kahan_sum 0%Qc Qcplus Qcminus (fun _ => false) l = Qc_sum l.
Proof.
  unfold kahan_sum.
  assert (H : forall s : Qc,
            fold_left (kahan_step 0%Qc Qcplus Qcminus (fun _ => false)) l (s, 0%Qc)
            = ((s + Qc_sum l)%Qc, 0%Qc)).
  { induction l as [|x l IH]; intros s; cbn [fold_left Qc_sum].
    - f_equal. ring.
    - unfold kahan_step at 2. cbn [fst snd].
      replace (s + (x - 0) - s - (x - 0))%Qc with 0%Qc by ring.
      rewrite IH. f_equal. ring. }
  rewrite H. cbn [fst]. ring.
Qed.

Lemma col_sum_values (l : list cell) : col_sum l = Qc_sum (map cell_value l).
Proof.
  induction l as [|c l IH]; [reflexivity|].
  rewrite col_sum_cons, IH. reflexivity.
Qed.

Lemma col_sum_dropna (l : list cell) : col_sum l = Qc_sum (dropna l).
Proof.
  induction l as [|[x|] l IH]; simpl; [reflexivity| |exact IH].
  rewrite IH. reflexivity.
Qed.

Lemma usd_cell_spec (self : FinanceData) (r : AmountRecord) :
  amount_usd (to_usd_row date amount currency self r) = usd_cell self r.
Proof.
  unfold to_usd_row, lookup_rate, usd_cell. cbn [amount_usd].
  destruct (loc (fx_map self) (normalize_month (date r)) (currency r)) as [[v|]|e];
    cbn [cell_mul]; try reflexivity.
  destruct (String.eqb _ _); cbn [cell_mul]; rewrite Qcmult_1_r; reflexivity.
Qed.

Lemma amount_usd_cells (self : FinanceData) (df : list AmountRecord) :
  map amount_usd (to_usd_amounts self df) = map (usd_cell self) df.
Proof.
  unfold to_usd_amounts, _to_usd. rewrite map_map.
  apply map_ext. intros r. apply usd_cell_spec.
Qed.

(** [self._to_usd(df)["amount_usd"].sum()] by its additions. *)
Lemma usd_total_series (self : FinanceData) (df : list AmountRecord) :
  usd_total self df = series_sum (map (usd_cell self) df).
Proof.
  unfold usd_total, series_sum.
  rewrite add_reduce_Qc, amount_usd_cells. apply col_sum_values.
Qed.

(** The sum of a group of [_to_usd(df)] by its additions. *)
Lemma usd_total_grouped (self : FinanceData) (df : list AmountRecord) :
  usd_total self df = grouped_sum (map (usd_cell self) df).
Proof.
  unfold usd_total, grouped_sum.
  rewrite kahan_sum_Qc, amount_usd_cells. apply col_sum_dropna.
Qed.

(** The rows of [opex_breakdown]: no account twice, an account for every
    matching row, and for each account the sum of the USD amounts of its
    rows. *)
Lemma opex_breakdown_by_account (self : FinanceData) (ts : Timestamp)
    (ent : option string) :
  let rows := sort_values_amount_desc
                (groupby_category_sum
                   (to_usd_amounts self (List.filter (opex_row_for ts ent) (actuals self)))) in
  NoDup (map account rows) /\
  (forall r, In r (actuals self) -> opex_row_for ts ent r = true ->
             In (category r) (map account rows)) /\
  Forall (fun row =>
            opex_amount_usd row
            = grouped_sum
                (map (usd_cell self)
                   (List.filter (fun r => opex_row_for ts ent r
                                          && String.eqb (category r) (account row))
                                (actuals self)))) rows.
Proof.
  set (base := List.filter (opex_row_for ts ent) (actuals self)).
  intros rows.
  assert (Hperm : rows ≡ₚ groupby_category_sum (to_usd_amounts self base))
    by apply merge_sort_Permutation.
  split; [|split].
  - rewrite Hperm, groupby_category_sum_accounts, merge_sort_Permutation.
    apply NoDup_remove_dups.
  - intros r Hin Hp. apply list_elem_of_In.
    rewrite Hperm, groupby_category_sum_accounts, merge_sort_Permutation,
      elem_of_remove_dups.
    apply list_elem_of_In, in_map. unfold base. apply filter_In. auto.
  - rewrite Hperm.
    eapply Forall_impl; [apply groupby_category_sum_amounts|].
    intros row Hrow. simpl in Hrow. rewrite Hrow. unfold base.
    rewrite filter_filter_andb. apply usd_total_grouped.
Qed.

(** C4, amended. When the month string resolves to [ts], [opex_breakdown]
    returns rows in descending order of [amount_usd] (each row is at least
    every later row); the rows are the accounts of the matching rows of the
    actuals (month [ts], a category that contains "opex" or "operating"
    whatever the case, the selected entity), no account twice and every
    matching row under its account; and the amount of an account is the sum
    of the USD amounts of its rows, by the additions of [GroupBy.sum].  The
    returned amounts are thus the USD amounts of the matching rows added
    account by account: their total is the total of the matching rows in
    exact arithmetic, and in the floats of the program up to the rounding
    of the additions.  When the month string does not resolve, the error of
    the parser is raised. *)
Theorem opex_breakdown_sorted_account_sums (parse : string -> option datetime)
    (self : FinanceData) (month : string) (ent : option string) :
  match _month_str_to_ts parse month with
  | Ok ts =>
      exists rows,
        opex_breakdown parse self month ent = Ok rows /\
        StronglySorted (fun a b => (opex_amount_usd b <= opex_amount_usd a)%Qc) rows /\
        NoDup (map account rows) /\
        (forall r, In r (actuals self) -> opex_row_for ts ent r = true ->
                   In (category r) (map account rows)) /\
        Forall (fun row =>
                  opex_amount_usd row
                  = grouped_sum
                      (map (usd_cell self)
                         (List.filter (fun r => opex_row_for ts ent r
                                                && String.eqb (category r) (account row))
                                      (actuals self)))) rows
  | Raise e => opex_breakdown parse self month ent = Raise e
  end.
Proof.
  destruct (_month_str_to_ts parse month) as [ts|e] eqn:Hts.
  - eexists. split; [apply (opex_breakdown_ok _ _ _ _ _ Hts)|].
    split; [apply (StronglySorted_merge_sort opex_ge)|].
    apply opex_breakdown_by_account.
  - unfold opex_breakdown. rewrite Hts. reflexivity.
Qed.

(** C4 as stated fails in the floats of the program.  Three expenses of
    June 2025, 651.59 and 93.86 for marketing and 788.72 for sales, come
    back as 788.72 and 745.45, which add up to 1534.17, while the USD sum of
    the three rows, as [ebitda_proxy] reports it, is 1534.1699999999998. *)
Lemma opex_breakdown_total_rounds :
  exists rows,
    F64.opex_breakdown Sample.parse Sample.fd64 "2025-06" None = Ok rows /\
    map F64.opex_amount_usd rows = [788.72; 745.45]%float /\
    F64.col_sum (map F64.opex_amount_usd rows) = 1534.17%float /\
    F64.usd_total Sample.fd64
      (List.filter (fun r => F64.on_date Sample.jun25 r && F64.is_opex r)
                   (F64.actuals Sample.fd64))
    = 1534.1699999999998%float /\
    PrimFloat.eqb
      (F64.col_sum (map F64.opex_amount_usd rows))
      (F64.usd_total Sample.fd64
         (List.filter (fun r => F64.on_date Sample.jun25 r && F64.is_opex r)
                      (F64.actuals Sample.fd64)))
    = false.
Proof.
  eexists. split; [vm_compute; reflexivity|].
  repeat split; vm_compute; reflexivity.
Qed.

(** C5, amended. [ebitda_proxy], [revenue_vs_budget] and [opex_breakdown]
    succeed together (they fail together when the month string does not
    resolve); then [ebitda_usd = revenue_usd - cogs_usd - opex_usd],
    [revenue_usd] is the [actual_usd] of [revenue_vs_budget], and [opex_usd]
    is the sum, by the additions of [col.sum()], of the USD amounts of the
    rows that [opex_breakdown] groups: no account twice, every such row
    under its account, each account with the sum of the USD amounts of its
    rows by the additions of [GroupBy.sum].  The sum of the amounts of
    [opex_breakdown] adds the same USD amounts account by account; it is
    [opex_usd] in exact arithmetic, and in the floats of the program up to
    the rounding of the additions. *)
Theorem ebitda_proxy_components (parse : string -> option datetime)
    (self : FinanceData) (month : string) (ent : option string) :
  match ebitda_proxy parse self month ent,
        revenue_vs_budget parse self month ent,
        opex_breakdown parse self month ent with
  | Ok e, Ok r, Ok rows =>
      let matching := opex_row_for (ebitda_month e) ent in
      ebitda_usd e = (revenue_usd e - cogs_usd e - opex_usd e)%Qc /\
      ebitda_month e = rvb_month r /\
      revenue_usd e = actual_usd r /\
      opex_usd e
      = series_sum (map (usd_cell self) (List.filter matching (actuals self))) /\
      NoDup (map account rows) /\
      (forall x, In x (actuals self) -> matching x = true ->
                 In (category x) (map account rows)) /\
      Forall (fun row =>
                opex_amount_usd row
                = grouped_sum
                    (map (usd_cell self)
                       (List.filter (fun x => matching x
                                              && String.eqb (category x) (account row))
                                    (actuals self)))) rows
  | Raise _, Raise _, Raise _ => True
  | _, _, _ => False
  end.
Proof.
  destruct (_month_str_to_ts parse month) as [ts|e] eqn:Hts.
  - rewrite (opex_breakdown_ok _ _ _ _ _ Hts).
    unfold ebitda_proxy, revenue_vs_budget. rewrite Hts. cbn [rbind].
    cbv zeta. cbn [ebitda_usd ebitda_month revenue_usd cogs_usd opex_usd
                   rvb_month actual_usd].
    split; [reflexivity|]. split; [reflexivity|]. split; [reflexivity|].
    split; [rewrite opex_filter_merge; apply usd_total_series|].
    apply opex_breakdown_by_account.
  - unfold ebitda_proxy, revenue_vs_budget, opex_breakdown. rewrite Hts.
    simpl. exact I.
Qed.

(** C5 as stated fails in the floats of the program: on the three expenses
    of June 2025 above, [opex_usd] is 1534.1699999999998 and the amounts of
    [opex_breakdown] add up to 1534.17. *)
Lemma ebitda_opex_not_breakdown_sum :
  exists e rows,
    F64.ebitda_proxy Sample.parse Sample.fd64 "2025-06" None = Ok e /\
    F64.opex_breakdown Sample.parse Sample.fd64 "2025-06" None = Ok rows /\
    F64.opex_usd e = 1534.1699999999998%float /\
    F64.col_sum (map F64.opex_amount_usd rows) = 1534.17%float /\
    PrimFloat.eqb (F64.opex_usd e) (F64.col_sum (map F64.opex_amount_usd rows)) = false.
Proof.
  eexists _, _. split; [vm_compute; reflexivity|].
  split; [vm_compute; reflexivity|].
  repeat split; vm_compute; reflexivity.
Qed.

(** ** The default end of a window *)

Lemma Timestamp_max2_le_l (a b : Timestamp) : Timestamp_le a (Timestamp_max2 a b).
Proof.
  unfold Timestamp_max2. destruct (Timestamp_leb a b) eqn:E.
  - exact E.
  - apply Timestamp_le_refl.
Qed.

Lemma Timestamp_max2_le_r (a b : Timestamp) : Timestamp_le b (Timestamp_max2 a b).
Proof.
  unfold Timestamp_max2. destruct (Timestamp_leb a b) eqn:E.
  - apply Timestamp_le_refl.
  - destruct (Timestamp_le_total a b) as [H|H]; [|exact H].
    unfold Timestamp_le in H. congruence.
Qed.

Lemma fold_max2_spec (l : list Timestamp) (t : Timestamp) :
  let m := fold_left Timestamp_max2 l t in
  In m (t :: l) /\ Timestamp_le t m /\ (forall d, In d l -> Timestamp_le d m).
Proof.
  revert t. induction l as [|x l IH]; intros t; simpl.
  - split; [auto|]. split; [apply Timestamp_le_refl|tauto].
  - destruct (IH (Timestamp_max2 t x)) as (Hin & Hle & Hall).
    split; [|split].
    + destruct Hin as [Hin|Hin]; [|auto].
      rewrite <- Hin. unfold Timestamp_max2. destruct (Timestamp_leb t x); auto.
    + apply (Timestamp_le_trans _ (Timestamp_max2 t x)); [apply Timestamp_max2_le_l|exact Hle].
    + intros d [Hd|Hd].
      * subst x.
        apply (Timestamp_le_trans _ (Timestamp_max2 t d)); [apply Timestamp_max2_le_r|exact Hle].
      * apply Hall. exact Hd.
Qed.

Lemma Timestamp_max_spec (l : list Timestamp) :
  match Timestamp_max l with
  | Some m => In m l /\ (forall d, In d l -> Timestamp_le d m)
  | None => l = []
  end.
Proof.
  destruct l as [|t l]; simpl; [reflexivity|].
  destruct (fold_max2_spec l t) as (Hin & Hle & Hall). cbv zeta in *.
  split; [exact Hin|]. intros d [<-|Hd]; auto.
Qed.

Lemma resolve_end_default (parse : string -> option datetime) (m : option string)
    (dates : list Timestamp) :
  m = None \/ m = Some "" ->
  resolve_end parse m dates
  = match Timestamp_max dates with
    | Some t => Ok t
    | None => Raise AttributeError
    end.
Proof. intros [->| ->]; reflexivity. Qed.



(** ** More on the cash runway *)

(** The result of [cash_runway_months] from the filled balances of the
    window, when the month resolves and no month has two cash rows. *)
Lemma cash_runway_months_filled (parse : string -> option datetime)
    (self : FinanceData) (as_of_month ent : option string) (ts : Timestamp) :
  resolve_end parse as_of_month (map cash_date (cash self)) = Ok ts ->
  NoDup (map (fun r => normalize_month (cash_date r)) (cash_rows_for self ent)) ->
  let filled := bfill (ffill (map (month_balance_usd self ent) (three_months ts))) in
  let avg_burn := col_mean (dropna (net_burn_col filled)) in
  cash_runway_months parse self as_of_month ent
  = Ok (mkRunway ts (float_of_cell (List.last filled None))
          (match avg_burn with Some a => a | None => 0%Qc end)
          (if cell_le0_or_nan avg_burn then Inf
           else float_of_cell (cell_div (List.last filled None) avg_burn))).
Proof.
  intros Hts Hnd.
  unfold cash_runway_months. rewrite Hts. cbn [rbind].
  unfold reindex. rewrite conv_date_to_usd_cash.
  unfold cash_rows_for in Hnd. rewrite <- filter_entity_filter in Hnd.
  destruct (decide (NoDup _)) as [_|Hbad]; [|contradiction]. cbn [rbind].
  rewrite cash_balance_usd_col_reindexed, months_ending_three. reflexivity.
Qed.

Lemma month_balance_usd_None (self : FinanceData) (ent : option string)
    (m : Timestamp) :
  (forall r, In r (cash_rows_for self ent) -> normalize_month (cash_date r) <> m) ->
  month_balance_usd self ent m = None.
Proof.
  intros H. unfold month_balance_usd.
  destruct (List.find _ _) as [r|] eqn:E; [|reflexivity].
  apply find_some in E. destruct E as [Hin Hd].
  apply bool_decide_eq_true in Hd. destruct (H r Hin Hd).
Qed.

(** X13. When the selected entity has no cash row in any of the three
    months of the window (and no month of its rows is repeated),
    [cash_runway_months] does not fail: it reports a current cash of NaN, an
    average burn of 0 and an infinite runway. *)
Theorem cash_runway_months_without_balances (parse : string -> option datetime)
    (self : FinanceData) (as_of_month ent : option string) (ts : Timestamp) :
  resolve_end parse as_of_month (map cash_date (cash self)) = Ok ts ->
  NoDup (map (fun r => normalize_month (cash_date r)) (cash_rows_for self ent)) ->
  (forall r, In r (cash_rows_for self ent) ->
             ~ In (normalize_month (cash_date r)) (three_months ts)) ->
  cash_runway_months parse self as_of_month ent = Ok (mkRunway ts NaN 0%Qc Inf).
Proof.
  intros Hts Hnd Hout.
  rewrite (cash_runway_months_filled parse self as_of_month ent ts Hts Hnd).
  unfold three_months in *. cbn [map].
  rewrite !month_balance_usd_None
    by (intros r Hr E; apply (Hout r Hr); rewrite E; simpl; auto).
  reflexivity.
Qed.

Lemma cash_runway_months_without_balances_witness :
  cash_runway_months Sample.parse Sample.fd (Some "2026-01") None
  = Ok (mkRunway (mkTimestamp 2026 1 1) NaN 0%Qc Inf).
Proof.
  apply (cash_runway_months_without_balances Sample.parse Sample.fd
           (Some "2026-01") None (mkTimestamp 2026 1 1)).
  - reflexivity.
  - apply (bool_decide_unpack _). vm_compute. exact I.
  - intros r Hr. vm_compute in Hr.
    repeat (destruct Hr as [Hr|Hr]; [subst r; vm_compute; intuition discriminate|]).
    contradiction.
Defined.

(** X15. Without an as-of month ([None] or the empty string),
    [cash_runway_months] takes the latest date of the whole cash table,
    also when an entity is selected that has no row at that date, and
    reports it as [as_of].  When the cash table has no row the latest date
    is [NaT] and the call raises [AttributeError]. *)
Theorem cash_runway_months_default_as_of (parse : string -> option datetime)
    (self : FinanceData) (as_of_month ent : option string) :
  as_of_month = None \/ as_of_month = Some "" ->
  match cash self with
  | [] => cash_runway_months parse self as_of_month ent = Raise AttributeError
  | _ :: _ =>
      exists latest,
        In latest (map cash_date (cash self)) /\
        (forall d, In d (map cash_date (cash self)) -> Timestamp_le d latest) /\
        match cash_runway_months parse self as_of_month ent with
        | Ok r => as_of r = latest
        | Raise e =>
            e = ValueError /\
            ~ NoDup (map (fun r => normalize_month (cash_date r))
                         (cash_rows_for self ent))
        end
  end.
Proof.
  intros Hm.
  pose proof (resolve_end_default parse as_of_month (map cash_date (cash self)) Hm) as Hres.
  pose proof (Timestamp_max_spec (map cash_date (cash self))) as Hmax.
  destruct (cash self) as [|r rs] eqn:E.
  - unfold cash_runway_months. rewrite E, Hres. reflexivity.
  - rewrite <- E in *.
    destruct (Timestamp_max (map cash_date (cash self))) as [t|].
    2:{ rewrite E in Hmax. discriminate. }
    destruct Hmax as [Hin Hall].
    exists t. split; [exact Hin|]. split; [exact Hall|].
    destruct (decide (NoDup (map (fun r => normalize_month (cash_date r))
                                 (cash_rows_for self ent)))) as [Hnd|Hdup].
    + rewrite (cash_runway_months_filled parse self as_of_month ent t Hres Hnd).
      reflexivity.
    + rewrite (cash_runway_months_raises_on_duplicates parse self as_of_month ent t
                 Hres Hdup).
      auto.
Qed.

Lemma cash_runway_months_default_as_of_witness :
  exists latest,
    In latest (map cash_date (cash Sample.fd_two_entities)) /\
    (forall d, In d (map cash_date (cash Sample.fd_two_entities)) ->
               Timestamp_le d latest) /\
    match cash_runway_months Sample.parse Sample.fd_two_entities None (Some "EMEA") with
    | Ok r => as_of r = latest
    | Raise e =>
        e = ValueError /\
        ~ NoDup (map (fun r => normalize_month (cash_date r))
                     (cash_rows_for Sample.fd_two_entities (Some "EMEA")))
    end.
Proof.
  exact (cash_runway_months_default_as_of Sample.parse Sample.fd_two_entities
           None (Some "EMEA") (or_introl eq_refl)).
Defined.

(** ** Agreement of the operations *)

(** X16. The operations agree on a month.  For a month string that resolves,
    the last row of [gross_margin_trend] (for a positive count) carries the
    revenue that [revenue_vs_budget] reports as [actual_usd] and that
    [ebitda_proxy] reports as [revenue_usd], both without an entity, and the
    cost that [ebitda_proxy] reports as [cogs_usd]. *)
Theorem gross_margin_agrees_with_ebitda (parse : string -> option datetime)
    (self : FinanceData) (N : Z) (M : string) (ts : Timestamp) :
  0 < N ->
  M <> "" ->
  _month_str_to_ts parse M = Ok ts ->
  exists rows row r e,
    gross_margin_trend parse self N (Some M) = Ok rows /\
    last rows = Some row /\
    revenue_vs_budget parse self M None = Ok r /\
    ebitda_proxy parse self M None = Ok e /\
    gm_date row = ts /\
    gm_revenue_usd row = actual_usd r /\
    gm_revenue_usd row = revenue_usd e /\
    gm_cogs_usd row = cogs_usd e.
Proof.
  intros HN HM Hts.
  assert (Hres : resolve_end parse (Some M) (map date (actuals self)) = Ok ts).
  { unfold resolve_end. destruct M; [congruence|exact Hts]. }
  rewrite (gross_margin_trend_dates parse self N (Some M) ts Hres).
  unfold revenue_vs_budget, ebitda_proxy. rewrite Hts. cbn [rbind].
  assert (Hlast : last (months_ending ts N) = Some ts).
  { unfold months_ending. rewrite fmap_last, period_range_last by exact HN.
    simpl. f_equal.
    destruct (month_str_to_ts_first_of_month _ _ _ Hts) as (Hd & Hm & _).
    apply (normalize_month_first_of_month ts Hd Hm). }
  eexists _, (margin_row self ts), _, _.
  split; [reflexivity|]. split; [rewrite fmap_last, Hlast; reflexivity|].
  split; [reflexivity|]. split; [reflexivity|].
  simpl. repeat split.
Qed.

Lemma gross_margin_agrees_with_ebitda_witness :
  exists rows row r e,
    gross_margin_trend Sample.parse Sample.fd 3 (Some "2025-06") = Ok rows /\
    last rows = Some row /\
    revenue_vs_budget Sample.parse Sample.fd "2025-06" None = Ok r /\
    ebitda_proxy Sample.parse Sample.fd "2025-06" None = Ok e /\
    gm_date row = Sample.jun25 /\
    gm_revenue_usd row = actual_usd r /\
    gm_revenue_usd row = revenue_usd e /\
    gm_cogs_usd row = cogs_usd e.
Proof.
  apply (gross_margin_agrees_with_ebitda Sample.parse Sample.fd 3 "2025-06"
           Sample.jun25).
  - lia.
  - discriminate.
  - reflexivity.
Defined.

(** ** More on the classifier *)

Lemma prefix_append_l (s1 s2 q : string) :
  String.prefix (s1 ++ s2)%string q = true -> String.prefix s1 q = true.
Proof.
  revert q. induction s1 as [|c s1 IH]; intros q H; [destruct q; reflexivity|].
  destruct q as [|c' q]; simpl in *; [discriminate|].
  destruct (ascii_dec c c'); [|discriminate]. apply IH. exact H.
Qed.

Lemma contains_append_l (s1 s2 q : string) :
  Py.contains (s1 ++ s2)%string q = true -> Py.contains s1 q = true.
Proof.
  induction q as [|c q IH]; cbn [Py.contains]; rewrite !orb_true_iff; intros [H|H].
  - left. apply (prefix_append_l s1 s2). exact H.
  - discriminate.
  - left. apply (prefix_append_l s1 s2). exact H.
  - right. apply IH. exact H.
Qed.

Lemma contains_of_prefix (s q : string) :
  String.prefix s q = true -> Py.contains s q = true.
Proof. intros H. destruct q; cbn [Py.contains]; rewrite H; reflexivity. Qed.

Lemma prefix_append_r (s1 s2 q : string) :
  String.prefix (s1 ++ s2)%string q = true -> Py.contains s2 q = true.
Proof.
  revert q. induction s1 as [|c s1 IH]; intros q H.
  - apply contains_of_prefix. exact H.
  - destruct q as [|c' q]; simpl in H; [discriminate|].
    destruct (ascii_dec c c'); [|discriminate].
    cbn [Py.contains]. rewrite (IH q H). apply orb_true_r.
Qed.

Lemma contains_append_r (s1 s2 q : string) :
  Py.contains (s1 ++ s2)%string q = true -> Py.contains s2 q = true.
Proof.
  induction q as [|c q IH]; intros H; cbn [Py.contains] in H;
    apply orb_true_iff in H; destruct H as [H|H].
  - apply (prefix_append_r s1). exact H.
  - discriminate.
  - apply (prefix_append_r s1). exact H.
  - cbn [Py.contains]. rewrite (IH H). apply orb_true_r.
Qed.

Lemma py_int_nonneg (s : string) (n : Z) : Planner.py_int s = Ok n -> 0 <= n.
Proof.
  unfold Planner.py_int. destruct s as [|c s]; [discriminate|].
  destruct (Planner.all_digits _); [|discriminate].
  destruct (_ <=? _)%nat; [|discriminate].
  intros [= <-]. apply (int_of_digits_nonneg (String c s) 0). lia.
Qed.

Ltac not_unknown :=
  split;
  [split;
   [intros [? ?]; discriminate
   |let Hc := fresh in
    intros Hc; exfalso; decompose [and] Hc; clear Hc;
    first [congruence
          |match goal with Hn : ~ _ |- _ => apply Hn; auto end]]
  |intros ? ?; discriminate].

(** X17. [classify] answers "unknown" exactly when the question, in lower
    case, mentions none of its keywords: not both "revenue" and "budget",
    and none of "gross margin", "opex", "operating expense", "runway",
    "ebitda", "earnings" and "operating profit"; the parameter dictionary is
    then empty.  (The tests for "gross margin %", "gross margin percent" and
    "cash runway" add nothing to those for "gross margin" and "runway".) *)
Theorem classify_unknown_iff (question : string) :
  let q := Py.strip (Py.lower question) in
  ((exists params, Planner.classify question = Ok ("unknown", params)) <->
   ~ (Py.contains "revenue" q = true /\ Py.contains "budget" q = true) /\
   Py.contains "gross margin" q = false /\
   Py.contains "opex" q = false /\
   Py.contains "operating expense" q = false /\
   Py.contains "runway" q = false /\
   Py.contains "ebitda" q = false /\
   Py.contains "earnings" q = false /\
   Py.contains "operating profit" q = false) /\
  (forall params, Planner.classify question = Ok ("unknown", params) -> params = ∅).
Proof.
  intros q.
  assert (Hgm1 : Py.contains "gross margin %" q = true -> Py.contains "gross margin" q = true)
    by apply (contains_append_l "gross margin" " %").
  assert (Hgm2 : Py.contains "gross margin percent" q = true
                 -> Py.contains "gross margin" q = true)
    by apply (contains_append_l "gross margin" " percent").
  assert (Hcr : Py.contains "cash runway" q = true -> Py.contains "runway" q = true)
    by apply (contains_append_r "cash " "runway").
  unfold Planner.classify. fold q.
  destruct (Py.contains "revenue" q) eqn:E1, (Py.contains "budget" q) eqn:E2;
    cbn [andb]; try not_unknown.
  all: destruct (Py.contains "gross margin" q) eqn:E3; cbn [orb];
    [destruct (Planner.search_list Planner.last_months_re _) as [m|] eqn:Em;
     [apply search_list_sound, last_months_group1_int in Em
        as [(_ & n & Hn & _)|[_ Hn]]; rewrite Hn|];
     cbn [rbind]; not_unknown|].
  all: destruct (Py.contains "gross margin %" q) eqn:E3a;
    [exfalso; specialize (Hgm1 eq_refl); discriminate|].
  all: destruct (Py.contains "gross margin percent" q) eqn:E3b;
    [exfalso; specialize (Hgm2 eq_refl); discriminate|].
  all: cbn [orb].
  all: destruct (Py.contains "opex" q) eqn:E4; cbn [orb]; [not_unknown|].
  all: destruct (Py.contains "operating expense" q) eqn:E5; [not_unknown|].
  all: destruct (Py.contains "runway" q) eqn:E6;
    [rewrite orb_true_r; not_unknown|].
  all: destruct (Py.contains "cash runway" q) eqn:E6a;
    [exfalso; specialize (Hcr eq_refl); discriminate|].
  all: cbn [orb].
  all: destruct (Py.contains "ebitda" q) eqn:E7; cbn [orb]; [not_unknown|].
  all: destruct (Py.contains "earnings" q) eqn:E8; cbn [orb]; [not_unknown|].
  all: destruct (Py.contains "operating profit" q) eqn:E9; [not_unknown|].
  all: split; [split; [intros _; repeat split; try reflexivity;
                       intros [Ha Hb]; discriminate
                      |intros _; eauto]
              |intros p [= <-]; reflexivity].
Qed.


















(** ** The limit of [int] *)















(** ** The frames after loading *)

Section LoadedFrames.

Import Loader.



Lemma map_column_same_outside (i : nat) (g : xcell -> xcell) (df : RawFrame)
    (n j : nat) (row' : list xcell) :
  rows (map_column i g df) !! n = Some row' -> i <> j ->
  exists row, rows df !! n = Some row /\ cell_at j row' = cell_at j row.
Proof.
  unfold map_column. simpl. intros H Hij.
  rewrite list_lookup_fmap in H.
  destruct (rows df !! n) as [row|]; [|discriminate].
  injection H as <-. exists row. split; [reflexivity|].
  apply cell_at_set_cell_ne. exact Hij.
Qed.

Variable pd_to_datetime : xcell -> option Timestamp.
Variable parse_number : string -> option Qc.


Lemma normalized_same_outside (df : RawFrame) (n j : nat) (row' : list xcell) :
  rows (normalized pd_to_datetime df) !! n = Some row' ->
  col_pos "date" (columns df) <> Some j ->
  exists row, rows df !! n = Some row /\ cell_at j row' = cell_at j row.
Proof.
  unfold normalized. intros H Hj.
  destruct (col_pos "date" (columns df)) as [i|] eqn:E.
  - apply (map_column_same_outside i _ df n j row' H). congruence.
  - exists row'. split; [exact H|reflexivity].
Qed.

Lemma normalized_rows_length (df : RawFrame) :
  length (rows (normalized pd_to_datetime df)) = length (rows df).
Proof.
  unfold normalized. destruct (col_pos "date" (columns df)); [|reflexivity].
  simpl. apply length_map.
Qed.

(** The four frames that [load] returns, from the four sheets. *)
Lemma load_Ok_frames (xls : Workbook) (l : Loaded) :
  load pd_to_datetime parse_number xls = Ok l ->
  exists a b c f,
    (read_excel xls "actuals" = Ok a /\ read_excel xls "budget" = Ok b /\
     read_excel xls "cash" = Ok c /\ read_excel xls "fx" = Ok f) /\
    (dates_convert pd_to_datetime (rename renames_amounts a) /\
     dates_convert pd_to_datetime (rename renames_amounts b) /\
     dates_convert pd_to_datetime (rename renames_cash c) /\
     dates_convert pd_to_datetime (rename renames_fx f)) /\
    (exists ia, col_pos "amount" (columns (rename renames_amounts a)) = Some ia /\
       l_actuals l = map_column ia (coerced parse_number)
                       (normalized pd_to_datetime (rename renames_amounts a))) /\
    (exists ib, col_pos "amount" (columns (rename renames_amounts b)) = Some ib /\
       l_budget l = map_column ib (coerced parse_number)
                      (normalized pd_to_datetime (rename renames_amounts b))) /\
    l_cash l =
      match col_pos "cash_balance" (columns (rename renames_cash c)) with
      | Some k => map_column k (coerced parse_number)
                    (normalized pd_to_datetime (rename renames_cash c))
      | None => normalized pd_to_datetime (rename renames_cash c)
      end /\
    (exists i j k,
       col_pos "date" (columns (rename renames_fx f)) = Some i /\
       col_pos "currency" (columns (rename renames_fx f)) = Some j /\
       col_pos "usd_rate" (columns (rename renames_fx f)) = Some k /\
       l_fx l = sort_values_by_date i (normalized pd_to_datetime (rename renames_fx f)) /\
       build_fx_map (long_rows i j k (l_fx l)) = Ok (l_fx_map l)).
Proof.
  unfold load. intros H.
  destruct (read_excel xls "actuals") as [a|] eqn:Ha; [|discriminate]; cbn [rbind] in H.
  destruct (read_excel xls "budget") as [b|] eqn:Hb; [|discriminate]; cbn [rbind] in H.
  destruct (read_excel xls "cash") as [c|] eqn:Hc; [|discriminate]; cbn [rbind] in H.
  destruct (read_excel xls "fx") as [f|] eqn:Hf; [|discriminate]; cbn [rbind] in H.
  destruct (normalize_dates _ (rename renames_amounts a)) as [a'|] eqn:Na;
    [|discriminate]; cbn [rbind] in H.
  destruct (normalize_dates _ (rename renames_amounts b)) as [b'|] eqn:Nb;
    [|discriminate]; cbn [rbind] in H.
  destruct (normalize_dates _ (rename renames_cash c)) as [c'|] eqn:Nc;
    [|discriminate]; cbn [rbind] in H.
  destruct (normalize_dates _ (rename renames_fx f)) as [f'|] eqn:Nf;
    [|discriminate]; cbn [rbind] in H.
  apply normalize_dates_normalized in Na, Nb, Nc, Nf.
  destruct Na as [Da ->], Nb as [Db ->], Nc as [Dc ->], Nf as [Df ->].
  destruct (coerce_numeric _ "amount" (normalized pd_to_datetime (rename renames_amounts a)))
    as [a''|] eqn:Ca; [|discriminate]; cbn [rbind] in H.
  destruct (coerce_numeric _ "amount" (normalized pd_to_datetime (rename renames_amounts b)))
    as [b''|] eqn:Cb; [|discriminate]; cbn [rbind] in H.
  match type of H with
  | rbind ?t _ = _ => destruct t as [c''|] eqn:Cc; [|discriminate]; cbn [rbind] in H
  end.
  destruct (load_fx_map (normalized pd_to_datetime (rename renames_fx f))) as [p|] eqn:Lf;
    [|discriminate]; cbn [rbind] in H.
  injection H as <-. cbn [l_actuals l_budget l_cash l_fx l_fx_map].
  apply coerce_numeric_Ok in Ca, Cb.
  destruct Ca as (ia & Hia & ->), Cb as (ib & Hib & ->).
  rewrite normalized_columns in Hia, Hib.
  exists a, b, c, f. split; [auto|]. split; [auto|].
  split; [exists ia; auto|]. split; [exists ib; auto|]. split.
  - unfold has_column in Cc. rewrite normalized_columns in Cc.
    destruct (col_pos "cash_balance" (columns (rename renames_cash c))) as [k|] eqn:Ek.
    + apply coerce_numeric_Ok in Cc. destruct Cc as (k' & Hk' & ->).
      rewrite normalized_columns in Hk'. congruence.
    + congruence.
  - unfold load_fx_map in Lf. rewrite normalized_columns in Lf.
    destruct (col_pos "date" (columns (rename renames_fx f))) as [i|] eqn:Ei;
      [|discriminate].
    cbn [sort_values_by_date columns] in Lf. rewrite normalized_columns in Lf.
    destruct (col_pos "currency" (columns (rename renames_fx f))) as [j|] eqn:Ej;
      [|discriminate].
    destruct (col_pos "usd_rate" (columns (rename renames_fx f))) as [k|] eqn:Ek;
      [|discriminate].
    match type of Lf with
    | rbind ?t _ = _ => destruct t as [m|] eqn:Em; [|discriminate]; cbn [rbind] in Lf
    end.
    injection Lf as <-. exists i, j, k. simpl. auto.
Qed.

End LoadedFrames.



Section OtherCells.

Import Loader.

Variable pd_to_datetime : xcell -> option Timestamp.

Lemma normalized_rename_same_outside (names : list string)
    (mapping : list (string * string)) (df : RawFrame) :
  In "date" names ->
  same_outside names df (normalized pd_to_datetime (rename mapping df)).
Proof.
  intros Hin. split; [rewrite normalized_rows_length; reflexivity|].
  intros n j row row' Hrow Hrow' Hj.
  destruct (normalized_same_outside pd_to_datetime (rename mapping df) n j row' Hrow')
    as (row0 & H0 & E).
  - rewrite <- (normalized_columns pd_to_datetime). apply Hj. exact Hin.
  - simpl in H0. congruence.
Qed.

Lemma coerced_same_outside (names : list string) (name : string)
    (mapping : list (string * string)) (g : xcell -> xcell) (df : RawFrame) (k : nat) :
  In "date" names -> In name names ->
  col_pos name (columns (rename mapping df)) = Some k ->
  same_outside names df
    (map_column k g (normalized pd_to_datetime (rename mapping df))).
Proof.
  intros Hd Hn Hk. split.
  - simpl. rewrite length_map, normalized_rows_length. reflexivity.
  - intros n j row row' Hrow Hrow' Hj.
    assert (Hkj : k <> j).
    { intros ->. apply (Hj name Hn). simpl. rewrite normalized_columns. exact Hk. }
    destruct (map_column_same_outside k g _ n j row' Hrow' Hkj) as (row1 & H1 & E1).
    rewrite E1.
    apply (proj2 (normalized_rename_same_outside names mapping df Hd) n j row row1 Hrow H1).
    intros name' Hin'. specialize (Hj name' Hin'). exact Hj.
Qed.

End OtherCells.

(** X22. Loading renames the columns of the [actuals], [budget] and [cash]
    sheets and changes nothing else outside the date column and the
    coerced number column: each frame has the rows of its sheet, in their
    order, and in every other column the cells of the sheet.  No row is
    dropped, also not one whose amount is not a number. *)
Theorem load_keeps_other_cells
    (pd_to_datetime : Loader.xcell -> option Timestamp)
    (parse_number : string -> option Qc) (xls : Loader.Workbook) (l : Loader.Loaded)
    (a b c : Loader.RawFrame) :
  Loader.load pd_to_datetime parse_number xls = Ok l ->
  xls !! "actuals" = Some a -> xls !! "budget" = Some b -> xls !! "cash" = Some c ->
  (Loader.columns (Loader.l_actuals l)
   = map (Loader.rename_label Loader.renames_amounts) (Loader.columns a) /\
   same_outside ["date"; "amount"] a (Loader.l_actuals l)) /\
  (Loader.columns (Loader.l_budget l)
   = map (Loader.rename_label Loader.renames_amounts) (Loader.columns b) /\
   same_outside ["date"; "amount"] b (Loader.l_budget l)) /\
  (Loader.columns (Loader.l_cash l)
   = map (Loader.rename_label Loader.renames_cash) (Loader.columns c) /\
   same_outside ["date"; "cash_balance"] c (Loader.l_cash l)).
Proof.
  intros H Xa Xb Xc. apply load_Ok_frames in H.
  destruct H as (a' & b' & c' & f & (Ra & Rb & Rc & Rf) & _
                 & (ia & Hia & ->) & (ib & Hib & ->) & -> & _).
  apply read_excel_Ok in Ra, Rb, Rc.
  destruct Ra as [Ra _], Rb as [Rb _], Rc as [Rc _].
  assert (a' = a) by congruence. assert (b' = b) by congruence.
  assert (c' = c) by congruence. subst a' b' c'.
  split; [|split].
  - split; [simpl; apply normalized_columns|].
    apply (coerced_same_outside _ _ "amount"); simpl; auto.
  - split; [simpl; apply normalized_columns|].
    apply (coerced_same_outside _ _ "amount"); simpl; auto.
  - destruct (Loader.col_pos "cash_balance" _) as [k|] eqn:Ek.
    + split; [simpl; apply normalized_columns|].
      apply (coerced_same_outside _ _ "cash_balance"); simpl; auto.
    + split; [apply normalized_columns|].
      apply normalized_rename_same_outside. simpl; auto.
Qed.

Lemma load_keeps_other_cells_witness :
  exists l,
    Loader.load Sample.to_datetime Sample.no_number Sample.wb = Ok l /\
    (Loader.columns (Loader.l_actuals l)
     = ["date"; "entity"; "category"; "currency"; "amount"] /\
     same_outside ["date"; "amount"] Sample.amounts_sheet (Loader.l_actuals l)) /\
    (Loader.columns (Loader.l_budget l)
     = ["date"; "entity"; "category"; "currency"; "amount"] /\
     same_outside ["date"; "amount"] Sample.amounts_sheet (Loader.l_budget l)) /\
    (Loader.columns (Loader.l_cash l)
     = ["date"; "entity"; "currency"; "cash_balance"] /\
     same_outside ["date"; "cash_balance"] Sample.cash_sheet (Loader.l_cash l)).
Proof.
  eexists. split; [vm_compute; reflexivity|].
  refine (load_keeps_other_cells Sample.to_datetime Sample.no_number Sample.wb _
            Sample.amounts_sheet Sample.amounts_sheet Sample.cash_sheet _ _ _ _);
    vm_compute; reflexivity.
Defined.

#[global] Instance row_date_le_total (i : nat) : Total (Loader.row_date_le i).
Proof. intros a b. unfold Loader.row_date_le. apply Timestamp_le_total. Qed.

#[global] Instance row_date_le_trans (i : nat) : Transitive (Loader.row_date_le i).
Proof. intros a b c. unfold Loader.row_date_le. apply Timestamp_le_trans. Qed.

Lemma sort_values_by_date_sorted (i : nat) (df : Loader.RawFrame)
    (n m : nat) (row row' : list Loader.xcell) :
  (n <= m)%nat ->
  Loader.rows (Loader.sort_values_by_date i df) !! n = Some row ->
  Loader.rows (Loader.sort_values_by_date i df) !! m = Some row' ->
  Loader.row_date_le i row row'.
Proof.
  intros Hnm Hn Hm. simpl in Hn, Hm.
  destruct (decide (n = m)) as [->|Hne].
  - assert (row = row') by congruence. subst row'.
    unfold Loader.row_date_le. apply Timestamp_le_refl.
  - apply (StronglySorted_lookup_le (Loader.row_date_le i)
             (merge_sort (Loader.row_date_le i) (Loader.rows df)) n m); try assumption.
    + apply StronglySorted_merge_sort; apply _.
    + lia.
Qed.

(** X23. After loading, the [fx] frame has the renamed columns of its sheet
    and the rows of the sheet with their dates moved to the first of the
    month, none lost and none added, in the order of their dates (lines
    44-45, 50 and 59). *)
Theorem load_fx_sorted_by_date
    (pd_to_datetime : Loader.xcell -> option Timestamp)
    (parse_number : string -> option Qc) (xls : Loader.Workbook) (l : Loader.Loaded)
    (f : Loader.RawFrame) :
  Loader.load pd_to_datetime parse_number xls = Ok l ->
  xls !! "fx" = Some f ->
  Loader.columns (Loader.l_fx l)
  = map (Loader.rename_label Loader.renames_fx) (Loader.columns f) /\
  Loader.rows (Loader.l_fx l)
  ≡ₚ Loader.rows (Loader.normalized pd_to_datetime (Loader.rename Loader.renames_fx f)) /\
  exists i,
    Loader.col_pos "date" (Loader.columns (Loader.l_fx l)) = Some i /\
    forall (n m : nat) (row row' : list Loader.xcell),
      (n <= m)%nat ->
      Loader.rows (Loader.l_fx l) !! n = Some row ->
      Loader.rows (Loader.l_fx l) !! m = Some row' ->
      Timestamp_le (Loader.date_of_cell (Loader.cell_at i row))
                   (Loader.date_of_cell (Loader.cell_at i row')).
Proof.
  intros H Xf. apply load_Ok_frames in H.
  destruct H as (a & b & c & f' & (_ & _ & _ & Rf) & _ & _ & _ & _
                 & (i & j & k & Hi & _ & _ & -> & _)).
  apply read_excel_Ok in Rf. destruct Rf as [Rf _].
  assert (f' = f) by congruence. subst f'.
  split; [simpl; apply normalized_columns|].
  split; [simpl; apply merge_sort_Permutation|].
  exists i. split; [simpl; rewrite normalized_columns; exact Hi|].
  intros n m row row' Hnm Hn Hm.
  apply (sort_values_by_date_sorted i _ n m row row' Hnm Hn Hm).
Qed.

Lemma load_fx_sorted_by_date_witness :
  exists l,
    Loader.load Sample.to_datetime Sample.no_number Sample.wb = Ok l /\
    Loader.columns (Loader.l_fx l) = ["date"; "currency"; "usd_rate"] /\
    Loader.rows (Loader.l_fx l)
    ≡ₚ Loader.rows (Loader.normalized Sample.to_datetime
                      (Loader.rename Loader.renames_fx Sample.fx_sheet)) /\
    exists i,
      Loader.col_pos "date" (Loader.columns (Loader.l_fx l)) = Some i /\
      forall (n m : nat) (row row' : list Loader.xcell),
        (n <= m)%nat ->
        Loader.rows (Loader.l_fx l) !! n = Some row ->
        Loader.rows (Loader.l_fx l) !! m = Some row' ->
        Timestamp_le (Loader.date_of_cell (Loader.cell_at i row))
                     (Loader.date_of_cell (Loader.cell_at i row')).
Proof.
  eexists. split; [vm_compute; reflexivity|].
  refine (load_fx_sorted_by_date Sample.to_datetime Sample.no_number Sample.wb _
            Sample.fx_sheet _ _);
    vm_compute; reflexivity.
Defined.



Lemma coerced_is_number (parse_number : string -> option Qc) (c : Loader.xcell) :
  is_number (Loader.coerced parse_number c).
Proof.
  unfold Loader.coerced, Loader.fillna0.
  destruct (Loader.to_numeric_coerce parse_number c); eexists; reflexivity.
Qed.




Lemma null_cell_Some (c : Loader.xcell) :
  c <> Loader.XBlank -> Loader.null_cell c = Some c.
Proof. destruct c; simpl; congruence. Qed.

(** X25. The FX table after loading keeps the rate of every row of the [fx]
    sheet whose rate cell is not blank: it is read back at the first day of
    the month of the row and at the currency of the row, whatever the order
    of the rows in the sheet (lines 50 and 59-60).  [i], [j] and [k] are the
    positions of the date, currency and rate columns. *)
Theorem load_fx_map_keeps_sheet_rate
    (pd_to_datetime : Loader.xcell -> option Timestamp)
    (parse_number : string -> option Qc) (xls : Loader.Workbook) (l : Loader.Loaded)
    (f : Loader.RawFrame) (i j k : nat) (row : list Loader.xcell) (t : Timestamp) :
  Loader.load pd_to_datetime parse_number xls = Ok l ->
  xls !! "fx" = Some f ->
  Loader.col_pos "date" (Loader.columns (Loader.rename Loader.renames_fx f)) = Some i ->
  Loader.col_pos "currency" (Loader.columns (Loader.rename Loader.renames_fx f)) = Some j ->
  Loader.col_pos "usd_rate" (Loader.columns (Loader.rename Loader.renames_fx f)) = Some k ->
  In row (Loader.rows f) ->
  pd_to_datetime (Loader.cell_at i row) = Some t ->
  Loader.cell_at k row <> Loader.XBlank ->
  loc (Loader.l_fx_map l) (normalize_month t) (Loader.cell_at j row)
  = Ok (Some (Loader.cell_at k row)).
Proof.
  intros H Xf Hi Hj Hk Hrow Ht Hv. apply load_Ok_frames in H.
  destruct H as (a & b & c & f' & (_ & _ & _ & Rf) & _ & _ & _ & _
                 & (i' & j' & k' & Hi' & Hj' & Hk' & Hfx & Hmap)).
  apply read_excel_Ok in Rf. destruct Rf as [Rf _].
  assert (f' = f) by congruence. subst f'.
  assert (i' = i) by congruence. assert (j' = j) by congruence.
  assert (k' = k) by congruence. subst i' j' k'.
  apply (loc_build_fx_map_known _ _ _ _ _ Hmap).
  rewrite Hfx. unfold Loader.long_rows, Loader.sort_values_by_date.
  cbn [Loader.rows]. apply in_map_iff.
  set (row' := Loader.set_cell i (Loader.month_start_cell pd_to_datetime
                                    (Loader.cell_at i row)) row).
  assert (Hij : i <> j)
    by apply (col_pos_distinct "date" "currency" _ _ _ ltac:(discriminate) Hi Hj).
  assert (Hik : i <> k)
    by apply (col_pos_distinct "date" "usd_rate" _ _ _ ltac:(discriminate) Hi Hk).
  exists row'. split.
  - unfold row'. rewrite cell_at_set_cell_eq, !cell_at_set_cell_ne by assumption.
    unfold Loader.month_start_cell. rewrite Ht. cbn [Loader.date_of_cell].
    rewrite null_cell_Some by exact Hv. reflexivity.
  - apply list_elem_of_In. rewrite merge_sort_Permutation. apply list_elem_of_In.
    unfold Loader.normalized. rewrite Hi. unfold Loader.map_column.
    cbn [Loader.rows Loader.rename]. apply in_map_iff. exists row. auto.
Qed.

Lemma load_fx_map_keeps_sheet_rate_witness :
  exists l,
    Loader.load Sample.to_datetime Sample.no_number Sample.wb = Ok l /\
    loc (Loader.l_fx_map l) Sample.apr25 (Loader.XText "EUR")
    = Ok (Some (Loader.XNum (Sample.usd 2))).
Proof.
  eexists. split; [vm_compute; reflexivity|].
  refine (load_fx_map_keeps_sheet_rate Sample.to_datetime Sample.no_number Sample.wb _
            Sample.fx_sheet 0 1 2
            [Loader.XDate Sample.apr25; Loader.XText "EUR"; Loader.XNum (Sample.usd 2)]
            Sample.apr25 _ _ _ _ _ _ _ _).
  - vm_compute. reflexivity.
  - vm_compute. reflexivity.
  - vm_compute. reflexivity.
  - vm_compute. reflexivity.
  - vm_compute. reflexivity.
  - right. left. reflexivity.
  - reflexivity.
  - discriminate.
Defined.

(** ** Windows of months and unreadable months *)

Lemma period_range_succ (p n : Z) :
  0 <= n -> period_range p (n + 1) = (p - n) :: period_range p n.
Proof.
  intros Hn. unfold period_range.
  replace (Z.to_nat (n + 1)) with (S (Z.to_nat n)) by lia.
  cbn [seq map]. f_equal; [lia|].
  rewrite <- seq_shift, map_map. apply map_ext. intros i. lia.
Qed.

(** X26. A window of one more month adds one row in front and changes no
    other row: the trend over [N + 1] months is the row of the month [N]
    months before the end, followed by the trend over [N] months. *)
Theorem gross_margin_trend_longer_window (parse : string -> option datetime)
    (self : FinanceData) (N : Z) (end_month : option string) (end_ts : Timestamp) :
  0 <= N ->
  resolve_end parse end_month (map date (actuals self)) = Ok end_ts ->
  exists rows,
    gross_margin_trend parse self N end_month = Ok rows /\
    gross_margin_trend parse self (N + 1) end_month
    = Ok (margin_row self (to_timestamp (to_period end_ts - N)) :: rows).
Proof.
  intros HN Hres.
  exists (map (margin_row self) (months_ending end_ts N)).
  rewrite !(gross_margin_trend_dates parse self _ end_month end_ts Hres).
  split; [reflexivity|].
  unfold months_ending. rewrite period_range_succ by exact HN. reflexivity.
Qed.

Lemma gross_margin_trend_longer_window_witness :
  exists rows,
    gross_margin_trend Sample.parse Sample.fd 2 (Some "2025-06") = Ok rows /\
    gross_margin_trend Sample.parse Sample.fd (2 + 1) (Some "2025-06")
    = Ok (margin_row Sample.fd (to_timestamp (to_period Sample.jun25 - 2)) :: rows).
Proof.
  apply (gross_margin_trend_longer_window Sample.parse Sample.fd 2 (Some "2025-06")
           Sample.jun25).
  - lia.
  - vm_compute. reflexivity.
Defined.

(** X27. A month that [dateutil] cannot read stops every analysis before
    any data is looked at: [revenue_vs_budget], [opex_breakdown] and
    [ebitda_proxy] raise the parser's error, and so do
    [gross_margin_trend] and [cash_runway_months] when the text is given
    as a non-empty end month; none of them returns a result, whatever the
    data and the other arguments. *)
Theorem unreadable_month_raises (parse : string -> option datetime)
    (self : FinanceData) (m : string) (ent : option string) (months : Z) :
  parse m = None ->
  m <> "" ->
  revenue_vs_budget parse self m ent = Raise ParserError /\
  opex_breakdown parse self m ent = Raise ParserError /\
  ebitda_proxy parse self m ent = Raise ParserError /\
  gross_margin_trend parse self months (Some m) = Raise ParserError /\
  cash_runway_months parse self (Some m) ent = Raise ParserError.
Proof.
  intros Hp Hm.
  assert (Hts : _month_str_to_ts parse m = Raise ParserError).
  { unfold _month_str_to_ts. rewrite Hp. reflexivity. }
  assert (Hres : forall dates, resolve_end parse (Some m) dates = Raise ParserError).
  { intros dates. unfold resolve_end. destruct m; [congruence|exact Hts]. }
  unfold revenue_vs_budget, opex_breakdown, ebitda_proxy, gross_margin_trend,
    cash_runway_months.
  rewrite Hts, !Hres. repeat split; reflexivity.
Qed.

Lemma unreadable_month_raises_witness :
  revenue_vs_budget Sample.parse Sample.fd "next month" None = Raise ParserError /\
  opex_breakdown Sample.parse Sample.fd "next month" None = Raise ParserError /\
  ebitda_proxy Sample.parse Sample.fd "next month" None = Raise ParserError /\
  gross_margin_trend Sample.parse Sample.fd 3 (Some "next month") = Raise ParserError /\
  cash_runway_months Sample.parse Sample.fd (Some "next month") None = Raise ParserError.
Proof.
  apply (unreadable_month_raises Sample.parse Sample.fd "next month" None 3).
  - vm_compute. reflexivity.
  - discriminate.
Defined.
